(** * scilpy/io/varian_fdf.py: reader of Varian FDF files

    A shallow embedding of [load_fdf], [add_gradient_info], [read_file] and
    [read_directory], with the parts of the Python runtime, of [re], of
    [struct] and of numpy that these four functions call.

    Conventions of the embedding:
    - a Python exception is a value [Raise e] of the [result] monad;
    - text is [string]; a byte string is a [string] too (one [ascii] per
      byte).  The embedding covers ASCII headers: [bytes_decode] raises
      [UnicodeDecodeError] on every byte above 127, also where CPython
      would accept a well-formed multi-byte sequence;
    - a Python [float] and a numpy [float64] are binary64 values of
      [PrimFloat]; numpy [int64] is [Z] with its wrap-around written out;
    - a [dict] is a [gmap string pyval]; the dictionaries created by
      [read_file] live in a heap (a list indexed by reference) wherever
      [read_directory] aliases them. *)

From Stdlib Require Import ZArith String Ascii List Floats Lia.
From stdpp Require Import gmap strings list sorting.

Local Open Scope Z_scope.

(** ** Exceptions and the result monad *)

Inductive exn : Set :=
| IndexError | KeyError | ValueError | TypeError | OSError | StructError
| UnicodeDecodeError | OverflowError | StopIteration | FileNotFoundError.

Inductive result (A : Type) : Type :=
| Ok (a : A)
| Raise (e : exn).
Arguments Ok {A} a.
Arguments Raise {A} e.

#[global] Instance result_ret : MRet result := fun A a => Ok a.
#[global] Instance result_bind : MBind result := fun A B f m =>
  match m with Ok a => f a | Raise e => Raise e end.
#[global] Instance result_fmap : FMap result := fun A B f m =>
  match m with Ok a => Ok (f a) | Raise e => Raise e end.

Definition from_opt {A} (e : exn) (o : option A) : result A :=
  match o with Some a => Ok a | None => Raise e end.

Definition is_ok {A} (r : result A) : bool :=
  match r with Ok _ => true | Raise _ => false end.

(** ** Python strings *)

Module Py.

Definition chr (n : nat) : ascii := ascii_of_nat n.

(** [str.isspace] on the ASCII range: tab to carriage return, the four
    separators 28..31 and the space. *)
Definition isspace (c : ascii) : bool :=
  let n := nat_of_ascii c in
  ((9 <=? n) && (n <=? 13) || (28 <=? n) && (n <=? 32))%nat.

Definition isdigit (c : ascii) : bool :=
  let n := nat_of_ascii c in ((48 <=? n) && (n <=? 57))%nat.

Definition islower_az (c : ascii) : bool :=
  let n := nat_of_ascii c in ((97 <=? n) && (n <=? 122))%nat.

Fixpoint find_from (sub s : string) (i : Z) : Z :=
  if String.prefix sub s then i
  else match s with
       | EmptyString => -1
       | String _ s' => find_from sub s' (i + 1)
       end.

(** [s.find(sub)]: the lowest index of [sub] in [s], or -1. *)
Definition find (s sub : string) : Z := find_from sub s 0.

(** [sub in s] *)
Definition contains (sub s : string) : bool := 0 <=? find s sub.

Definition startswith (s pre : string) : bool := String.prefix pre s.

Fixpoint lstrip_by (p : ascii -> bool) (s : string) : string :=
  match s with
  | String c s' => if p c then lstrip_by p s' else s
  | EmptyString => EmptyString
  end.

Definition rstrip_by (p : ascii -> bool) (s : string) : string :=
  String.rev (lstrip_by p (String.rev s)).

(** [s.rstrip()] *)
Definition rstrip (s : string) : string := rstrip_by isspace s.

(** [s.strip(chars)] for a one-character [chars] *)
Definition strip_char (c : ascii) (s : string) : string :=
  rstrip_by (Ascii.eqb c) (lstrip_by (Ascii.eqb c) s).

(** [s.split()]: the maximal runs of non-space characters. *)
Fixpoint split_go (cur : option string) (s : string) : list string :=
  match s with
  | EmptyString => option_list (String.rev <$> cur)
  | String a s' =>
      if isspace a
      then option_list (String.rev <$> cur) ++ split_go None s'
      else split_go (Some (String a (default EmptyString cur))) s'
  end.
Definition split (s : string) : list string := split_go None s.

Definition digit_val (c : ascii) : Z := Z.of_nat (nat_of_ascii c) - 48.

(** [int(s)] for a run of ASCII digits *)
Definition int_of_digits (s : string) : Z :=
  fold_left (fun acc c => 10 * acc + digit_val c) (list_ascii_of_string s) 0.

Definition digit_chr (d : Z) : ascii := ascii_of_nat (Z.to_nat (48 + d)).

Fixpoint digits_go (fuel : nat) (n : Z) (acc : string) : string :=
  match fuel with
  | O => acc
  | S fuel' =>
      let acc' := String (digit_chr (n mod 10)) acc in
      if n / 10 =? 0 then acc' else digits_go fuel' (n / 10) acc'
  end.

(** [str(n)] for an integer *)
Definition str_of_int (n : Z) : string :=
  let d := digits_go (S (Z.to_nat (Z.log2 (Z.abs n)))) (Z.abs n) EmptyString in
  if n <? 0 then String "-"%char d else d.

(** The lines [readline] returns one after the other: each ends just
    after its newline, the last one at the end of the data. *)
Fixpoint lines_go (cur : string) (s : string) : list string :=
  match s with
  | EmptyString =>
      match cur with EmptyString => [] | _ => [String.rev cur] end
  | String c s' =>
      if Ascii.eqb c (chr 10)
      then String.rev (String c cur) :: lines_go EmptyString s'
      else lines_go (String c cur) s'
  end.
Definition readlines (s : string) : list string := lines_go EmptyString s.

(** [b.decode()] on ASCII data *)
Definition bytes_decode (b : string) : result string :=
  if forallb (fun c => (nat_of_ascii c <? 128)%nat) (list_ascii_of_string b)
  then Ok b else Raise UnicodeDecodeError.

End Py.

(** ** Regular expressions

    The four patterns of [read_file] are sequences of character classes
    under a greedy quantifier, with at most one capturing group; [re]
    matches them by backtracking, longest repetition first. *)

Module Re.

Inductive item : Type :=
| Rep (cls : ascii -> bool) (lo : nat) (hi : option nat)
| GroupStart
| GroupEnd.

Definition regex := list item.

Definition one (cls : ascii -> bool) : item := Rep cls 1 (Some 1%nat).
Definition opt (cls : ascii -> bool) : item := Rep cls 0 (Some 1%nat).
Definition star (cls : ascii -> bool) : item := Rep cls 0 None.
Definition plus (cls : ascii -> bool) : item := Rep cls 1 None.

Definition lit (c : ascii) : ascii -> bool := Ascii.eqb c.
Definition any_of (cs : string) : ascii -> bool :=
  fun c => existsb (Ascii.eqb c) (list_ascii_of_string cs).
Definition none_of (cs : string) : ascii -> bool :=
  fun c => negb (any_of cs c).
(** [.] matches everything but the newline. *)
Definition dot : ascii -> bool := none_of (String (Py.chr 10) EmptyString).

Definition drop (n : nat) (s : string) : string :=
  String.substring n (String.length s - n) s.
Definition slice (i j : nat) (s : string) : string :=
  String.substring i (j - i) s.

(** Length of the longest prefix of [s] inside [cls], at most [hi]. *)
Fixpoint span (cls : ascii -> bool) (hi : option nat) (s : string) : nat :=
  match s, hi with
  | _, Some O => O
  | String c s', _ =>
      if cls c then S (span cls (Nat.pred <$> hi) s') else O
  | EmptyString, _ => O
  end.

(** The repetition counts to try, greedy: [n], [n-1], ..., [lo]. *)
Definition counts (n lo : nat) : list nat :=
  reverse (seq lo (S n - lo)).

Fixpoint first_some {A B} (f : A -> option B) (l : list A) : option B :=
  match l with
  | [] => None
  | a :: l' => match f a with Some b => Some b | None => first_some f l' end
  end.

(** A match of [r] in [s] starting at [pos]: its end and the span of
    the group. *)
Fixpoint match_at (r : regex) (s : string) (pos : nat)
    (gs ge : option nat) : option (nat * option nat * option nat) :=
  match r with
  | [] => Some (pos, gs, ge)
  | GroupStart :: r' => match_at r' s pos (Some pos) ge
  | GroupEnd :: r' => match_at r' s pos gs (Some pos)
  | Rep cls lo hi :: r' =>
      first_some (fun k => match_at r' s (pos + k)%nat gs ge)
                 (counts (span cls hi (drop pos s)) lo)
  end.

Definition has_group (r : regex) : bool :=
  existsb (fun i => match i with GroupStart => true | _ => false end) r.

(** What [findall] reports for one match: the group when the pattern
    has one, the whole match otherwise. *)
Definition reported (r : regex) (s : string) (pos : nat)
    (m : nat * option nat * option nat) : string :=
  match m with
  | (e, Some a, Some b) => if has_group r then slice a b s else slice pos e s
  | (e, _, _) => if has_group r then EmptyString else slice pos e s
  end.

Fixpoint findall_from (fuel : nat) (r : regex) (s : string) (pos : nat)
    : list string :=
  match fuel with
  | O => []
  | S fuel' =>
      if (String.length s <? pos)%nat then []
      else match match_at r s pos None None with
           | Some (e, gs, ge) =>
               reported r s pos (e, gs, ge)
                 :: findall_from fuel' r s (if (e =? pos)%nat then S pos else e)
           | None => findall_from fuel' r s (S pos)
           end
  end.

(** [re.findall(r, s)]: the non-overlapping matches, left to right. *)
Definition findall (r : regex) (s : string) : list string :=
  findall_from (S (String.length s)) r s 0.

End Re.

(** '[-+]?[0-9]*\.?[0-9]+' *)
Definition float_regex : Re.regex :=
  [ Re.opt (Re.any_of "-+"); Re.star Py.isdigit; Re.opt (Re.lit ".");
    Re.plus Py.isdigit ].

(** The double quote, written by its code to keep it out of literals. *)
Definition dq : ascii := "034"%char.
Definition quoted (s : string) : string :=
  String dq (s ++ String dq EmptyString).

(** named_value_regex: an equals sign, spaces, quotes, the group (any
    run of characters ending in a character that is not a quote), quotes,
    spaces and a semicolon:  = *Q*(.*[^Q])Q* *;  with Q the double quote. *)
Definition named_value_regex : Re.regex :=
  [ Re.one (Re.lit "="); Re.star (Re.lit " "); Re.star (Re.lit dq);
    Re.GroupStart; Re.star Re.dot; Re.one (fun c => negb (Re.lit dq c));
    Re.GroupEnd;
    Re.star (Re.lit dq); Re.star (Re.lit " "); Re.one (Re.lit ";") ].

(** Two lower-case letters between double quotes:  Q[a-z]{2}Q *)
Definition units_regex : Re.regex :=
  [ Re.one (Re.lit dq); Re.Rep Py.islower_az 2 (Some 2%nat);
    Re.one (Re.lit dq) ].

(** '(\d+)' *)
Definition digits_regex : Re.regex :=
  [ Re.GroupStart; Re.plus Py.isdigit; Re.GroupEnd ].

Definition nl : string := String (Py.chr 10) EmptyString.


(** ** Floating point: Python floats, binary32 payload words *)

Module Fl.

(** [float(n)] for an integer: the nearest binary64 value. *)
Definition of_Z (z : Z) : float :=
  SF2Prim (binary_normalize prec emax z 0 false).

(** [int(x)]: truncation towards zero. *)
Definition to_int (x : float) : result Z :=
  match Prim2SF x with
  | S754_nan => Raise ValueError
  | S754_infinity _ => Raise OverflowError
  | S754_zero _ => Ok 0
  | S754_finite s m e =>
      let a := Z.shiftl (Zpos m) e in Ok (if s then - a else a)
  end.

(** The Python float that a binary32 bit pattern stands for. *)
Definition of_bits32 (w : Z) : float :=
  let s := Z.testbit w 31 in
  let e := Z.land (Z.shiftr w 23) 255 in
  let m := Z.land w (Z.ones 23) in
  if e =? 255 then
    if m =? 0 then (if s then neg_infinity else infinity) else nan
  else if e =? 0 then
    match m with
    | Zpos p => SF2Prim (S754_finite s p (-149))
    | _ => if s then neg_zero else zero
    end
  else SF2Prim (S754_finite s (Z.to_pos (m + 2 ^ 23)) (e - 150)).

(** A decimal literal, correctly rounded: sign, digits, an optional
    fraction and an optional exponent, between optional white space.
    This is [float(s)] on such literals; it serves as the instance of
    the parameter [py_float] in the examples evaluated below. *)
Definition spanp (p : ascii -> bool) (s : string) : string * string :=
  let n := Re.span p None s in (Re.slice 0 n s, Re.drop n s).

Definition sign_of (s : string) : bool * string :=
  match s with
  | String "-" s' => (true, s')
  | String "+" s' => (false, s')
  | _ => (false, s)
  end.

Definition exponent_of (s : string) : option Z :=
  match s with
  | EmptyString => Some 0
  | String c s' =>
      if Re.any_of "eE" c then
        let '(neg, s1) := sign_of s' in
        let '(ds, rest) := spanp Py.isdigit s1 in
        match ds, rest with
        | String _ _, EmptyString =>
            Some (if neg then - Py.int_of_digits ds else Py.int_of_digits ds)
        | _, _ => None
        end
      else None
  end.

Definition scaled (neg : bool) (m e : Z) : float :=
  match m with
  | Zpos p =>
      if 0 <=? e then SF2Prim (binary_normalize prec emax
                                 (if neg then - (m * 10 ^ e) else m * 10 ^ e) 0 false)
      else SF2Prim (SFdiv prec emax (S754_finite neg p 0)
                      (S754_finite false (Z.to_pos (10 ^ (- e))) 0))
  | _ => if neg then neg_zero else zero
  end.

Definition of_decimal (s : string) : option float :=
  let s := Py.lstrip_by Py.isspace (Py.rstrip s) in
  let '(neg, s1) := sign_of s in
  let '(ip, s2) := spanp Py.isdigit s1 in
  let '(fp, s3) := match s2 with
                   | String "." s2' => spanp Py.isdigit s2'
                   | _ => (EmptyString, s2)
                   end in
  if (String.length ip + String.length fp =? 0)%nat then None
  else e ← exponent_of s3;
       Some (scaled neg (Py.int_of_digits (ip ++ fp))
                    (e - Z.of_nat (String.length fp))).

End Fl.

#[global] Instance float_inhabited : Inhabited float := populate zero.

(** ** numpy arrays

    An array is its shape and its elements in row-major (C) order. *)

Module Np.

Record ndarray : Type := mk { shape : list nat; flat : list float }.

Definition ndim (a : ndarray) : nat := length (shape a).
Definition size (sh : list nat) : nat := foldr Nat.mul 1%nat sh.

(** [np.array(t)] for a flat sequence [t] of numbers *)
Definition array1 (l : list float) : ndarray := mk [length l] l.

Definition wrap64 (z : Z) : Z := (z + 2 ^ 63) mod 2 ^ 64 - 2 ^ 63.

(** [np.prod] of int64 values: the product, wrapping around. *)
Definition prod (l : list Z) : Z := foldl (fun acc d => wrap64 (acc * d)) 1 l.

(** [a.reshape(sh)]: one entry of [sh] may be -1 and is then inferred;
    the number of elements must not change. *)
Definition reshape (sh : list Z) (a : ndarray) : result ndarray :=
  let n := Z.of_nat (length (flat a)) in
  match filter (fun d => d < 0) sh with
  | [] =>
      if foldr Z.mul 1 sh =? n then Ok (mk (Z.to_nat <$> sh) (flat a))
      else Raise ValueError
  | [Zneg xH] =>
      let p := foldr Z.mul 1 (filter (fun d => 0 <= d) sh) in
      if (p =? 0) || negb (n mod p =? 0) then Raise ValueError
      else Ok (mk ((fun d => Z.to_nat (if d <? 0 then n / p else d)) <$> sh)
                  (flat a))
  | _ => Raise ValueError
  end.

(** [a.squeeze()]: the axes of length one go away. *)
Definition squeeze (a : ndarray) : ndarray :=
  mk (filter (fun d => d <> 1%nat) (shape a)) (flat a).

(** All index vectors of a shape, in row-major order. *)
Fixpoint indices (sh : list nat) : list (list nat) :=
  match sh with
  | [] => [[]]
  | d :: sh' => i ← seq 0 d; (cons i) <$> indices sh'
  end.

(** Position of the element at index vector [idx] in the flat data. *)
Definition offset (sh idx : list nat) : nat :=
  foldl (fun acc di => (acc * di.1 + di.2)%nat) 0%nat (zip sh idx).

(** The array of shape [sh] whose element at [idx] is the element of
    [a] at [src idx]. *)
Definition gather (sh : list nat) (src : list nat -> list nat)
    (a : ndarray) : ndarray :=
  mk sh ((fun idx => flat a !!! offset (shape a) (src idx)) <$> indices sh).

Definition is_perm (axes : list nat) (n : nat) : bool :=
  (length axes =? n)%nat && forallb (fun i => bool_decide (i ∈ axes)) (seq 0 n).

Definition index_of (d : nat) (axes : list nat) : nat :=
  default 0%nat (fst <$> list_find (fun x => x = d) axes).

(** [np.transpose(a, axes)]: axis [i] of the result is axis [axes[i]]
    of [a]. *)
Definition transpose (axes : list nat) (a : ndarray) : result ndarray :=
  if is_perm axes (ndim a) then
    Ok (gather ((fun ax => shape a !!! ax) <$> axes)
               (fun idx => (fun d => idx !!! index_of d axes) <$> seq 0 (ndim a))
               a)
  else Raise ValueError.

(** [np.flip(a, axis)] *)
Definition flip (axis : nat) (a : ndarray) : ndarray :=
  gather (shape a)
         (fun idx => alter (fun i => (shape a !!! axis - 1 - i)%nat) axis idx) a.

(** [a[:, ::-1]] *)
Definition rev_axis1 (a : ndarray) : result ndarray :=
  if (ndim a <? 2)%nat then Raise IndexError else Ok (flip 1 a).

(** The axes with the first two exchanged. *)
Definition swap01 (n : nat) : list nat :=
  match seq 0 n with
  | a :: b :: r => b :: a :: r
  | l => l
  end.

(** [np.rot90(m, k)] in the plane of the first two axes. *)
Definition rot90 (k : Z) (m : ndarray) : result ndarray :=
  if (ndim m <? 2)%nat then Raise ValueError
  else match k mod 4 with
       | 0 => Ok m
       | 1 => transpose (swap01 (ndim m)) (flip 1 m)
       | 2 => Ok (flip 1 (flip 0 m))
       | _ => flip 1 <$> transpose (swap01 (ndim m)) m
       end.

(** [np.array(l)] for a sequence of arrays: a new leading axis.  Arrays
    of different shapes do not stack. *)
Definition stack (l : list ndarray) : result ndarray :=
  match l with
  | [] => Ok (mk [0%nat] [])
  | a :: _ =>
      if forallb (fun b => bool_decide (shape b = shape a)) l
      then Ok (mk (length l :: shape a) (concat (flat <$> l)))
      else Raise ValueError
  end.

End Np.

(** ** Header dictionaries *)

Inductive pynum : Type :=
| NumF (x : float)
| NumI (z : Z).

(** The values a header holds: a string, an integer, a sequence of
    integers (list, tuple or int64 array), a float64 array, a list of
    numbers. *)
Inductive pyval : Type :=
| VStr (s : string)
| VInt (z : Z)
| VInts (l : list Z)
| VFloats (l : list float)
| VNums (l : list pynum).

Abbreviation header := (gmap string pyval).

(** [h[k]] *)
Definition get (h : header) (k : string) : result pyval :=
  from_opt KeyError (h !! k).

Definition get_str (h : header) (k : string) : result string :=
  v ← get h k; match v with VStr s => Ok s | _ => Raise TypeError end.
Definition get_ints (h : header) (k : string) : result (list Z) :=
  v ← get h k; match v with VInts l => Ok l | _ => Raise TypeError end.
Definition get_floats (h : header) (k : string) : result (list float) :=
  v ← get h k; match v with VFloats l => Ok l | _ => Raise TypeError end.
Definition get_nums (h : header) (k : string) : result (list pynum) :=
  v ← get h k; match v with VNums l => Ok l | _ => Raise TypeError end.

(** What [load_fdf] passes around under the names [data] and [header]. *)
Inductive pyobj : Type :=
| ObjDict (h : header)
| ObjArray (a : Np.ndarray).

(** ** struct and file positions *)

Definition byte_val (c : ascii) : Z := Z.of_nat (nat_of_ascii c).

(** The 32-bit words of a byte string, four bytes each. *)
Fixpoint words32 (little : bool) (b : list ascii) : list Z :=
  match b with
  | b0 :: b1 :: b2 :: b3 :: rest =>
      (if little
       then byte_val b0 + 2 ^ 8 * byte_val b1 + 2 ^ 16 * byte_val b2
            + 2 ^ 24 * byte_val b3
       else byte_val b3 + 2 ^ 8 * byte_val b2 + 2 ^ 16 * byte_val b1
            + 2 ^ 24 * byte_val b0) :: words32 little rest
  | _ => []
  end.

(** [struct.unpack(p + str(count) + 'f', buf)] with [p] one of the two
    byte-order marks: the buffer must hold [count] floats exactly; a
    negative count is not a format. *)
Definition struct_unpack (little : bool) (count : Z) (buf : list ascii)
    : result (list float) :=
  if (0 <=? count) && (Z.of_nat (length buf) =? 4 * count)
  then Ok (Fl.of_bits32 <$> words32 little buf)
  else Raise StructError.

(** [fp.seek(off, 2)]: the new position, counted from the end; a
    position before the start of the file is refused. *)
Definition seek_end (off : Z) (file : list ascii) : result nat :=
  let pos := Z.of_nat (length file) + off in
  if pos <? 0 then Raise OSError else Ok (Z.to_nat pos).

(** [fp.read(n)] at position [pos]: at most [n] bytes, all the rest for
    a negative [n]. *)
Definition read_at (pos : nat) (n : Z) (file : list ascii) : list ascii :=
  if n <? 0 then drop pos file else take (Z.to_nat n) (drop pos file).

(** [np.array(l)] for Python integers stays int64 only while every
    entry fits; beyond that numpy leaves int64 and none of the later
    steps of [read_file] succeeds, which the embedding reports here. *)
Definition int64_array (l : list Z) : result (list Z) :=
  if forallb (fun d => d <? 2 ^ 63) l then Ok l else Raise OverflowError.

Definition ff : ascii := Py.chr 12.

(** The first character of a string: [s[0]] *)
Definition head_char (s : string) : result ascii :=
  match s with String c _ => Ok c | EmptyString => Raise IndexError end.

(** ** The reader *)

Section Reader.

(** Python's [float] on strings. *)
Variable py_float : string -> option float.

Definition float_of (s : string) : result float :=
  from_opt ValueError (py_float s).

(** (tag_in_file, tag_in_header) *)
Definition find_values : list (string * string) :=
  [ ("echos", "nechoes"); ("echo_no", "echo_no"); ("nslices", "nslices");
    ("slice_no", "sl"); ("bigendian", "endian"); ("array_dim", "array_dim");
    ("bigendian", "endian"); ("studyid", "studyid") ].

(** The [for file_key, head_key in find_values] loop on one line: the
    first tag found past column 0 takes the value of the line. *)
Fixpoint scan_tags (tbl : list (string * string)) (line : string)
    (h : header) : result header :=
  match tbl with
  | [] => Ok h
  | (file_key, head_key) :: tbl' =>
      if 0 <? Py.find line file_key then
        v ← from_opt IndexError (head (Re.findall named_value_regex line));
        Ok (<[head_key := VStr v]> h)
      else scan_tags tbl' line h
  end.

(** [if type(raw_header['endian']) is int: ...] *)
Definition normalize_endian (h : header) : result header :=
  e ← get h "endian";
  match e with
  | VInt z => Ok (<["endian" := VStr (if negb (z =? 0) then ">" else "<")]> h)
  | _ => Ok h
  end.

(** [if unit == 'cm': unit = 'mm'] *)
Definition normalize_unit (unit : string) : string :=
  if String.eqb unit "cm" then "mm" else unit.

(** The [if line.find('abscissa') > 0: ... elif ...] chain. *)
Definition special_tags (line : string) (h : header) : result header :=
  if 0 <? Py.find line "abscissa" then
    let m := Re.findall units_regex (Py.rstrip line) in
    tok ← from_opt IndexError (head m);
    let unit := normalize_unit (Py.strip_char dq tok) in
    Ok (<["t_units" := VStr "unknown"]> (<["xyz_units" := VStr unit]> h))
  else if 0 <? Py.find line "roi" then
    let m := Re.findall float_regex (Py.rstrip line) in
    xs ← mapM (fun x => (fun f => PrimFloat.mul f 10) <$> float_of x) m;
    Ok (<["real_voxel_dim" := VFloats xs]> h)
  else if 0 <? Py.find line "orientation" then
    let m := Re.findall float_regex (Py.rstrip line) in
    xs ← mapM float_of m;
    Ok (<["orientation" := VFloats xs]> h)
  else if 0 <? Py.find line "origin" then
    let m := Re.findall float_regex (Py.rstrip line) in
    xs ← mapM float_of m;
    Ok (<["origin" := VFloats xs]> h)
  else if 0 <? Py.find line "matrix" then
    let m := Re.findall digits_regex (Py.rstrip line) in
    sh ← int64_array (Py.int_of_digits <$> m);
    Ok (<["shape" := VInts sh]> h)
  else Ok h.

(** One turn of the [while True] loop after the form-feed test. *)
Definition process_line (line : string) (h : header) : result header :=
  h ← scan_tags find_values line h;
  h ← normalize_endian h;
  special_tags line h.

(** The [while True] loop over the lines [readline] returns; at the end
    of the file [readline] returns an empty line and [line[0]] fails. *)
Fixpoint parse_lines (ls : list string) (h : header) : result header :=
  match ls with
  | [] => Raise IndexError
  | raw :: ls' =>
      line ← Py.bytes_decode raw;
      c ← head_char line;
      if Ascii.eqb c ff then Ok h
      else h ← process_line line h; parse_lines ls' h
  end.

Definition initial_header : header :=
  <["endian" := VStr ">"]> (<["shape" := VInts [-1; -1; 1; 1]]> ∅).

(** Lines 175-188: the unpack descriptor and the payload, taken from
    the end of the file.  A matrix line without a number leaves an empty
    float64 shape, whose product 1.0 is no file offset. *)
Definition decode_payload (file : string) (h : header)
    : result (header * list float) :=
  sh ← get_ints h "shape";
  let nb_voxels := Np.prod sh in
  e ← get_str h "endian";
  let little := Py.contains "<" e in
  let fmt := ((if little then "<" else ">") ++ Py.str_of_int nb_voxels ++ "f")%string in
  let h := <["fmt" := VStr fmt]> h in
  let bytes := list_ascii_of_string file in
  _ ← (if bool_decide (sh = []) then Raise TypeError else Ok ());
  pos ← seek_end (Np.wrap64 (Np.wrap64 (- nb_voxels) * 4)) bytes;
  let buf := read_at pos (Np.wrap64 (nb_voxels * 4)) bytes in
  data ← struct_unpack little nb_voxels buf;
  Ok (h, data).

(** Lines 190-193: [[j/i for i, j in zip(shape, real_voxel_dim)]] *)
Definition voxel_dims (sh : list Z) (rvd : list float) : list pynum :=
  zip_with (fun i j => NumF (PrimFloat.div j (Fl.of_Z i))) sh rvd.

(** [np.rot90(data, 3)[:, ::-1]] *)
Definition rot270_flip (a : Np.ndarray) : result Np.ndarray :=
  a ← Np.rot90 3 a; Np.rev_axis1 a.

(** [np.array(data).reshape(correct_shape).squeeze()] *)
Definition reshape_squeeze (sh : list Z) (data : list float)
    : result Np.ndarray :=
  Np.squeeze <$> Np.reshape (reverse sh) (Np.array1 data).

(** Lines 195-203. *)
Definition orient (sh : list Z) (data : list float) : result Np.ndarray :=
  a ← reshape_squeeze sh data;
  a ← (if bool_decide (length sh ≠ 2%nat) then Np.transpose [2; 1; 0]%nat a
       else Ok a);
  rot270_flip a.

Definition read_file (file : string) : result (header * Np.ndarray) :=
  raw_header ← parse_lines (Py.readlines file) initial_header;
  '(raw_header, data) ← decode_payload file raw_header;
  sh ← get_ints raw_header "shape";
  rvd ← get_floats raw_header "real_voxel_dim";
  let raw_header := <["voxel_dim" := VNums (voxel_dims sh rvd)]> raw_header in
  data ← orient sh data;
  Ok (raw_header, data).

(** *** Directories

    The dictionaries that [read_file] returned are objects on a heap:
    [all_headers] is the list of their references 0, 1, ... and
    [final_header = all_headers[0]] is one more name of the first. *)

Record volume : Type := mkvol {
  vol_data : Np.ndarray;
  vol_header : nat;
  vol_heap : list header
}.

(** [d[k] = v] through the reference [r] *)
Definition set_item (r : nat) (k : string) (v : pyval) (heap : list header)
    : list header :=
  alter (fun d => <[k := v]> d) r heap.

(** [d[k]] through the reference [r] *)
Definition get_item (r : nat) (k : string) (heap : list header)
    : result pyval :=
  d ← from_opt IndexError (heap !! r); get d k.

(** [a, b = zip( *l )] for a list of pairs: with no pair at all [zip]
    yields nothing and the unpacking fails. *)
Definition unpack_zip_star {A B} (l : list (A * B)) : result (list A * list B) :=
  match l with
  | [] => Raise ValueError
  | _ => Ok (fst <$> l, snd <$> l)
  end.

(** [round(n / t)] for integers [0 <= n] and [0 < t]: the nearest
    integer, a tie going to the even one.  Python rounds [n / t] to
    binary64 first, which for [n] below 2^52 does not change the
    result. *)
Definition round_div (n t : Z) : Z :=
  let q := n / t in
  match 2 * (n mod t) ?= t with
  | Lt => q
  | Gt => q + 1
  | Eq => if Z.even q then q else q + 1
  end.

(** [int(float(s))] *)
Definition int_float (s : string) : result Z :=
  x ← float_of s; Fl.to_int x.

Definition sorted_by_name (files : list (string * string))
    : list (string * string) :=
  merge_sort (fun a b => String.le a.1 b.1) files.

(** Lines 230-262, from the slices on: [heap] holds the dictionaries of
    the slices, [all_data] their arrays. *)
Definition assemble (heap : list header) (all_data : list Np.ndarray)
    : result volume :=
  let final_header := 0%nat in
  all_data ← Np.stack all_data;
  if (Np.ndim all_data <? 4)%nat then
    all_data ← Np.transpose [1; 2; 0]%nat all_data;
    let sh := Z.of_nat <$> Np.shape all_data in
    let heap := set_item final_header "shape" (VInts sh) heap in
    v ← get_item final_header "voxel_dim" heap;
    vd ← (match v with VNums l => Ok l | _ => Raise TypeError end);
    heap ← (if bool_decide (length sh ≠ length vd) then
              r ← get_item final_header "real_voxel_dim" heap;
              rvd ← (match r with VFloats l => Ok l | _ => Raise TypeError end);
              Ok (set_item final_header "voxel_dim"
                    (VNums (vd ++ (NumF <$> drop (length sh - 1) rvd))) heap)
            else Ok heap);
    a ← get_item final_header "array_dim" heap;
    time ← (match a with VStr s => int_float s | _ => Raise TypeError end);
    if 1 <? time then
      let sh4 := [sh !!! 0%nat; sh !!! 1%nat; round_div (sh !!! 2%nat) time; time] in
      let heap := set_item final_header "shape" (VInts sh4) heap in
      v ← get_item final_header "voxel_dim" heap;
      vd ← (match v with VNums l => Ok l | _ => Raise TypeError end);
      let heap := set_item final_header "voxel_dim" (VNums (vd ++ [NumI 1])) heap in
      all_data ← Np.reshape sh4 all_data;
      Ok (mkvol all_data final_header heap)
    else Ok (mkvol all_data final_header heap)
  else
    all_data ← Np.transpose [3; 2; 1; 0]%nat all_data;
    all_data ← Np.transpose [1; 0; 2; 3]%nat all_data;
    let heap := set_item final_header "shape"
                  (VInts (Z.of_nat <$> Np.shape all_data)) heap in
    v ← get_item final_header "voxel_dim" heap;
    vd ← (match v with VNums l => Ok l | _ => Raise TypeError end);
    let heap := set_item final_header "voxel_dim"
                  (VNums (vd ++ [NumF 1%float])) heap in
    Ok (mkvol all_data final_header heap).

(** [read_directory]: [files] are the entries of the directory that
    match *.fdf, each with its content; [None] is Python's [None]. *)
Definition read_directory (files : list (string * string))
    : result (option volume) :=
  let files := sorted_by_name files in
  slices ← mapM (fun fl => read_file fl.2) files;
  '(all_headers, all_data) ← unpack_zip_star slices;
  match all_headers with
  | [] => Ok None
  | _ => Some <$> assemble all_headers all_data
  end.

(** *** Gradients *)

(** [next(procpar)] *)
Definition next_line (ls : list string) : result (string * list string) :=
  match ls with
  | l :: ls' => Ok (l, ls')
  | [] => Raise StopIteration
  end.

Record gradients : Type := mkgrad {
  bval : option string; diff_x : option string;
  diff_y : option string; diff_z : option string
}.

(** The body of [for line in procpar], once. *)
Definition procpar_step (line : string) (rest : list string) (g : gradients)
    : result (gradients * list string) :=
  '(g, rest) ← (if Py.startswith line "bvalue"
                then '(l, r) ← next_line rest;
                     Ok (mkgrad (Some l) (diff_x g) (diff_y g) (diff_z g), r)
                else Ok (g, rest));
  '(g, rest) ← (if Py.startswith line "dpe "
                then '(l, r) ← next_line rest;
                     Ok (mkgrad (bval g) (Some l) (diff_y g) (diff_z g), r)
                else Ok (g, rest));
  '(g, rest) ← (if Py.startswith line "dro "
                then '(l, r) ← next_line rest;
                     Ok (mkgrad (bval g) (diff_x g) (Some l) (diff_z g), r)
                else Ok (g, rest));
  if Py.startswith line "dsl "
  then '(l, r) ← next_line rest;
       Ok (mkgrad (bval g) (diff_x g) (diff_y g) (Some l), r)
  else Ok (g, rest).

Fixpoint procpar_loop (fuel : nat) (ls : list string) (g : gradients)
    : result gradients :=
  match fuel, ls with
  | S fuel', line :: rest =>
      '(g, rest) ← procpar_step line rest g; procpar_loop fuel' rest g
  | _, _ => Ok g
  end.

(** Truth value of a string or [None] *)
Definition truthy (o : option string) : bool :=
  match o with
  | Some (String _ _) => true
  | _ => false
  end.

(** [[float(x) for x in s.split()[1:]]] *)
Definition floats_after_key (s : string) : result (list float) :=
  mapM float_of (tail (Py.split s)).

(** [add_gradient_info]: [procpar] are the lines of the file; the
    object [header] is changed in place and is returned here.  Only a
    dictionary takes a string key. *)
Definition add_gradient_info (procpar : list string) (header : pyobj)
    : result pyobj :=
  g ← procpar_loop (length procpar) procpar
        (mkgrad None None None None);
  if truthy (bval g) && truthy (diff_x g) && truthy (diff_y g)
     && truthy (diff_z g) then
    bv ← floats_after_key (default EmptyString (bval g));
    match header with
    | ObjArray _ => Raise IndexError
    | ObjDict h =>
        let h := <["bvalue" := VFloats bv]> h in
        dx ← floats_after_key (default EmptyString (diff_x g));
        let h := <["diff_x" := VFloats (PrimFloat.opp <$> dx)]> h in
        dy ← floats_after_key (default EmptyString (diff_y g));
        let h := <["diff_y" := VFloats dy]> h in
        dz ← floats_after_key (default EmptyString (diff_z g));
        Ok (ObjDict (<["diff_z" := VFloats dz]> h))
    end
  else Ok header.

(** *** The entry point *)

(** What [file_path] names, and the procpar file next to it. *)
Inductive fs_entry : Type :=
| NoEntry
| RegularFile (content : string)
| Directory (fdf_files : list (string * string)).

Record world : Type := mkworld {
  entry : fs_entry;
  procpar_file : option (list string)
}.

(** [load_fdf]: the pair it returns.  [data, header = read_file(...)]
    gives the two names to the components of the pair in the order
    [read_file] returns them. *)
Definition load_fdf (w : world) : result (pyobj * pyobj) :=
  '(data, header) ←
    match entry w with
    | Directory files =>
        r ← read_directory files;
        match r with
        | None => Raise TypeError
        | Some v =>
            h ← from_opt IndexError (vol_heap v !! vol_header v);
            Ok (ObjArray (vol_data v), ObjDict h)
        end
    | RegularFile content =>
        '(r1, r2) ← read_file content;
        Ok (ObjDict r1, ObjArray r2)
    | NoEntry => Raise FileNotFoundError
    end;
  match procpar_file w with
  | Some procpar =>
      header ← add_gradient_info procpar header; Ok (data, header)
  | None => Ok (data, header)
  end.

End Reader.

(** ** Lines of interest *)

(** A line that the [elif line.find('roi') > 0] branch handles. *)
Definition is_roi_line (line : string) : bool :=
  negb (0 <? Py.find line "abscissa") && (0 <? Py.find line "roi").

(** A line that the [if line.find('abscissa') > 0] branch handles. *)
Definition is_units_line (line : string) : bool :=
  0 <? Py.find line "abscissa".

(** The true product of a shape, without wrap-around. *)
Definition product (sh : list Z) : Z := foldr Z.mul 1 sh.

(** The bytes of a file from position [len - n] on. *)
Definition tail_bytes (n : Z) (file : string) : list ascii :=
  drop (Z.to_nat (Z.of_nat (String.length file) - n)) (list_ascii_of_string file).

(** The bytes that follow the form feed opening the first line that
    starts with one. *)
Fixpoint after_form_feed (ls : list string) : option string :=
  match ls with
  | [] => None
  | String c rest :: ls' =>
      if Ascii.eqb c ff then Some (rest ++ String.concat EmptyString ls')%string
      else after_form_feed ls'
  | EmptyString :: ls' => after_form_feed ls'
  end.

Definition payload_size (file : string) : option nat :=
  String.length <$> after_form_feed (Py.readlines file).


(** ** Writing the gradient files *)

Section Writer.

(** Python's [str] on floating point numbers. *)
Variable py_str : float -> string.

(** [[str(i) for i in v]]: a string gives its characters, an integer
    is not iterable. *)
Definition strs (v : pyval) : result (list string) :=
  match v with
  | VStr s => Ok ((fun c => String c EmptyString) <$> list_ascii_of_string s)
  | VInt _ => Raise TypeError
  | VInts l => Ok (Py.str_of_int <$> l)
  | VFloats l => Ok (py_str <$> l)
  | VNums l =>
      Ok ((fun x => match x with
                    | NumF f => py_str f
                    | NumI i => Py.str_of_int i
                    end) <$> l)
  end.

(** [' '.join(str(i) for i in header[k])] *)
Definition joined (h : header) (k : string) : result string :=
  v ← get h k; String.concat " " <$> strs v.

(** [write_gradient_information]: [fs] maps the paths to the contents
    of the files; a path that is given can be opened for writing.
    Opening a file empties it, each [write] adds to it, and what was
    written stays when an exception leaves the [with] block. *)
Definition write_gradient_information (header : header)
    (bval_path bvec_path : option string) (fs : gmap string string)
    : gmap string string * result unit :=
  if bool_decide (is_Some (header !! "bvalue"))
     && bool_decide (is_Some (header !! "diff_x"))
     && bool_decide (is_Some (header !! "diff_y"))
     && bool_decide (is_Some (header !! "diff_z")) then
    let w :=
      if truthy bval_path then
        let p := default EmptyString bval_path in
        let fs := <[p := EmptyString]> fs in
        match joined header "bvalue" with
        | Ok s => (<[p := s]> fs, Ok ())
        | Raise e => (fs, Raise e)
        end
      else (fs, Ok ()) in
    match w.2 with
    | Raise e => w
    | Ok _ =>
        if truthy bvec_path then
          let q := default EmptyString bvec_path in
          let fs := <[q := EmptyString]> w.1 in
          match joined header "diff_x" with
          | Raise e => (fs, Raise e)
          | Ok sx =>
              let fs := <[q := (sx ++ nl)%string]> fs in
              match joined header "diff_y" with
              | Raise e => (fs, Raise e)
              | Ok sy =>
                  let fs := <[q := (sx ++ nl ++ sy ++ nl)%string]> fs in
                  match joined header "diff_z" with
                  | Raise e => (fs, Raise e)
                  | Ok sz =>
                      (<[q := (sx ++ nl ++ sy ++ nl ++ sz)%string]> fs, Ok ())
                  end
              end
          end
        else w
    end
  else (fs, Ok ()).

End Writer.
(** ** Example files *)

Definition byte_of (w k : Z) : ascii :=
  ascii_of_nat (Z.to_nat (Z.land (Z.shiftr w (8 * k)) 255)).

(** The four bytes of a 32-bit word, least significant first. *)
Definition le32 (w : Z) : string :=
  string_of_list_ascii (byte_of w <$> [0; 1; 2; 3]).

(** The four bytes of a 32-bit word, most significant first. *)
Definition be32 (w : Z) : string :=
  string_of_list_ascii (byte_of w <$> [3; 2; 1; 0]).

Definition pack (enc : Z -> string) (ws : list Z) : string :=
  foldr (fun w acc => (enc w ++ acc)%string) EmptyString ws.

(** The binary32 bit patterns of 0.0, 1.0, ..., 15.0. *)
Definition bits_0_to_15 : list Z :=
  [ 0; 0x3F800000; 0x40000000; 0x40400000; 0x40800000; 0x40A00000;
    0x40C00000; 0x40E00000; 0x41000000; 0x41100000; 0x41200000;
    0x41300000; 0x41400000; 0x41500000; 0x41600000; 0x41700000 ].

Definition form_feed_line : string := String ff nl.

(** A 4x4 slice that declares itself little-endian. *)
Definition example_text : string :=
  ("int matrix[] = {4,4};" ++ nl ++ "float roi[] = {1.0,1.0,0.1};" ++ nl
   ++ "int bigendian = 0;" ++ nl)%string.

Definition example_file : string :=
  (example_text ++ form_feed_line ++ pack le32 bits_0_to_15)%string.

(** The same slice declaring itself big-endian. *)
Definition example_file_be : string :=
  ("int matrix[] = {4,4};" ++ nl ++ "float roi[] = {1.0,1.0,0.1};" ++ nl
   ++ "int bigendian = 1;" ++ nl ++ form_feed_line
   ++ pack be32 bits_0_to_15)%string.

(** A 2x2 matrix declared over a payload of six floats. *)
Definition surplus_file : string :=
  ("float matrix[] = {2,2};" ++ nl ++ "float roi[] = {1.0,1.0};" ++ nl
   ++ form_feed_line ++ pack be32 (firstn 6 bits_0_to_15))%string.

(** A 2x2 slice of a series with [array_dim] repetitions. *)
Definition slice_file (array_dim : string) (ws : list Z) : string :=
  ("float matrix[] = {2,2};" ++ nl ++ "float roi[] = {1.0,1.0,0.1};" ++ nl
   ++ "float array_dim = " ++ array_dim ++ ";" ++ nl
   ++ "char *abscissa[] = {" ++ quoted "cm" ++ "," ++ quoted "cm" ++ "};" ++ nl
   ++ form_feed_line ++ pack be32 ws)%string.

Definition three_slices : list (string * string) :=
  [ ("s3.fdf", slice_file "2" (firstn 4 (skipn 8 bits_0_to_15)));
    ("s1.fdf", slice_file "2" (firstn 4 bits_0_to_15));
    ("s2.fdf", slice_file "2" (firstn 4 (skipn 4 bits_0_to_15))) ]%string.

Definition four_slices : list (string * string) :=
  three_slices
  ++ [("s4.fdf"%string, slice_file "2" (firstn 4 (skipn 12 bits_0_to_15)))].

Definition procpar_lines : list string :=
  [ "bvalue 1"; "2 0 1000"; "dpe 1"; "2 0 1"; "dro 1"; "2 0 0";
    "dsl 1"; "2 0 0" ]%string.

(** The units line of the comment in [read_file]. *)
Definition units_line : string :=
  ("char  *abscissa[] = {" ++ quoted "cm" ++ ", " ++ quoted "cm" ++ "};"
   ++ nl)%string.

(** A 2x2 matrix declared over a payload of three floats. *)
Definition truncated_file : string :=
  ("float matrix[] = {2,2};" ++ nl ++ "float roi[] = {1.0,1.0};" ++ nl
   ++ form_feed_line ++ pack be32 (firstn 3 (skipn 1 bits_0_to_15)))%string.

(** A slice with an empty matrix axis, in a series of two repetitions. *)
Definition empty_slice_file : string :=
  ("float matrix[] = {0,4};" ++ nl ++ "float roi[] = {1.0,1.0,0.1};" ++ nl
   ++ "float array_dim = 2;" ++ nl ++ form_feed_line)%string.

Definition three_empty_slices : list (string * string) :=
  [ ("e1.fdf", empty_slice_file); ("e2.fdf", empty_slice_file);
    ("e3.fdf", empty_slice_file) ]%string.

(** Forty 2x2 slices of a series of four repetitions. *)
Definition forty_slices : list (string * string) :=
  (fun i => (("s" ++ Py.str_of_int (100 + Z.of_nat i) ++ ".fdf")%string,
             slice_file "4" (firstn 4 bits_0_to_15))) <$> seq 0 40.

(** The shape and the voxel sizes of a header. *)
Definition header_view (h : header) : option pyval * option pyval :=
  (h !! "shape", h !! "voxel_dim").

(** The shape of the array of a volume, the reference of its header and
    the view of every header on its heap. *)
Definition volume_view (r : result (option volume))
    : result (option (list nat * nat * list (option pyval * option pyval))) :=
  match r with
  | Ok (Some v) =>
      Ok (Some (Np.shape (vol_data v), vol_header v,
                header_view <$> vol_heap v))
  | Ok None => Ok None
  | Raise e => Raise e
  end.



(** A file with a matrix line of three numbers and its twelve floats. *)
Definition cube_file : string :=
  ("float matrix[] = {2,3,2};" ++ nl ++ "float roi[] = {1.0,1.0,1.0};" ++ nl
   ++ form_feed_line ++ pack be32 (firstn 12 bits_0_to_15))%string.

Definition two_cubes : list (string * string) :=
  [ ("c1.fdf", cube_file); ("c2.fdf", cube_file) ]%string.

(** Two 2x2 slices of a series without repetition. *)
Definition two_plain_slices : list (string * string) :=
  [ ("p1.fdf", slice_file "1" (firstn 4 bits_0_to_15));
    ("p2.fdf", slice_file "1" (firstn 4 (skipn 4 bits_0_to_15))) ]%string.

(** A directory with a file that is empty. *)
Definition broken_directory : list (string * string) :=
  [ ("a.fdf", example_file); ("b.fdf", EmptyString) ]%string.

(** A procpar file without the gradient directions. *)
Definition bvalue_only : list string := [ "bvalue 1"; "2 0 1000" ]%string.

(** Python's [str] on the floating point numbers of the examples, which
    are whole numbers: the digits, a point and a zero. *)
Definition show_float (f : float) : string :=
  match Prim2SF f with
  | S754_zero s => if s then "-0.0" else "0.0"
  | S754_infinity s => if s then "-inf" else "inf"
  | S754_nan => "nan"
  | S754_finite s m e =>
      ((if s then "-" else "") ++ Py.str_of_int (Z.shiftl (Zpos m) e) ++ ".0")
  end%string.

(** A header with the gradient information of two measurements. *)
Definition gradient_header : header :=
  <["bvalue" := VFloats [0; 1000]%float]>
    (<["diff_x" := VFloats [1; 0]%float]>
       (<["diff_y" := VFloats [0; 1]%float]>
          (<["diff_z" := VFloats [0; 0]%float]> ∅))).

(** A 2x2 slice with its orientation and origin. *)
Definition oriented_file : string :=
  ("float matrix[] = {2,2};" ++ nl ++ "float roi[] = {1.0,1.0,0.1};" ++ nl
   ++ "float orientation[] = {1.0,0.0,0.0,0.0,1.0,0.0,0.0,0.0,1.0};" ++ nl
   ++ "float origin[] = {0.5,0.5};" ++ nl
   ++ form_feed_line ++ pack be32 (firstn 4 bits_0_to_15))%string.



(** ** Views and predicates used in the statements *)

(** A token of the units pattern: two lower-case letters in quotes. *)
Definition is_unit_token (tok : string) : Prop :=
  exists a b, tok = quoted (String a (String b EmptyString))
              /\ Py.islower_az a = true /\ Py.islower_az b = true.

(** The shape, the unpack descriptor and the array of a result. *)
Definition geometry_of (r : result (header * Np.ndarray))
    : result (option pyval * option pyval * Np.ndarray) :=
  (fun ha => (ha.1 !! "shape", ha.1 !! "fmt", ha.2)) <$> r.

(** The byte order flag, the unpack descriptor and the data of a
    result. *)
Definition endian_of (r : result (header * Np.ndarray))
    : result (option pyval * option pyval * list float) :=
  (fun ha => (ha.1 !! "endian", ha.1 !! "fmt", Np.flat ha.2)) <$> r.

(** The value a heap holds under key [k] of the dictionary at [r]. *)
Definition item (r : nat) (k : string) (heap : list header) : option pyval :=
  heap !! r ≫= fun d => d !! k.

(** Two heaps that differ at most under the keys [shape] and
    [voxel_dim] of the dictionary at reference 0. *)
Definition same_but_geometry_of_first (heap heap' : list header) : Prop :=
  length heap' = length heap
  /\ (forall i : nat, i <> 0%nat -> heap' !! i = heap !! i)
  /\ (forall k, k <> "shape"%string -> k <> "voxel_dim"%string ->
                item 0 k heap' = item 0 k heap).


#[global] Instance ndarray_inhabited : Inhabited Np.ndarray :=
  populate (Np.mk [] []).

#[global] Instance volume_inhabited : Inhabited volume :=
  populate (mkvol inhabitant 0%nat []).

#[global] Instance pyobj_inhabited : Inhabited pyobj :=
  populate (ObjArray inhabitant).

(** The value of a result, for results that are values. *)
Definition the {A} `{Inhabited A} (r : result A) : A :=
  match r with Ok a => a | Raise _ => inhabitant end.

(** [a[i0, i1, ...]]: the element of an array at an index vector. *)
Definition at_index (a : Np.ndarray) (idx : list nat) : float :=
  Np.flat a !!! Np.offset (Np.shape a) idx.

(** An index vector that lies inside a shape. *)
Definition valid_index (sh idx : list nat) : Prop :=
  Forall2 (fun i d => (i < d)%nat) idx sh.

(** A slice of shape (a, b) with its [a * b] elements. *)
Definition is_slice (a b : nat) (x : Np.ndarray) : Prop :=
  Np.shape x = [a; b] /\ length (Np.flat x) = (a * b)%nat.

(** [l] is the line of [ls] right after a line that starts with [tag]. *)
Definition follows (tag l : string) (ls : list string) : Prop :=
  exists pre line post,
    ls = pre ++ line :: l :: post /\ Py.startswith line tag = true.

(** The four tags of [add_gradient_info] with the field each one fills. *)
Definition gradient_fields : list (string * (gradients -> option string)) :=
  [ ("bvalue"%string, bval); ("dpe "%string, diff_x);
    ("dro "%string, diff_y); ("dsl "%string, diff_z) ].

(** A line that starts with one of the four tags. *)
Definition is_tag_line (line : string) : bool :=
  existsb (fun tf : string * (gradients -> option string) =>
             Py.startswith line tf.1) gradient_fields.

(** A line that the [elif line.find('matrix') > 0] branch handles. *)
Definition is_matrix_line (line : string) : bool :=
  negb (0 <? Py.find line "abscissa") && negb (0 <? Py.find line "roi")
  && negb (0 <? Py.find line "orientation")
  && negb (0 <? Py.find line "origin") && (0 <? Py.find line "matrix").

(** A line that opens with the form feed. *)
Definition is_form_feed_line (line : string) : Prop :=
  exists rest, line = String ff rest.

(** A string of decimal digits. *)
Definition all_digits (s : string) : Prop :=
  Forall (fun c => Py.isdigit c = true) (list_ascii_of_string s).

(** The last [n] binary32 numbers of a file, in the byte order given. *)
Definition payload_floats (little : bool) (n : Z) (file : string) : list float :=
  Fl.of_bits32 <$> words32 little (tail_bytes (4 * n) file).

(** The entries of a shape that [squeeze] keeps. *)
Definition non_unit (sh : list Z) : list Z := filter (fun d => d <> 1) sh.

(** An array of shape [sh] with all its elements. *)
Definition is_array (sh : list nat) (x : Np.ndarray) : Prop :=
  Np.shape x = sh /\ length (Np.flat x) = Np.size sh.

(** The keys of a header that hold text. *)
Definition text_keys : list string :=
  [ "nechoes"; "echo_no"; "nslices"; "sl"; "endian"; "array_dim"; "studyid";
    "xyz_units"; "t_units"; "fmt" ]%string.

(** The keys of a header that hold an array of floating point numbers. *)
Definition float_keys : list string :=
  [ "real_voxel_dim"; "orientation"; "origin" ]%string.

(** The keys [read_file] sets whatever the file holds. *)
Definition required_keys : list string :=
  [ "shape"; "endian"; "fmt"; "real_voxel_dim"; "voxel_dim" ]%string.

(** An entry as [read_file] writes them: the key is one of those above
    and the value has the type that goes with it. *)
Definition header_entry_ok (k : string) (v : pyval) : Prop :=
  (k ∈ text_keys /\ exists s, v = VStr s)
  \/ (k ∈ float_keys /\ exists fs, v = VFloats fs)
  \/ (k = "shape"%string /\ exists sh, v = VInts sh)
  \/ (k = "voxel_dim"%string /\ exists l, v = VNums l).

(** The four keys of the gradient information. *)
Definition gradient_keys : list string :=
  [ "bvalue"; "diff_x"; "diff_y"; "diff_z" ]%string.

(** A line of numbers as [write_gradient_information] writes it. *)
Definition number_line (py_str : float -> string) (l : list float) : string :=
  String.concat " " (py_str <$> l).

(** The keys of the header that the loop over [find_values] writes. *)
Definition tag_keys : list string := snd <$> find_values.

(** A text that ends in a character other than the double quote and
    has no newline before that character. *)
Definition is_tag_value (v : string) : Prop :=
  exists body c,
    v = (body ++ String c EmptyString)%string /\ c <> dq
    /\ Forall (fun x => x <> Py.chr 10) (list_ascii_of_string body).

(** The entries under the keys of the tags hold text of that form. *)
Definition tags_ok (h : header) : Prop :=
  forall k v, k ∈ tag_keys -> h !! k = Some v ->
              exists s, v = VStr s /\ is_tag_value s.

(** The dictionary of an object that is one. *)
Definition dict_of (o : pyobj) : header :=
  match o with ObjDict h => h | ObjArray _ => ∅ end.

Definition is_dict (o : pyobj) : bool :=
  match o with ObjDict _ => true | ObjArray _ => false end.

(** A line that the [elif line.find('orientation') > 0] branch handles. *)
Definition is_orientation_line (line : string) : bool :=
  negb (0 <? Py.find line "abscissa") && negb (0 <? Py.find line "roi")
  && (0 <? Py.find line "orientation").

(** A line that the [elif line.find('origin') > 0] branch handles. *)
Definition is_origin_line (line : string) : bool :=
  negb (0 <? Py.find line "abscissa") && negb (0 <? Py.find line "roi")
  && negb (0 <? Py.find line "orientation") && (0 <? Py.find line "origin").

(** The two keys that [save_babel] builds the affine from, each with
    the test for the lines that set it. *)
Definition affine_fields : list (string * (string -> bool)) :=
  [ ("orientation"%string, is_orientation_line);
    ("origin"%string, is_origin_line) ].

(** ** Monad laws used below *)

Lemma bind_ok {A B} (m : result A) (f : A -> result B) (b : B) :
  m ≫= f = Ok b -> exists a, m = Ok a /\ f a = Ok b.
Proof. destruct m as [a|e]; simpl; [eauto | discriminate]. Qed.

Lemma fmap_ok {A B} (m : result A) (f : A -> B) (b : B) :
  f <$> m = Ok b -> exists a, m = Ok a /\ b = f a.
Proof. destruct m as [a|e]; simpl; [|discriminate]. intros [= <-]; eauto. Qed.

Lemma from_opt_ok {A} (e : exn) (o : option A) (a : A) :
  from_opt e o = Ok a -> o = Some a.
Proof. destruct o; simpl; congruence. Qed.

(** A result that is a value is the value [the] picks. *)
Lemma the_ok {A} `{Inhabited A} (r : result A) :
  is_ok r = true -> r = Ok (the r).
Proof. by destruct r. Qed.

Lemma the_ok_pair {A B} `{Inhabited A} `{Inhabited B} (r : result (A * B)) :
  is_ok r = true -> r = Ok ((the r).1, (the r).2).
Proof. by destruct r as [[a b]|e]. Qed.

Lemma the_ok_some {A} `{Inhabited A} (r : result (option A)) :
  is_ok r = true -> is_Some (the r) ->
  r = Ok (Some (default inhabitant (the r))).
Proof. destruct r as [[a|]|e]; try done. by intros _ [? [=]]. Qed.

Ltac solve_notin :=
  repeat (apply not_elem_of_cons; split; [discriminate|]); apply not_elem_of_nil.

Ltac inv_ok H :=
  repeat match type of H with
  | (_ ≫= _) = Ok _ =>
      let a := fresh "a" in let Ha := fresh "Ha" in
      apply bind_ok in H as (a & Ha & H)
  | (Ok _) = Ok _ => injection H as H
  end.

Lemma mapM_fmap_ok {A B C} (f : A -> result B) (g : B -> C) (l : list A)
    (ys : list C) :
  mapM (fun x => g <$> f x) l = Ok ys ->
  exists xs, mapM f l = Ok xs /\ ys = g <$> xs.
Proof.
  revert ys; induction l as [|x l IH]; intros ys H; simpl in *.
  - injection H as <-. exists []. auto.
  - apply bind_ok in H as (y & Hy & H).
    apply bind_ok in H as (ys' & Hys & H).
    injection H as <-.
    apply fmap_ok in Hy as (b & Hb & ->).
    destruct (IH _ Hys) as (xs & Hxs & ->).
    exists (b :: xs). rewrite Hb; simpl. rewrite Hxs; simpl. auto.
Qed.

Lemma get_ints_ok (h : header) k l :
  get_ints h k = Ok l <-> h !! k = Some (VInts l).
Proof.
  unfold get_ints, get. destruct (h !! k) as [[]|]; simpl; split; congruence.
Qed.

Lemma get_floats_ok (h : header) k l :
  get_floats h k = Ok l <-> h !! k = Some (VFloats l).
Proof.
  unfold get_floats, get. destruct (h !! k) as [[]|]; simpl; split; congruence.
Qed.

Lemma get_str_ok (h : header) k s :
  get_str h k = Ok s <-> h !! k = Some (VStr s).
Proof.
  unfold get_str, get. destruct (h !! k) as [[]|]; simpl; split; congruence.
Qed.

(** ** What the header parser does to a key *)

Section HeaderProperties.

Variable py_float : string -> option float.

Lemma scan_tags_other tbl line (h h' : header) k :
  scan_tags tbl line h = Ok h' ->
  k ∉ (snd <$> tbl) ->
  h' !! k = h !! k.
Proof.
  revert h h'; induction tbl as [|[fk hk] tbl IH]; intros h h' H Hk; simpl in *.
  - congruence.
  - apply not_elem_of_cons in Hk as [Hne Hk].
    destruct (0 <? Py.find line fk).
    + apply bind_ok in H as (v & _ & H). injection H as <-.
      by rewrite lookup_insert_ne.
    + eauto.
Qed.

Lemma scan_tags_str tbl line (h h' : header) k :
  scan_tags tbl line h = Ok h' ->
  (exists s, h !! k = Some (VStr s)) ->
  exists s, h' !! k = Some (VStr s).
Proof.
  revert h h'; induction tbl as [|[fk hk] tbl IH]; intros h h' H Hs; simpl in *.
  - by injection H as <-.
  - destruct (0 <? Py.find line fk).
    + apply bind_ok in H as (v & _ & H). injection H as <-.
      destruct (decide (hk = k)) as [->|Hne].
      * rewrite lookup_insert_eq. eauto.
      * by rewrite lookup_insert_ne.
    + eauto.
Qed.

(** The integer test of [normalize_endian] never fires on a string. *)
Lemma normalize_endian_str (h : header) s :
  h !! "endian" = Some (VStr s) -> normalize_endian h = Ok h.
Proof. intros H. unfold normalize_endian, get. by rewrite H. Qed.

Lemma normalize_endian_inv (h h' : header) :
  normalize_endian h = Ok h' ->
  (exists s, h !! "endian" = Some (VStr s)) ->
  h' = h.
Proof.
  intros H [s Hs]. rewrite (normalize_endian_str _ _ Hs) in H. congruence.
Qed.

Lemma special_tags_other line (h h' : header) k :
  special_tags py_float line h = Ok h' ->
  k ∉ ["t_units"; "xyz_units"; "real_voxel_dim"; "orientation"; "origin";
       "shape"] ->
  h' !! k = h !! k.
Proof.
  intros H Hk. unfold special_tags in H.
  repeat (apply not_elem_of_cons in Hk as [? Hk]).
  repeat match type of H with
  | (if ?c then _ else _) = _ => destruct c
  end;
  try (apply bind_ok in H as (? & _ & H)); injection H as <-;
  by rewrite ?lookup_insert_ne.
Qed.

Lemma process_line_endian line (h h' : header) :
  process_line py_float line h = Ok h' ->
  (exists s, h !! "endian" = Some (VStr s)) ->
  exists s, h' !! "endian" = Some (VStr s).
Proof.
  intros H Hs. unfold process_line in H.
  apply bind_ok in H as (h1 & H1 & H).
  apply bind_ok in H as (h2 & H2 & H).
  pose proof (scan_tags_str _ _ _ _ "endian" H1 Hs) as Hs1.
  apply normalize_endian_inv in H2 as ->; [|done].
  rewrite (special_tags_other _ _ _ "endian" H); [done|].
  solve_notin.
Qed.

Lemma parse_lines_endian ls (h h' : header) :
  parse_lines py_float ls h = Ok h' ->
  (exists s, h !! "endian" = Some (VStr s)) ->
  exists s, h' !! "endian" = Some (VStr s).
Proof.
  revert h; induction ls as [|raw ls IH]; intros h H Hs; simpl in H.
  - discriminate.
  - apply bind_ok in H as (line & _ & H).
    apply bind_ok in H as (c & _ & H).
    destruct (Ascii.eqb c ff).
    + by injection H as <-.
    + apply bind_ok in H as (h1 & H1 & H).
      eauto using process_line_endian.
Qed.

(** The only branch that writes [real_voxel_dim] is the one of a roi
    line; it stores each number of the line times ten. *)
Lemma process_line_roi line (h h' : header) :
  process_line py_float line h = Ok h' ->
  if is_roi_line line
  then exists fs,
         mapM (float_of py_float) (Re.findall float_regex (Py.rstrip line)) = Ok fs
         /\ h' !! "real_voxel_dim"
            = Some (VFloats ((fun f => PrimFloat.mul f 10) <$> fs))
  else h' !! "real_voxel_dim" = h !! "real_voxel_dim".
Proof.
  intros H. unfold process_line in H.
  apply bind_ok in H as (h1 & H1 & H).
  apply bind_ok in H as (h2 & H2 & H).
  assert (Hk : h2 !! "real_voxel_dim" = h !! "real_voxel_dim").
  { unfold normalize_endian in H2. apply bind_ok in H2 as (e & _ & H2).
    transitivity (h1 !! "real_voxel_dim").
    - destruct e; injection H2 as <-; by rewrite ?lookup_insert_ne.
    - apply (scan_tags_other _ _ _ _ _ H1). simpl. solve_notin. }
  unfold special_tags in H. unfold is_roi_line.
  destruct (0 <? Py.find line "abscissa"); simpl.
  { apply bind_ok in H as (? & _ & H). injection H as <-.
    by rewrite !lookup_insert_ne. }
  destruct (0 <? Py.find line "roi"); simpl.
  { apply bind_ok in H as (xs & Hxs & H). injection H as <-.
    apply mapM_fmap_ok in Hxs as (fs & Hfs & ->).
    exists fs. by rewrite lookup_insert_eq. }
  rewrite <- Hk.
  repeat match type of H with
  | (if ?c then _ else _) = _ => destruct c
  end;
  try (apply bind_ok in H as (? & _ & H)); injection H as <-;
  by rewrite ?lookup_insert_ne.
Qed.

Lemma bytes_decode_ok raw line : Py.bytes_decode raw = Ok line -> line = raw.
Proof. unfold Py.bytes_decode. case (forallb _ _); congruence. Qed.

(** After the loop [real_voxel_dim] is what the header held before, or
    what some roi line of the file put there. *)
Lemma parse_lines_roi ls (h h' : header) :
  parse_lines py_float ls h = Ok h' ->
  h' !! "real_voxel_dim" = h !! "real_voxel_dim"
  \/ exists line fs,
       line ∈ ls /\ is_roi_line line = true
       /\ mapM (float_of py_float) (Re.findall float_regex (Py.rstrip line))
          = Ok fs
       /\ h' !! "real_voxel_dim"
          = Some (VFloats ((fun f => PrimFloat.mul f 10) <$> fs)).
Proof.
  revert h; induction ls as [|raw ls IH]; intros h H; simpl in H.
  - discriminate.
  - apply bind_ok in H as (line & Hline & H).
    apply bytes_decode_ok in Hline as ->.
    apply bind_ok in H as (c & _ & H).
    destruct (Ascii.eqb c ff).
    + left. by injection H as <-.
    + apply bind_ok in H as (h1 & H1 & H).
      apply process_line_roi in H1.
      destruct (IH _ H) as [Heq | (line & fs & Hin & Hroi & Hfs & Hv)].
      * destruct (is_roi_line raw) eqn:Hroi.
        -- destruct H1 as (fs & Hfs & Hv). right. exists raw, fs.
           rewrite Heq. split_and!; auto. apply list_elem_of_here.
        -- left. congruence.
      * right. exists line, fs. split_and!; auto. by apply list_elem_of_further.
Qed.

(** The steps of a successful [read_file]. *)
Lemma read_file_ok file (h : header) a :
  read_file py_float file = Ok (h, a) ->
  exists (h1 h2 : header) sh rvd data,
    parse_lines py_float (Py.readlines file) initial_header = Ok h1
    /\ decode_payload file h1 = Ok (h2, data)
    /\ h2 !! "shape" = Some (VInts sh)
    /\ h2 !! "real_voxel_dim" = Some (VFloats rvd)
    /\ h = <["voxel_dim" := VNums (voxel_dims sh rvd)]> h2
    /\ orient sh data = Ok a.
Proof.
  intros H. unfold read_file in H.
  apply bind_ok in H as (h1 & H1 & H).
  apply bind_ok in H as ([h2 data] & H2 & H).
  apply bind_ok in H as (sh & Hsh & H).
  apply bind_ok in H as (rvd & Hrvd & H).
  apply bind_ok in H as (a' & Ha & H).
  injection H as <- <-.
  apply get_ints_ok in Hsh. apply get_floats_ok in Hrvd.
  exists h1, h2, sh, rvd, data. split_and!; auto.
Qed.

(** [decode_payload] only adds the key [fmt]. *)
Lemma decode_payload_other file (h h2 : header) data k :
  decode_payload file h = Ok (h2, data) ->
  k <> "fmt"%string ->
  h2 !! k = h !! k.
Proof.
  intros H Hk. unfold decode_payload in H.
  apply bind_ok in H as (sh & _ & H).
  apply bind_ok in H as (e & _ & H).
  apply bind_ok in H as (? & _ & H).
  apply bind_ok in H as (pos & _ & H).
  apply bind_ok in H as (d & _ & H).
  injection H as <- <-. by rewrite lookup_insert_ne.
Qed.

Lemma length_voxel_dims sh rvd :
  length (voxel_dims sh rvd) = (length sh `min` length rvd)%nat.
Proof. unfold voxel_dims. apply length_zip_with. Qed.

Lemma voxel_dims_take sh rvd :
  voxel_dims sh rvd = voxel_dims sh (take (length sh) rvd).
Proof.
  unfold voxel_dims. revert rvd; induction sh as [|i sh IH]; intros [|j rvd];
    simpl; f_equal; auto.
Qed.

Lemma voxel_dims_lookup sh rvd (i : nat) d r :
  sh !! i = Some d -> rvd !! i = Some r ->
  voxel_dims sh rvd !! i = Some (NumF (PrimFloat.div r (Fl.of_Z d))).
Proof.
  intros Hd Hr. unfold voxel_dims. rewrite lookup_zip_with, Hd; simpl.
  by rewrite Hr.
Qed.

(** What a successful [read_file] leaves under the three geometry
    keys. *)
Lemma read_file_geometry file (h : header) a :
  read_file py_float file = Ok (h, a) ->
  exists line fs sh,
    line ∈ Py.readlines file /\ is_roi_line line = true
    /\ mapM (float_of py_float) (Re.findall float_regex (Py.rstrip line))
       = Ok fs
    /\ h !! "real_voxel_dim"
       = Some (VFloats ((fun f => PrimFloat.mul f 10) <$> fs))
    /\ h !! "shape" = Some (VInts sh)
    /\ h !! "voxel_dim"
       = Some (VNums (voxel_dims sh ((fun f => PrimFloat.mul f 10) <$> fs))).
Proof.
  intros H.
  apply read_file_ok in H as (h1 & h2 & sh & rvd & data & H1 & H2 & Hsh & Hrvd & -> & _).
  rewrite (decode_payload_other _ _ _ _ "real_voxel_dim" H2) in Hrvd by done.
  apply parse_lines_roi in H1 as [Heq | (line & fs & Hin & Hroi & Hfs & Hv)].
  { rewrite Heq in Hrvd. discriminate. }
  rewrite Hv in Hrvd. injection Hrvd as <-.
  exists line, fs, sh. split_and!; auto.
  - rewrite lookup_insert_ne by done.
    by rewrite (decode_payload_other _ _ _ _ "real_voxel_dim" H2).
  - by rewrite lookup_insert_ne.
  - by rewrite lookup_insert_eq.
Qed.

(** C7: in the header of every file that [read_file] reads, the
    region-of-interest numbers of a roi line, each times ten, are
    [real_voxel_dim], and [voxel_dim[i]] is [real_voxel_dim[i] / shape[i]]
    at every index both sequences have. *)
Theorem voxel_dim_is_roi_over_shape file (h : header) a :
  read_file py_float file = Ok (h, a) ->
  exists line fs sh rvd vd,
    line ∈ Py.readlines file /\ is_roi_line line = true
    /\ mapM (float_of py_float) (Re.findall float_regex (Py.rstrip line))
       = Ok fs
    /\ rvd = (fun f => PrimFloat.mul f 10) <$> fs
    /\ h !! "real_voxel_dim" = Some (VFloats rvd)
    /\ h !! "shape" = Some (VInts sh)
    /\ h !! "voxel_dim" = Some (VNums vd)
    /\ forall (i : nat) d r,
         sh !! i = Some d -> rvd !! i = Some r ->
         vd !! i = Some (NumF (PrimFloat.div r (Fl.of_Z d))).
Proof.
  intros H.
  apply read_file_geometry in H as (line & fs & sh & Hin & Hroi & Hfs & Hr & Hs & Hv).
  exists line, fs, sh, ((fun f => PrimFloat.mul f 10) <$> fs),
    (voxel_dims sh ((fun f => PrimFloat.mul f 10) <$> fs)).
  split_and!; auto using voxel_dims_lookup.
Qed.

(** C10: after a successful [read_file], [voxel_dim] has as many entries
    as the shorter of [shape] and [real_voxel_dim]; the entries of
    [real_voxel_dim] past the length of [shape] play no part in it. *)
Theorem voxel_dim_length_is_min file (h : header) a :
  read_file py_float file = Ok (h, a) ->
  exists sh rvd vd,
    h !! "shape" = Some (VInts sh)
    /\ h !! "real_voxel_dim" = Some (VFloats rvd)
    /\ h !! "voxel_dim" = Some (VNums vd)
    /\ length vd = (length sh `min` length rvd)%nat
    /\ vd = voxel_dims sh (take (length sh) rvd).
Proof.
  intros H.
  apply read_file_geometry in H as (line & fs & sh & _ & _ & _ & Hr & Hs & Hv).
  eexists sh, _, _. split_and!; eauto using length_voxel_dims, voxel_dims_take.
Qed.

End HeaderProperties.

(** The slice of [example_file]: a roi of three numbers over a matrix of
    two gives two voxel sizes, 10/4 each. *)
Lemma voxel_dim_is_roi_over_shape_witness :
  exists (h : header) a,
    read_file Fl.of_decimal example_file = Ok (h, a)
    /\ h !! "voxel_dim" = Some (VNums [NumF 2.5; NumF 2.5])
    /\ exists line fs sh rvd vd,
         line ∈ Py.readlines example_file /\ is_roi_line line = true
         /\ mapM (float_of Fl.of_decimal)
              (Re.findall float_regex (Py.rstrip line)) = Ok fs
         /\ rvd = (fun f => PrimFloat.mul f 10) <$> fs
         /\ h !! "real_voxel_dim" = Some (VFloats rvd)
         /\ h !! "shape" = Some (VInts sh)
         /\ h !! "voxel_dim" = Some (VNums vd)
         /\ forall (i : nat) d r,
              sh !! i = Some d -> rvd !! i = Some r ->
              vd !! i = Some (NumF (PrimFloat.div r (Fl.of_Z d))).
Proof.
  exists (the (read_file Fl.of_decimal example_file)).1,
         (the (read_file Fl.of_decimal example_file)).2.
  assert (E : read_file Fl.of_decimal example_file
              = Ok ((the (read_file Fl.of_decimal example_file)).1,
                    (the (read_file Fl.of_decimal example_file)).2))
    by (apply the_ok_pair; vm_compute; reflexivity).
  split; [exact E|]. split.
  - vm_compute. reflexivity.
  - apply (voxel_dim_is_roi_over_shape Fl.of_decimal example_file _ _ E).
Defined.

Lemma voxel_dim_length_is_min_witness :
  exists (h : header) a,
    read_file Fl.of_decimal example_file = Ok (h, a)
    /\ h !! "real_voxel_dim" = Some (VFloats [10; 10; 1]%float)
    /\ exists sh rvd vd,
         h !! "shape" = Some (VInts sh)
         /\ h !! "real_voxel_dim" = Some (VFloats rvd)
         /\ h !! "voxel_dim" = Some (VNums vd)
         /\ length vd = (length sh `min` length rvd)%nat
         /\ vd = voxel_dims sh (take (length sh) rvd).
Proof.
  exists (the (read_file Fl.of_decimal example_file)).1,
         (the (read_file Fl.of_decimal example_file)).2.
  assert (E : read_file Fl.of_decimal example_file
              = Ok ((the (read_file Fl.of_decimal example_file)).1,
                    (the (read_file Fl.of_decimal example_file)).2))
    by (apply the_ok_pair; vm_compute; reflexivity).
  split; [exact E|]. split.
  - vm_compute. reflexivity.
  - apply (voxel_dim_length_is_min Fl.of_decimal example_file _ _ E).
Defined.

(** ** The units pattern matches a quoted pair of lower-case letters *)

Lemma drop_empty n : Re.drop n EmptyString = EmptyString.
Proof. by destruct n. Qed.

Lemma drop_0 s : Re.drop 0 s = s.
Proof.
  unfold Re.drop. rewrite Nat.sub_0_r.
  induction s as [|c s IH]; simpl; [done|]. by rewrite IH.
Qed.

Lemma drop_S c s n : Re.drop (S n) (String c s) = Re.drop n s.
Proof. reflexivity. Qed.

Lemma drop_add s n k : Re.drop (n + k) s = Re.drop k (Re.drop n s).
Proof.
  revert s; induction n as [|n IH]; intros s; simpl.
  - by rewrite drop_0.
  - destruct s as [|c s].
    + by rewrite !drop_empty.
    + by rewrite !drop_S.
Qed.

Lemma slice_drop s i j : Re.slice i j s = String.substring 0 (j - i) (Re.drop i s).
Proof.
  unfold Re.slice. generalize (j - i)%nat as m.
  revert s; induction i as [|i IH]; intros s m.
  - by rewrite drop_0.
  - destruct s as [|c s].
    + rewrite drop_empty. by destruct m.
    + rewrite drop_S. simpl. apply IH.
Qed.

Lemma first_some_ok {A B} (f : A -> option B) (l : list A) b :
  Re.first_some f l = Some b -> exists a, a ∈ l /\ f a = Some b.
Proof.
  induction l as [|a l IH]; simpl; [discriminate|].
  destruct (f a) as [b'|] eqn:Hfa.
  - intros [= <-]. exists a. split; [apply list_elem_of_here | done].
  - intros H. destruct (IH H) as (a' & Hin & Ha').
    exists a'. split; [by apply list_elem_of_further | done].
Qed.

Lemma elem_of_counts k n lo : k ∈ Re.counts n lo -> (lo <= k <= n)%nat.
Proof.
  unfold Re.counts. rewrite elem_of_reverse, elem_of_seq. lia.
Qed.

(** A repetition consumes some admissible number of characters, and the
    rest of the pattern matches behind them. *)
Lemma match_at_rep cls lo hi r s pos gs ge m :
  Re.match_at (Re.Rep cls lo hi :: r) s pos gs ge = Some m ->
  exists k, (lo <= k <= Re.span cls hi (Re.drop pos s))%nat
            /\ Re.match_at r s (pos + k) gs ge = Some m.
Proof.
  simpl. intros H. apply first_some_ok in H as (k & Hk & H).
  apply elem_of_counts in Hk. eauto.
Qed.

(** Every string that [findall] reports satisfies what every match of
    the pattern satisfies. *)
Lemma findall_from_Forall (P : string -> Prop) r s :
  (forall pos m, Re.match_at r s pos None None = Some m ->
                 P (Re.reported r s pos m)) ->
  forall fuel pos, Forall P (Re.findall_from fuel r s pos).
Proof.
  intros HP fuel. induction fuel as [|fuel IH]; intros pos; simpl; [constructor|].
  destruct (String.length s <? pos)%nat; [constructor|].
  destruct (Re.match_at r s pos None None) as [[[e gs] ge]|] eqn:Hm; [|apply IH].
  constructor; [|apply IH]. apply (HP pos _ Hm).
Qed.

Lemma span_cons cls n c s :
  Re.span cls (Some (S n)) (String c s)
  = if cls c then S (Re.span cls (Some n) s) else 0%nat.
Proof. reflexivity. Qed.

Lemma span_none cls n : Re.span cls (Some n) EmptyString = 0%nat.
Proof. by destruct n. Qed.

Lemma span_zero cls s : Re.span cls (Some 0%nat) s = 0%nat.
Proof. by destruct s. Qed.

Lemma units_regex_match s pos m :
  Re.match_at units_regex s pos None None = Some m ->
  is_unit_token (Re.reported units_regex s pos m).
Proof.
  unfold units_regex, Re.one. intros H.
  apply match_at_rep in H as (k1 & Hk1 & H).
  apply match_at_rep in H as (k2 & Hk2 & H).
  apply match_at_rep in H as (k3 & Hk3 & H).
  injection H as <-.
  rewrite !drop_add in *.
  change (Re.reported _ s pos (pos + k1 + k2 + k3, None, None)%nat)
    with (Re.slice pos (pos + k1 + k2 + k3) s).
  rewrite slice_drop.
  replace (pos + k1 + k2 + k3 - pos)%nat with (k1 + k2 + k3)%nat by lia.
  destruct (Re.drop pos s) as [|c0 rest]; [rewrite span_none in Hk1; lia|].
  rewrite span_cons, span_zero in Hk1.
  destruct (Re.lit dq c0) eqn:Hc0; [|lia].
  assert (k1 = 1%nat) as -> by lia.
  rewrite drop_S, drop_0 in Hk2, Hk3.
  destruct rest as [|c1 rest]; [rewrite span_none in Hk2; lia|].
  rewrite span_cons in Hk2.
  destruct (Py.islower_az c1) eqn:Hc1; [|lia].
  destruct rest as [|c2 rest]; [rewrite span_none in Hk2; lia|].
  rewrite span_cons, span_zero in Hk2.
  destruct (Py.islower_az c2) eqn:Hc2; [|lia].
  assert (k2 = 2%nat) as -> by lia.
  rewrite !drop_S, drop_0 in Hk3.
  destruct rest as [|c3 rest]; [rewrite span_none in Hk3; lia|].
  rewrite span_cons, span_zero in Hk3.
  destruct (Re.lit dq c3) eqn:Hc3; [|lia].
  assert (k3 = 1%nat) as -> by lia.
  apply Ascii.eqb_eq in Hc0 as <-, Hc3 as <-.
  exists c1, c2. split_and!; auto.
  by destruct rest.
Qed.

Lemma findall_units s : Forall is_unit_token (Re.findall units_regex s).
Proof. apply findall_from_Forall, units_regex_match. Qed.

(** Stripping the quotes of a unit token leaves its two letters. *)
Lemma lstrip_by_cons p c s :
  Py.lstrip_by p (String c s) = if p c then Py.lstrip_by p s else String c s.
Proof. reflexivity. Qed.

Lemma strip_unit_token a b :
  Py.islower_az a = true -> Py.islower_az b = true ->
  Py.strip_char dq (quoted (String a (String b EmptyString)))
  = String a (String b EmptyString).
Proof.
  intros Ha Hb.
  assert (Hne : forall c, Py.islower_az c = true -> Ascii.eqb dq c = false).
  { intros c Hc. apply Ascii.eqb_neq. intros <-. discriminate. }
  unfold Py.strip_char, Py.rstrip_by.
  change (quoted (String a (String b EmptyString)))
    with (String dq (String a (String b (String dq EmptyString)))).
  rewrite lstrip_by_cons, Ascii.eqb_refl, lstrip_by_cons, (Hne a Ha).
  change (String.rev (String a (String b (String dq EmptyString))))
    with (String dq (String b (String a EmptyString))).
  by rewrite lstrip_by_cons, Ascii.eqb_refl, lstrip_by_cons, (Hne b Hb).
Qed.

(** ** Units *)

Section Units.

Variable py_float : string -> option float.

Lemma normalize_unit_cm : normalize_unit "cm" = "mm"%string.
Proof. reflexivity. Qed.

Lemma normalize_unit_other u : u <> "cm"%string -> normalize_unit u = u.
Proof.
  intros Hu. unfold normalize_unit.
  destruct (String.eqb_spec u "cm"); [contradiction | reflexivity].
Qed.

Lemma normalize_unit_idem u :
  normalize_unit (normalize_unit u) = normalize_unit u.
Proof.
  unfold normalize_unit at 2.
  destruct (String.eqb_spec u "cm") as [->|Hu]; [reflexivity|].
  reflexivity.
Qed.

(** The units branch on a line whose first token is [tok]. *)
Lemma special_tags_units line (h : header) tok rest :
  is_units_line line = true ->
  Re.findall units_regex (Py.rstrip line) = tok :: rest ->
  special_tags py_float line h
  = Ok (<["t_units" := VStr "unknown"]>
          (<["xyz_units" := VStr (normalize_unit (Py.strip_char dq tok))]> h)).
Proof.
  unfold is_units_line, special_tags. intros -> ->. reflexivity.
Qed.

(** C8: on a units line whose first quoted token is [tok], the token is
    a quoted pair of lower-case letters, the units branch succeeds on
    every header and stores the pair, with cm turned into mm and every
    other pair as it is, under [xyz_units], and unknown under [t_units];
    the line as a whole, when it is processed, leaves just these two
    values; normalising twice is normalising once. *)
Theorem unit_normalization line (h : header) tok rest :
  is_units_line line = true ->
  Re.findall units_regex (Py.rstrip line) = tok :: rest ->
  exists a b,
    let unit := String a (String b EmptyString) in
    tok = quoted unit
    /\ Py.islower_az a = true /\ Py.islower_az b = true
    /\ special_tags py_float line h
       = Ok (<["t_units" := VStr "unknown"]>
               (<["xyz_units" := VStr (normalize_unit unit)]> h))
    /\ (forall h', process_line py_float line h = Ok h' ->
                   h' !! "xyz_units" = Some (VStr (normalize_unit unit))
                   /\ h' !! "t_units" = Some (VStr "unknown"))
    /\ (unit = "cm"%string -> normalize_unit unit = "mm"%string)
    /\ (unit <> "cm"%string -> normalize_unit unit = unit)
    /\ normalize_unit (normalize_unit unit) = normalize_unit unit.
Proof.
  intros Hline Hm.
  pose proof (findall_units (Py.rstrip line)) as Hall.
  rewrite Hm in Hall. apply Forall_cons in Hall as [(a & b & -> & Ha & Hb) _].
  exists a, b. cbv zeta.
  assert (Hst : forall h0 : header,
    special_tags py_float line h0
    = Ok (<["t_units" := VStr "unknown"]>
            (<["xyz_units" := VStr (normalize_unit (String a (String b EmptyString)))]> h0))).
  { intros h0. rewrite (special_tags_units _ _ _ _ Hline Hm).
    by rewrite strip_unit_token. }
  split_and!; auto using normalize_unit_other, normalize_unit_idem.
  - intros h' H. unfold process_line in H.
    apply bind_ok in H as (h1 & _ & H). apply bind_ok in H as (h2 & _ & H).
    rewrite Hst in H. injection H as <-.
    rewrite lookup_insert_ne, !lookup_insert_eq by done. done.
  - by intros ->.
Qed.

End Units.

(** The line of the example in [read_file]: cm is stored as mm. *)
Lemma unit_normalization_witness :
  (fun h : header => (h !! "xyz_units", h !! "t_units"))
    <$> process_line Fl.of_decimal units_line initial_header
  = Ok (Some (VStr "mm"), Some (VStr "unknown"))
  /\ exists a b,
    let unit := String a (String b EmptyString) in
    quoted "cm" = quoted unit
    /\ Py.islower_az a = true /\ Py.islower_az b = true
    /\ special_tags Fl.of_decimal units_line initial_header
       = Ok (<["t_units" := VStr "unknown"]>
               (<["xyz_units" := VStr (normalize_unit unit)]> initial_header))
    /\ (forall h', process_line Fl.of_decimal units_line initial_header = Ok h' ->
                   h' !! "xyz_units" = Some (VStr (normalize_unit unit))
                   /\ h' !! "t_units" = Some (VStr "unknown"))
    /\ (unit = "cm"%string -> normalize_unit unit = "mm"%string)
    /\ (unit <> "cm"%string -> normalize_unit unit = unit)
    /\ normalize_unit (normalize_unit unit) = normalize_unit unit.
Proof.
  split; [vm_compute; reflexivity|].
  apply (unit_normalization Fl.of_decimal units_line initial_header
           (quoted "cm") [quoted "cm"]); vm_compute; reflexivity.
Defined.

(** ** Orientation of a slice *)

Lemma ndim_reshape sh a r : Np.reshape sh a = Ok r -> Np.ndim r = length sh.
Proof.
  unfold Np.reshape, Np.ndim. intros H.
  destruct (filter _ sh) as [|[| |[]] []];
    repeat match type of H with
    | (if ?c then _ else _) = _ => destruct c
    end; try discriminate; injection H as <-; simpl; by rewrite length_fmap.
Qed.

Lemma ndim_squeeze a : (Np.ndim (Np.squeeze a) <= Np.ndim a)%nat.
Proof. unfold Np.ndim, Np.squeeze; simpl. apply length_filter. Qed.

Lemma ndim_reshape_squeeze sh data a :
  reshape_squeeze sh data = Ok a -> (Np.ndim a <= length sh)%nat.
Proof.
  unfold reshape_squeeze. intros H. apply fmap_ok in H as (r & Hr & ->).
  apply ndim_reshape in Hr. rewrite length_reverse in Hr. rewrite <- Hr.
  apply ndim_squeeze.
Qed.

(** [transpose] wants as many axes as the array has. *)
Lemma transpose_wrong_ndim axes a :
  length axes <> Np.ndim a -> Np.transpose axes a = Raise ValueError.
Proof.
  intros H. unfold Np.transpose, Np.is_perm.
  by destruct (Nat.eqb_spec (length axes) (Np.ndim a)).
Qed.

(** ** The payload *)

Lemma wrap64_small z : - 2 ^ 63 <= z < 2 ^ 63 -> Np.wrap64 z = z.
Proof. intros H. unfold Np.wrap64. rewrite Z.mod_small; lia. Qed.

Lemma wrap64_mul_l a d : Np.wrap64 (Np.wrap64 a * d) = Np.wrap64 (a * d).
Proof.
  unfold Np.wrap64. f_equal.
  replace ((a + 2 ^ 63) mod 2 ^ 64 - 2 ^ 63) with ((a + 2 ^ 63) mod 2 ^ 64 + - 2 ^ 63) by lia.
  rewrite Z.mul_add_distr_r, <- Z.add_assoc, Zplus_mod, Zmult_mod, Z.mod_mod by lia.
  rewrite <- Zmult_mod, <- Zplus_mod. f_equal. lia.
Qed.

(** [np.prod] is the true product, wrapped once. *)
Lemma prod_wrap sh : Np.prod sh = Np.wrap64 (product sh).
Proof.
  unfold Np.prod.
  assert (H : forall acc, foldl (fun acc d => Np.wrap64 (acc * d)) (Np.wrap64 acc) sh
                          = Np.wrap64 (acc * product sh)).
  { induction sh as [|d sh IH]; intros acc; simpl.
    - by rewrite Z.mul_1_r.
    - rewrite wrap64_mul_l, IH. f_equal. lia. }
  specialize (H 1). rewrite (wrap64_small 1) in H by lia.
  rewrite H. f_equal. lia.
Qed.

Lemma length_list_ascii s : length (list_ascii_of_string s) = String.length s.
Proof. induction s; simpl; auto. Qed.

Section Payload.

Variable py_float : string -> option float.

(** The decoder on a header with a shape whose product fits. *)
Lemma decode_payload_tail file (h : header) sh e :
  h !! "shape" = Some (VInts sh) -> sh <> [] ->
  h !! "endian" = Some (VStr e) ->
  0 <= product sh -> 4 * product sh < 2 ^ 63 ->
  decode_payload file h
  = if Z.of_nat (String.length file) <? 4 * product sh then Raise OSError
    else Ok (<["fmt" := VStr ((if Py.contains "<" e then "<" else ">")
                              ++ Py.str_of_int (product sh) ++ "f")]> h,
             Fl.of_bits32
               <$> words32 (Py.contains "<" e) (tail_bytes (4 * product sh) file)).
Proof.
  intros Hsh Hne He H0 Hn. unfold decode_payload.
  apply get_ints_ok in Hsh. apply get_str_ok in He. rewrite Hsh; simpl.
  rewrite He; simpl. rewrite bool_decide_eq_false_2 by done; simpl.
  rewrite prod_wrap, (wrap64_small (product sh)) by lia.
  rewrite (wrap64_small (- product sh)), (wrap64_small (- product sh * 4)),
    (wrap64_small (product sh * 4)) by lia.
  unfold seek_end. rewrite length_list_ascii.
  replace (Z.of_nat (String.length file) + - product sh * 4 <? 0)
    with (Z.of_nat (String.length file) <? 4 * product sh)
    by (apply eq_true_iff_eq; rewrite !Z.ltb_lt; lia).
  destruct (Z.ltb_spec (Z.of_nat (String.length file)) (4 * product sh)) as [Hlt|Hge];
    [reflexivity|]. simpl.
  unfold read_at. rewrite (proj2 (Z.ltb_ge _ _)) by lia.
  unfold struct_unpack.
  assert (Hlen : length (list_ascii_of_string file) = String.length file)
    by apply length_list_ascii.
  rewrite take_ge.
  2:{ rewrite length_drop, Hlen. lia. }
  rewrite (proj2 (Z.leb_le _ _)) by lia.
  rewrite length_drop, Hlen.
  rewrite (proj2 (Z.eqb_eq _ _)) by lia. simpl.
  unfold tail_bytes.
  replace (Z.of_nat (String.length file) + - product sh * 4)
    with (Z.of_nat (String.length file) - 4 * product sh) by lia.
  reflexivity.
Qed.

(** C3, as the code has it: a file shorter than four bytes per declared
    voxel is refused, the seek from its end going before its start; any
    file at least that long is decoded from its last four bytes per
    voxel, whatever follows or precedes the form feed. *)
Theorem payload_is_tail_of_file file (h : header) sh :
  parse_lines py_float (Py.readlines file) initial_header = Ok h ->
  h !! "shape" = Some (VInts sh) -> sh <> [] ->
  0 <= product sh -> 4 * product sh < 2 ^ 63 ->
  (Z.of_nat (String.length file) < 4 * product sh ->
   read_file py_float file = Raise OSError)
  /\ (4 * product sh <= Z.of_nat (String.length file) ->
      exists e (h2 : header),
        h !! "endian" = Some (VStr e)
        /\ decode_payload file h
           = Ok (h2, Fl.of_bits32
                       <$> words32 (Py.contains "<" e)
                             (tail_bytes (4 * product sh) file))).
Proof.
  intros Hp Hsh Hne H0 Hn.
  destruct (parse_lines_endian py_float _ _ _ Hp) as [e He];
    [by exists ">"%string|].
  pose proof (decode_payload_tail file h sh e Hsh Hne He H0 Hn) as Hd.
  split; intros Hlen.
  - unfold read_file. rewrite Hp; simpl. rewrite Hd.
    by rewrite (proj2 (Z.ltb_lt _ _)) by lia.
  - exists e. eexists. split; [done|]. rewrite Hd.
    by rewrite (proj2 (Z.ltb_ge _ _)) by lia.
Qed.

End Payload.

(** C3 fails on the code: a 2x2 slice followed by 25 bytes, and one
    followed by 13 bytes, are both read, the second one with the form
    feed and the newline before the payload taken as data. *)
Lemma payload_size_not_checked :
  payload_size surplus_file = Some 25%nat
  /\ geometry_of (read_file Fl.of_decimal surplus_file)
     = Ok (Some (VInts [2; 2]), Some (VStr ">4f"),
           Np.mk [2; 2]%nat [2; 4; 3; 5]%float)
  /\ payload_size truncated_file = Some 13%nat
  /\ is_ok (read_file Fl.of_decimal truncated_file) = true
  /\ Np.flat <$> (snd <$> read_file Fl.of_decimal truncated_file)
     = Ok (Fl.of_bits32 <$> [0x3B0A0C0A; 0x40000000; 0x3F800000; 0x40400000]).
Proof. vm_compute. repeat split; reflexivity. Qed.

Lemma payload_is_tail_of_file_witness :
  exists (h : header),
    parse_lines Fl.of_decimal (Py.readlines surplus_file) initial_header = Ok h
    /\ (Z.of_nat (String.length surplus_file) < 4 * product [2; 2] ->
        read_file Fl.of_decimal surplus_file = Raise OSError)
    /\ (4 * product [2; 2] <= Z.of_nat (String.length surplus_file) ->
        exists e (h2 : header),
          h !! "endian" = Some (VStr e)
          /\ decode_payload surplus_file h
             = Ok (h2, Fl.of_bits32
                         <$> words32 (Py.contains "<" e)
                               (tail_bytes (4 * product [2; 2]) surplus_file))).
Proof.
  set (r := parse_lines Fl.of_decimal (Py.readlines surplus_file) initial_header).
  assert (E : r = Ok (the r)) by (apply the_ok; vm_compute; reflexivity).
  exists (the r). split; [exact E|].
  apply (payload_is_tail_of_file Fl.of_decimal surplus_file (the r) [2; 2] E).
  - vm_compute. reflexivity.
  - discriminate.
  - vm_compute. discriminate.
  - vm_compute. reflexivity.
Defined.

(** ** Byte order *)

(** C1 does not hold on the code: the value of the bigendian tag is
    the text the pattern captured, the integer test of the loop never
    sees an integer, and the descriptor gets the big-endian mark.  The
    4x4 little-endian slice is decoded with its bytes in the wrong
    order; the big-endian one is read as written, its flag left as the
    text 1. *)
Theorem endian_flag_stays_text :
  endian_of (read_file Fl.of_decimal example_file)
  = Ok (Some (VStr "0"), Some (VStr ">16f"),
        Fl.of_bits32
          <$> [ 0; 0x00008040; 0x00000041; 0x00004041;
                0x0000803F; 0x0000A040; 0x00001041; 0x00005041;
                0x00000040; 0x0000C040; 0x00002041; 0x00006041;
                0x00004040; 0x0000E040; 0x00003041; 0x00007041 ])
  /\ endian_of (read_file Fl.of_decimal example_file_be)
     = Ok (Some (VStr "1"), Some (VStr ">16f"),
           [0; 4; 8; 12; 1; 5; 9; 13; 2; 6; 10; 14; 3; 7; 11; 15]%float)
  /\ (forall py_float ls (h : header),
        parse_lines py_float ls initial_header = Ok h ->
        exists s, h !! "endian" = Some (VStr s) /\ normalize_endian h = Ok h).
Proof.
  split_and!.
  - vm_compute. reflexivity.
  - vm_compute. reflexivity.
  - intros py_float ls h H.
    destruct (parse_lines_endian py_float ls _ _ H) as [s Hs];
      [by exists ">"%string|].
    exists s. split; [done|]. by apply normalize_endian_str with s.
Qed.

(** ** The entry point *)

Section Entry.

Variable py_float : string -> option float.

(** On an array [add_gradient_info] leaves its argument or fails. *)
Lemma add_gradient_info_array procpar a r :
  add_gradient_info py_float procpar (ObjArray a) = Ok r -> r = ObjArray a.
Proof.
  unfold add_gradient_info. intros H.
  apply bind_ok in H as (g & _ & H).
  destruct (truthy (bval g) && truthy (diff_x g) && truthy (diff_y g)
            && truthy (diff_z g)).
  - apply bind_ok in H as (bv & _ & H). discriminate.
  - by injection H as <-.
Qed.

(** C2 does not hold on the code: for a single file the first component
    of the pair [load_fdf] returns is the header dictionary of
    [read_file] and the second one is the array. *)
Theorem load_fdf_single_file_pair content procpar x y :
  load_fdf py_float (mkworld (RegularFile content) procpar) = Ok (x, y) ->
  exists (h : header) a,
    read_file py_float content = Ok (h, a)
    /\ x = ObjDict h /\ y = ObjArray a.
Proof.
  unfold load_fdf; simpl. intros H.
  apply bind_ok in H as ([d hd] & Hr & H).
  apply bind_ok in Hr as ([h a] & Hr & Hp). injection Hp as <- <-.
  exists h, a. split; [done|].
  destruct procpar as [p|].
  - apply bind_ok in H as (r & Hr' & H). injection H as <- <-.
    by apply add_gradient_info_array in Hr' as ->.
  - by injection H as <- <-.
Qed.

(** C4: with no file in the directory [read_directory] raises
    [ValueError], and so does [load_fdf]; neither returns a volume or
    [None]. *)
Theorem empty_directory_fails procpar :
  read_directory py_float [] = Raise ValueError
  /\ load_fdf py_float (mkworld (Directory []) procpar) = Raise ValueError.
Proof. split; reflexivity. Qed.

End Entry.

Lemma load_fdf_single_file_pair_witness :
  exists x y,
    load_fdf Fl.of_decimal (mkworld (RegularFile example_file) None) = Ok (x, y)
    /\ exists (h : header) a,
         read_file Fl.of_decimal example_file = Ok (h, a)
         /\ x = ObjDict h /\ y = ObjArray a.
Proof.
  set (r := load_fdf Fl.of_decimal (mkworld (RegularFile example_file) None)).
  assert (E : r = Ok ((the r).1, (the r).2))
    by (apply the_ok_pair; vm_compute; reflexivity).
  exists (the r).1, (the r).2. split; [exact E|].
  apply (load_fdf_single_file_pair Fl.of_decimal example_file None _ _ E).
Defined.

(** ** Assembly of a directory *)

Lemma length_bind_cons (l : list nat) (X : list (list nat)) :
  length (l ≫= fun i => cons i <$> X) = (length l * length X)%nat.
Proof.
  induction l as [|i l IH]; [done|].
  change (length ((cons i <$> X) ++ (l ≫= fun i => cons i <$> X))
          = (length X + length l * length X)%nat).
  by rewrite length_app, length_fmap, IH.
Qed.

Lemma length_indices sh : length (Np.indices sh) = Np.size sh.
Proof.
  induction sh as [|d sh IH]; [done|].
  change (length (seq 0 d ≫= fun i => cons i <$> Np.indices sh)
          = (d * Np.size sh)%nat).
  by rewrite length_bind_cons, length_seq, IH.
Qed.

Lemma length_gather sh src a : length (Np.flat (Np.gather sh src a)) = Np.size sh.
Proof. unfold Np.gather; simpl. by rewrite length_fmap, length_indices. Qed.

Lemma set_item_same r k v (heap : list header) (d : header) :
  heap !! r = Some d -> set_item r k v heap !! r = Some (<[k := v]> d).
Proof. intros H. unfold set_item. by rewrite list_lookup_alter_eq, H. Qed.

Lemma set_item_other r k v (heap : list header) (i : nat) :
  i <> r -> set_item r k v heap !! i = heap !! i.
Proof. intros H. unfold set_item. by rewrite list_lookup_alter_ne. Qed.

Lemma get_item_at r k (heap : list header) (d : header) :
  heap !! r = Some d -> get_item r k heap = get d k.
Proof. intros H. unfold get_item. by rewrite H. Qed.

Lemma stack_same slices s :
  slices <> [] -> Forall (fun x => Np.shape x = s) slices ->
  Np.stack slices
  = Ok (Np.mk (length slices :: s) (concat (Np.flat <$> slices))).
Proof.
  intros Hne Hall. unfold Np.stack.
  destruct slices as [|x l]; [done|].
  assert (Hx : Np.shape x = s) by (by apply Forall_cons in Hall as [? _]).
  rewrite Hx.
  replace (forallb _ (x :: l)) with true; [done|].
  symmetry. apply forallb_forall. intros y Hy.
  apply bool_decide_eq_true. rewrite Forall_forall in Hall.
  apply Hall. by apply list_elem_of_In.
Qed.

Lemma Forall_shape_check s (l : list Np.ndarray) :
  forallb (fun x => bool_decide (Np.shape x = s)) l = true ->
  Forall (fun x => Np.shape x = s) l.
Proof.
  intros H. rewrite forallb_forall in H. apply Forall_forall. intros x Hx.
  apply list_elem_of_In in Hx. apply H in Hx.
  by apply bool_decide_eq_true in Hx.
Qed.

Lemma transpose_3d axes x y z fl :
  Np.is_perm axes 3 = true ->
  Np.transpose axes (Np.mk [x; y; z] fl)
  = Ok (Np.gather ((fun ax => [x; y; z] !!! ax) <$> axes)
          (fun idx => (fun d => idx !!! Np.index_of d axes) <$> [0; 1; 2]%nat)
          (Np.mk [x; y; z] fl)).
Proof. intros H. unfold Np.transpose. cbn [Np.ndim Np.shape length]. by rewrite H. Qed.

Lemma filter_neg_nil (l : list Z) :
  Forall (fun d => 0 <= d) l -> filter (fun d => d < 0) l = [].
Proof.
  induction 1 as [|d l Hd _ IH]; [done|].
  rewrite filter_cons_False by lia. done.
Qed.

(** [reshape] to a shape without negative entries. *)
Lemma reshape_plain sh a :
  Forall (fun d => 0 <= d) sh ->
  foldr Z.mul 1 sh = Z.of_nat (length (Np.flat a)) ->
  Np.reshape sh a = Ok (Np.mk (Z.to_nat <$> sh) (Np.flat a)).
Proof.
  intros Hsh Hp. unfold Np.reshape. rewrite filter_neg_nil by done.
  by rewrite (proj2 (Z.eqb_eq _ _)).
Qed.

Lemma round_div_exact n t : 0 < t -> n mod t = 0 -> round_div n t = n / t.
Proof.
  intros Ht Hm. unfold round_div. rewrite Hm.
  by destruct (Z.compare_spec (2 * 0) t); try lia.
Qed.

Lemma round_div_nonneg n t : 0 <= n -> 0 < t -> 0 <= round_div n t.
Proof.
  intros Hn Ht. unfold round_div.
  assert (0 <= n / t) by (apply Z.div_pos; lia).
  destruct (2 * (n mod t) ?= t); [destruct (Z.even (n / t))|..]; lia.
Qed.

Lemma same_refl heap : same_but_geometry_of_first heap heap.
Proof. by split_and!. Qed.

Lemma same_trans h1 h2 h3 :
  same_but_geometry_of_first h1 h2 -> same_but_geometry_of_first h2 h3 ->
  same_but_geometry_of_first h1 h3.
Proof.
  intros (L1 & O1 & K1) (L2 & O2 & K2). split_and!.
  - congruence.
  - intros i Hi. rewrite O2, O1; auto.
  - intros k H1 H2. rewrite K2, K1; auto.
Qed.

Lemma item_set_item r k v heap k' :
  item r k' (set_item r k v heap)
  = if decide (k = k') then (fun _ => v) <$> heap !! r else item r k' heap.
Proof.
  unfold item, set_item. rewrite list_lookup_alter_eq.
  destruct (heap !! r) as [d|]; simpl; [|by destruct (decide _)].
  destruct (decide (k = k')) as [->|Hne].
  - by rewrite lookup_insert_eq.
  - by rewrite lookup_insert_ne.
Qed.

Lemma same_set_item k v heap :
  k = "shape"%string \/ k = "voxel_dim"%string ->
  same_but_geometry_of_first heap (set_item 0 k v heap).
Proof.
  intros Hk. split_and!.
  - unfold set_item. apply length_alter.
  - intros i Hi. by apply set_item_other.
  - intros k' H1 H2. rewrite item_set_item.
    destruct (decide (k = k')) as [<-|]; [|done]. by destruct Hk.
Qed.

Lemma get_item_item r k heap v : get_item r k heap = Ok v -> item r k heap = Some v.
Proof.
  unfold get_item, item, get. destruct (heap !! r) as [d|]; simpl; [|done].
  by destruct (d !! k); simpl; intros [= ->].
Qed.

Lemma item_shape_set v heap x :
  item 0 "voxel_dim" heap = Some x ->
  item 0 "shape" (set_item 0 "shape" v heap) = Some v.
Proof.
  rewrite item_set_item. rewrite decide_True by done.
  unfold item. by destruct (heap !! 0%nat).
Qed.

Lemma Forall_nonneg_of_nat (l : list nat) : Forall (fun d => 0 <= d) (Z.of_nat <$> l).
Proof. induction l; rewrite ?fmap_cons; constructor; [lia | done]. Qed.

Lemma to_nat_of_nat_list (l : list nat) : Z.to_nat <$> (Z.of_nat <$> l) = l.
Proof. induction l as [|x l IH]; [done|]. by rewrite !fmap_cons, Nat2Z.id, IH. Qed.

Lemma of_nat_to_nat_list (l : list Z) :
  Forall (fun d => 0 <= d) l -> Z.of_nat <$> (Z.to_nat <$> l) = l.
Proof.
  induction 1 as [|d l Hd _ IH]; [done|].
  by rewrite !fmap_cons, Z2Nat.id, IH.
Qed.

Lemma lookup_total_of_nat_nonneg (l : list nat) (i : nat) :
  0 <= (Z.of_nat <$> l) !!! i.
Proof.
  rewrite list_lookup_total_alt, list_lookup_fmap.
  destruct (l !! i); simpl; lia.
Qed.

Lemma reshape_shape sh a r :
  Forall (fun d => 0 <= d) sh -> Np.reshape sh a = Ok r ->
  Np.shape r = Z.to_nat <$> sh.
Proof.
  intros Hsh. unfold Np.reshape. rewrite filter_neg_nil by done.
  destruct (_ =? _); [|done]. by intros [= <-].
Qed.

Lemma is_Some_set_item r k v (heap : list header) (i : nat) :
  is_Some (heap !! i) -> is_Some (set_item r k v heap !! i).
Proof.
  unfold set_item. intros [d Hd]. destruct (decide (i = r)) as [->|Hne].
  - rewrite list_lookup_alter_eq, Hd. by eexists.
  - rewrite list_lookup_alter_ne, Hd by done. by eexists.
Qed.

Lemma get_item_via_item r k (heap : list header) :
  is_Some (heap !! r) -> get_item r k heap = from_opt KeyError (item r k heap).
Proof. intros [d Hd]. unfold get_item, item, get. by rewrite Hd. Qed.

Lemma item_set_same r k v (heap : list header) :
  is_Some (heap !! r) -> item r k (set_item r k v heap) = Some v.
Proof.
  intros [d Hd]. by rewrite item_set_item, decide_True, Hd.
Qed.

Lemma item_set_other r k k' v (heap : list header) :
  k <> k' -> item r k' (set_item r k v heap) = item r k' heap.
Proof. intros H. by rewrite item_set_item, decide_False. Qed.

Lemma item_at r k (heap : list header) (d : header) :
  heap !! r = Some d -> item r k heap = d !! k.
Proof. intros H. unfold item. by rewrite H. Qed.

Section Assembly.

Variable py_float : string -> option float.

(** What [assemble] does to the heap: only the dictionary at reference
    0 changes, only under [shape] and [voxel_dim], and its [shape]
    becomes the shape of the assembled array. *)
Lemma assemble_frame heap slices v :
  assemble py_float heap slices = Ok v ->
  vol_header v = 0%nat
  /\ same_but_geometry_of_first heap (vol_heap v)
  /\ item 0 "shape" (vol_heap v)
     = Some (VInts (Z.of_nat <$> Np.shape (vol_data v))).
Proof.
  unfold assemble. intros H.
  apply bind_ok in H as (st & _ & H).
  destruct (Np.ndim st <? 4)%nat.
  - apply bind_ok in H as (tr & _ & H).
    set (sh := Z.of_nat <$> Np.shape tr) in *.
    set (heap1 := set_item 0 "shape" (VInts sh) heap) in *.
    assert (S1 : same_but_geometry_of_first heap heap1)
      by (apply same_set_item; auto).
    apply bind_ok in H as (x & Hx & H).
    apply bind_ok in H as (vd & _ & H).
    apply bind_ok in H as (heap2 & H2 & H).
    assert (S2 : same_but_geometry_of_first heap1 heap2
                 /\ item 0 "shape" heap2 = Some (VInts sh)).
    { assert (I1 : item 0 "shape" heap1 = Some (VInts sh)).
      { unfold heap1. rewrite item_set_item, decide_True by done.
        apply get_item_item in Hx. unfold heap1 in Hx.
        rewrite item_set_item, decide_False in Hx by done.
        unfold item in Hx. by destruct (heap !! 0%nat). }
      destruct (bool_decide _).
      - apply bind_ok in H2 as (r & _ & H2).
        apply bind_ok in H2 as (rvd & _ & H2). injection H2 as <-.
        split; [apply same_set_item; auto|].
        by rewrite item_set_item, decide_False.
      - injection H2 as <-. split; [apply same_refl | done]. }
    destruct S2 as [S2 I2].
    apply bind_ok in H as (ad & _ & H).
    apply bind_ok in H as (time & _ & H).
    destruct (Z.ltb_spec 1 time) as [Ht|Ht].
    + apply bind_ok in H as (x' & Hx' & H).
      apply bind_ok in H as (vd' & _ & H).
      apply bind_ok in H as (rs & Hrs & H). injection H as <-. simpl.
      split; [done|]. split.
      * eapply same_trans; [exact S1|]. eapply same_trans; [exact S2|].
        eapply same_trans; apply same_set_item; auto.
      * rewrite item_set_item, decide_False by done.
        apply get_item_item in Hx'.
        rewrite item_set_item, decide_False in Hx' by done.
        rewrite (item_shape_set _ _ _ Hx'). do 2 f_equal.
        assert (Hnn : Forall (fun d => 0 <= d)
                  [sh !!! 0%nat; sh !!! 1%nat; round_div (sh !!! 2%nat) time; time]).
        { repeat constructor; try apply lookup_total_of_nat_nonneg; try lia.
          apply round_div_nonneg; [apply lookup_total_of_nat_nonneg | lia]. }
        rewrite (reshape_shape _ _ _ Hnn Hrs).
        by rewrite of_nat_to_nat_list.
    + injection H as <-. simpl. split; [done|]. split; [|done].
      eapply same_trans; eauto.
  - apply bind_ok in H as (t1 & _ & H).
    apply bind_ok in H as (t2 & _ & H).
    apply bind_ok in H as (x & Hx & H).
    apply bind_ok in H as (vd & _ & H). injection H as <-. simpl.
    split; [done|]. split.
    + eapply same_trans; apply same_set_item; auto.
    + rewrite item_set_item, decide_False by done.
      apply get_item_item in Hx.
      rewrite item_set_item, decide_False in Hx by done.
      by rewrite (item_shape_set _ _ _ Hx).
Qed.

Lemma bind_Ok {A B} (a : A) (f : A -> result B) : Ok a ≫= f = f a.
Proof. reflexivity. Qed.

(** C9, as the code has it: [read_directory] leaves the dictionaries of
    all slices but the first as [read_file] returned them; the
    dictionary of the first slice is the header of the volume, it
    changes under [shape] and [voxel_dim] and nowhere else, and its
    [shape] becomes the shape of the assembled array. *)
Theorem assembly_rewrites_first_header files v :
  read_directory py_float files = Ok (Some v) ->
  exists slices,
    mapM (fun fl => read_file py_float fl.2) (sorted_by_name files) = Ok slices
    /\ vol_header v = 0%nat
    /\ length (vol_heap v) = length slices
    /\ (forall i : nat, i <> 0%nat -> vol_heap v !! i = fst <$> slices !! i)
    /\ (forall k, k <> "shape"%string -> k <> "voxel_dim"%string ->
                  item 0 k (vol_heap v) = item 0 k (fst <$> slices))
    /\ item 0 "shape" (vol_heap v)
       = Some (VInts (Z.of_nat <$> Np.shape (vol_data v))).
Proof.
  unfold read_directory. intros H.
  apply bind_ok in H as (slices & Hs & H).
  apply bind_ok in H as ([hs ds] & Hu & H).
  assert (hs = fst <$> slices /\ ds = snd <$> slices) as [-> ->].
  { destruct slices; [discriminate|]. by injection Hu as <- <-. }
  destruct (fst <$> slices) as [|h0 hs] eqn:Hhs; [discriminate|].
  apply fmap_ok in H as (v' & Ha & [= ->]).
  apply assemble_frame in Ha as (Hr & (Hl & Ho & Hk) & Hshape).
  exists slices. rewrite Hhs. split_and!; auto.
  - by rewrite Hl, <- Hhs, length_fmap.
  - intros i Hi. by rewrite Ho, <- Hhs, list_lookup_fmap.
Qed.

(** C6, as the code has it: when the number of stacked slices is a
    multiple of the integer [time > 1] that [array_dim] gives, the
    third axis of the stack is split into that number over [time] and
    [time], the data keep their order under the new 4D shape, and the
    voxel sizes get exactly one more entry, the integer 1. *)
Theorem time_axis_split heap slices (h0 : header) a b vd rvd s time :
  heap !! 0%nat = Some h0 ->
  slices <> [] -> Forall (fun x => Np.shape x = [a; b]) slices ->
  h0 !! "voxel_dim" = Some (VNums vd) ->
  h0 !! "real_voxel_dim" = Some (VFloats rvd) ->
  h0 !! "array_dim" = Some (VStr s) ->
  int_float py_float s = Ok time -> 1 < time ->
  Z.of_nat (length slices) mod time = 0 ->
  exists st v,
    Np.stack slices ≫= Np.transpose [1; 2; 0]%nat = Ok st
    /\ Np.shape st = [a; b; length slices]
    /\ assemble py_float heap slices = Ok v
    /\ vol_data v
       = Np.mk [a; b; Z.to_nat (Z.of_nat (length slices) / time); Z.to_nat time]
               (Np.flat st)
    /\ item (vol_header v) "shape" (vol_heap v)
       = Some (VInts [Z.of_nat a; Z.of_nat b;
                      Z.of_nat (length slices) / time; time])
    /\ item (vol_header v) "voxel_dim" (vol_heap v)
       = Some (VNums ((if bool_decide (length vd = 3%nat) then vd
                       else vd ++ (NumF <$> drop 2 rvd)) ++ [NumI 1])).
Proof.
  intros Hh Hne Hall Hvd Hrvd Had Htime Ht Hmod.
  set (n := length slices) in *.
  unfold assemble. rewrite (stack_same slices [a; b] Hne Hall), !bind_Ok.
  fold n. cbn [Np.ndim Np.shape length].
  change (3 <? 4)%nat with true. cbv iota.
  rewrite transpose_3d by reflexivity. rewrite !bind_Ok.
  set (st := Np.gather _ _ _).
  exists st.
  assert (Hst : Np.shape st = [a; b; n]) by reflexivity.
  assert (Hlen : length (Np.flat st) = (a * (b * (n * 1)))%nat)
    by apply length_gather.
  rewrite Hst.
  change (Z.of_nat <$> [a; b; n]) with [Z.of_nat a; Z.of_nat b; Z.of_nat n].
  change ([Z.of_nat a; Z.of_nat b; Z.of_nat n] !!! 0%nat) with (Z.of_nat a).
  change ([Z.of_nat a; Z.of_nat b; Z.of_nat n] !!! 1%nat) with (Z.of_nat b).
  change ([Z.of_nat a; Z.of_nat b; Z.of_nat n] !!! 2%nat) with (Z.of_nat n).
  cbn [length].
  set (heap1 := set_item 0 "shape" _ heap).
  assert (S0 : is_Some (heap !! 0%nat)) by (by eexists).
  assert (S1 : is_Some (heap1 !! 0%nat)) by (by apply is_Some_set_item).
  assert (I1 : forall k, k <> "shape"%string -> item 0 k heap1 = h0 !! k).
  { intros k Hk. unfold heap1. rewrite item_set_other by done.
    by apply item_at. }
  rewrite (get_item_via_item 0 "voxel_dim" heap1 S1),
    (I1 "voxel_dim"), Hvd by done.
  cbn [from_opt]. rewrite !bind_Ok.
  set (vd' := if bool_decide (length vd = 3%nat) then vd
              else vd ++ (NumF <$> drop 2 rvd)).
  set (heap2 := if bool_decide (length vd = 3%nat) then heap1
                else set_item 0 "voxel_dim" (VNums vd') heap1).
  assert (Hh2 : (if bool_decide (3%nat ≠ length vd)
                 then r ← get_item 0 "real_voxel_dim" heap1;
                      rvd0 ← match r with
                             | VFloats l => Ok l
                             | _ => Raise TypeError
                             end;
                      Ok (set_item 0 "voxel_dim"
                            (VNums (vd ++ (NumF <$> drop (3 - 1) rvd0))) heap1)
                 else Ok heap1) = Ok heap2).
  { unfold heap2, vd'. destruct (decide (length vd = 3%nat)) as [He|He].
    - rewrite bool_decide_eq_false_2, bool_decide_eq_true_2 by lia. done.
    - rewrite bool_decide_eq_true_2, bool_decide_eq_false_2 by lia.
      rewrite (get_item_via_item 0 "real_voxel_dim" heap1 S1),
        (I1 "real_voxel_dim"), Hrvd by done.
      reflexivity. }
  rewrite Hh2, bind_Ok.
  assert (S2 : is_Some (heap2 !! 0%nat)).
  { unfold heap2. destruct (bool_decide _); [done|]. by apply is_Some_set_item. }
  assert (I2 : item 0 "array_dim" heap2 = Some (VStr s)
               /\ item 0 "voxel_dim" heap2 = Some (VNums vd')).
  { unfold heap2, vd'. destruct (bool_decide _) eqn:Hb.
    - by rewrite !I1.
    - rewrite item_set_other, item_set_same, I1 by done. done. }
  destruct I2 as [I2a I2v].
  rewrite (get_item_via_item 0 "array_dim" heap2 S2), I2a. cbn [from_opt].
  rewrite bind_Ok, Htime, bind_Ok.
  rewrite (proj2 (Z.ltb_lt 1 time)) by lia.
  rewrite round_div_exact by lia.
  set (sh4 := [Z.of_nat a; Z.of_nat b; Z.of_nat n `div` time; time]).
  set (heap3 := set_item 0 "shape" (VInts sh4) heap2).
  assert (S3 : is_Some (heap3 !! 0%nat)) by (by apply is_Some_set_item).
  assert (I3 : item 0 "voxel_dim" heap3 = Some (VNums vd'))
    by (unfold heap3; by rewrite item_set_other).
  rewrite (get_item_via_item 0 "voxel_dim" heap3 S3), I3.
  cbn [from_opt]. rewrite !bind_Ok.
  assert (Hq : 0 <= Z.of_nat n `div` time) by (apply Z.div_pos; lia).
  rewrite reshape_plain.
  2:{ unfold sh4. repeat constructor; lia. }
  2:{ unfold sh4. cbn [foldr]. rewrite Hlen.
      assert (Z.of_nat n = time * (Z.of_nat n `div` time))
        by (apply Z.div_exact; lia).
      nia. }
  rewrite bind_Ok. eexists. split; [reflexivity|]. split; [reflexivity|].
  split; [reflexivity|].
  cbn [vol_data vol_header vol_heap]. split_and!.
  - unfold sh4. by rewrite !fmap_cons, !Nat2Z.id.
  - rewrite item_set_other by done. unfold heap3. by rewrite item_set_same.
  - rewrite item_set_same; [done|]. by apply is_Some_set_item.
Qed.

End Assembly.

(** ** The theorems on the example files *)

(** C6 fails on the code when the number of slices is no multiple of
    [array_dim]: three 2x2 slices of a series of two repetitions are
    not assembled at all, the shape computed for them having the third
    axis [round(3 / 2) = 2]; three empty slices are assembled with that
    third axis 2, where the integer quotient is 1. *)
Lemma uneven_series_is_not_split :
  round_div 3 2 = 2 /\ 3 / 2 = 1
  /\ volume_view (read_directory Fl.of_decimal three_slices) = Raise ValueError
  /\ volume_view (read_directory Fl.of_decimal three_empty_slices)
     = Ok (Some ([0; 4; 2; 2]%nat, 0%nat,
                 [ (Some (VInts [0; 4; 2; 2]),
                    Some (VNums [NumF infinity; NumF 2.5; NumF 1; NumI 1]));
                   (Some (VInts [0; 4]), Some (VNums [NumF infinity; NumF 2.5]));
                   (Some (VInts [0; 4]), Some (VNums [NumF infinity; NumF 2.5])) ])).
Proof. vm_compute. repeat split; reflexivity. Qed.

(** Forty slices of a series of four repetitions: the third axis
    becomes (10, 4). *)
Lemma time_axis_split_witness :
  exists slices_read : list (header * Np.ndarray),
    mapM (fun fl => read_file Fl.of_decimal fl.2) (sorted_by_name forty_slices)
    = Ok slices_read
    /\ length slices_read = 40%nat
    /\ exists st v,
         Np.stack (snd <$> slices_read) ≫= Np.transpose [1; 2; 0]%nat = Ok st
         /\ Np.shape st = [2; 2; length (snd <$> slices_read)]%nat
         /\ assemble Fl.of_decimal (fst <$> slices_read) (snd <$> slices_read)
            = Ok v
         /\ vol_data v
            = Np.mk [2%nat; 2%nat;
                     Z.to_nat (Z.of_nat (length (snd <$> slices_read)) / 4);
                     Z.to_nat 4]
                    (Np.flat st)
         /\ item (vol_header v) "shape" (vol_heap v)
            = Some (VInts [Z.of_nat 2; Z.of_nat 2;
                           Z.of_nat (length (snd <$> slices_read)) / 4; 4])
         /\ item (vol_header v) "voxel_dim" (vol_heap v)
            = Some (VNums ((if bool_decide (length [NumF 5; NumF 5] = 3%nat)
                            then [NumF 5; NumF 5]
                            else [NumF 5; NumF 5]
                                 ++ (NumF <$> drop 2 [10; 10; 1]%float))
                           ++ [NumI 1])).
Proof.
  set (r := mapM (fun fl => read_file Fl.of_decimal fl.2)
              (sorted_by_name forty_slices)).
  assert (E : r = Ok (the r)) by (apply the_ok; vm_compute; reflexivity).
  assert (L : length (the r) = 40%nat) by (vm_compute; reflexivity).
  exists (the r). split; [exact E|]. split; [exact L|].
  apply (time_axis_split Fl.of_decimal (fst <$> the r) (snd <$> the r)
           ((fst <$> the r) !!! 0%nat) 2 2 [NumF 5; NumF 5]
           [10; 10; 1]%float "4" 4).
  - apply list_lookup_lookup_total_lt. rewrite length_fmap, L. lia.
  - intros H. apply (f_equal length) in H. rewrite length_fmap, L in H.
    discriminate.
  - apply Forall_shape_check. vm_compute. reflexivity.
  - vm_compute. reflexivity.
  - vm_compute. reflexivity.
  - vm_compute. reflexivity.
  - vm_compute. reflexivity.
  - reflexivity.
  - rewrite length_fmap, L. reflexivity.
Defined.

(** C9 fails on the code: the header that [read_file] returned for the
    first of four slices has the shape (2, 2) and two voxel sizes; after
    [read_directory] the same dictionary, at reference 0 of the heap,
    has the shape and the voxel sizes of the volume. *)
Lemma first_slice_header_is_rewritten :
  header_view <$> (fst <$> read_file Fl.of_decimal
                             (slice_file "2" (firstn 4 bits_0_to_15)))
  = Ok (Some (VInts [2; 2]), Some (VNums [NumF 5; NumF 5]))
  /\ sorted_by_name four_slices !! 0%nat
     = Some ("s1.fdf"%string, slice_file "2" (firstn 4 bits_0_to_15))
  /\ volume_view (read_directory Fl.of_decimal four_slices)
     = Ok (Some ([2; 2; 2; 2]%nat, 0%nat,
                 [ (Some (VInts [2; 2; 2; 2]),
                    Some (VNums [NumF 5; NumF 5; NumF 1; NumI 1]));
                   (Some (VInts [2; 2]), Some (VNums [NumF 5; NumF 5]));
                   (Some (VInts [2; 2]), Some (VNums [NumF 5; NumF 5]));
                   (Some (VInts [2; 2]), Some (VNums [NumF 5; NumF 5])) ])).
Proof. vm_compute. repeat split; reflexivity. Qed.

Lemma assembly_rewrites_first_header_witness :
  exists v,
    read_directory Fl.of_decimal four_slices = Ok (Some v)
    /\ exists slices,
         mapM (fun fl => read_file Fl.of_decimal fl.2) (sorted_by_name four_slices)
         = Ok slices
         /\ vol_header v = 0%nat
         /\ length (vol_heap v) = length slices
         /\ (forall i : nat, i <> 0%nat -> vol_heap v !! i = fst <$> slices !! i)
         /\ (forall k, k <> "shape"%string -> k <> "voxel_dim"%string ->
                       item 0 k (vol_heap v) = item 0 k (fst <$> slices))
         /\ item 0 "shape" (vol_heap v)
            = Some (VInts (Z.of_nat <$> Np.shape (vol_data v))).
Proof.
  set (r := read_directory Fl.of_decimal four_slices).
  assert (E : r = Ok (Some (default inhabitant (the r)))).
  { apply the_ok_some; [vm_compute; reflexivity|].
    apply (proj1 (bool_decide_spec (is_Some (the r)))).
    vm_compute. exact I. }
  exists (default inhabitant (the r)). split; [exact E|].
  apply (assembly_rewrites_first_header Fl.of_decimal four_slices _ E).
Defined.

(** ** Row-major indexing *)

Lemma offset_acc sh : forall idx acc,
  length idx = length sh ->
  foldl (fun acc (di : nat * nat) => (acc * di.1 + di.2)%nat) acc (zip sh idx)
  = (acc * Np.size sh + Np.offset sh idx)%nat.
Proof.
  unfold Np.offset.
  induction sh as [|d sh IH]; intros [|i idx] acc Hl; try discriminate; simpl.
  - lia.
  - injection Hl as Hl. rewrite (IH idx (acc * d + i)%nat Hl), (IH idx i Hl).
    unfold Np.size; simpl. fold (Np.size sh). nia.
Qed.

Lemma offset_cons d sh i idx :
  length idx = length sh ->
  Np.offset (d :: sh) (i :: idx) = (i * Np.size sh + Np.offset sh idx)%nat.
Proof.
  intros Hl. unfold Np.offset at 1. simpl. by rewrite offset_acc.
Qed.

Lemma valid_index_length sh idx : valid_index sh idx -> length idx = length sh.
Proof. apply Forall2_length. Qed.

Lemma offset_lt sh idx : valid_index sh idx -> (Np.offset sh idx < Np.size sh)%nat.
Proof.
  induction 1 as [|i d idx sh Hi Hv IH]; [unfold Np.offset; simpl; lia|].
  rewrite offset_cons by (by apply valid_index_length).
  unfold Np.size; simpl. fold (Np.size sh). nia.
Qed.

(** Lookup in a list made of blocks of one length. *)
Lemma lookup_bind_blocks {A B} (f : A -> list B) (k : nat) (l : list A) :
  (forall y, length (f y) = k) ->
  forall (i j : nat) x, l !! i = Some x -> (j < k)%nat ->
  (l ≫= f) !! (i * k + j)%nat = f x !! j.
Proof.
  intros Hk. induction l as [|y l IH]; intros i j x Hx Hj; [done|].
  rewrite bind_cons. destruct i as [|i]; simpl in Hx.
  - injection Hx as ->. rewrite lookup_app_l by (rewrite Hk; lia). done.
  - rewrite lookup_app_r by (rewrite Hk; lia).
    rewrite Hk. replace (S i * k + j - k)%nat with (i * k + j)%nat by lia.
    by apply IH.
Qed.

(** The index vectors of a shape are listed at their offsets. *)
Lemma indices_lookup sh idx :
  valid_index sh idx -> Np.indices sh !! Np.offset sh idx = Some idx.
Proof.
  induction 1 as [|i d idx sh Hi Hv IH]; [done|].
  rewrite offset_cons by (by apply valid_index_length).
  change (Np.indices (d :: sh))
    with (seq 0 d ≫= fun i => cons i <$> Np.indices sh).
  rewrite (lookup_bind_blocks _ (Np.size sh) _ (fun y => eq_trans (length_fmap _ _) (length_indices sh)) i _ i).
  - by rewrite list_lookup_fmap, IH.
  - by rewrite lookup_seq_lt.
  - by apply offset_lt.
Qed.

Lemma elem_of_indices sh idx : idx ∈ Np.indices sh -> valid_index sh idx.
Proof.
  revert idx; induction sh as [|d sh IH]; intros idx H.
  - apply list_elem_of_singleton in H as ->. constructor.
  - change (Np.indices (d :: sh))
      with (seq 0 d ≫= fun i => cons i <$> Np.indices sh) in H.
    apply list_elem_of_bind in H as (i & H & Hi).
    apply list_elem_of_fmap in H as (idx' & -> & H).
    apply elem_of_seq in Hi. constructor; [lia | by apply IH].
Qed.

(** An element of a gathered array is the element of the source that
    the index map points to. *)
Lemma at_gather sh src a idx :
  valid_index sh idx ->
  at_index (Np.gather sh src a) idx = at_index a (src idx).
Proof.
  intros Hv. unfold at_index at 1, Np.gather; simpl.
  apply list_lookup_total_correct.
  by rewrite list_lookup_fmap, indices_lookup.
Qed.

Lemma gather_ext sh src src' a b :
  (forall idx, valid_index sh idx -> at_index a (src idx) = at_index b (src' idx)) ->
  Np.gather sh src a = Np.gather sh src' b.
Proof.
  intros H. unfold Np.gather. f_equal. apply list_fmap_ext.
  intros i idx Hi. apply H, elem_of_indices. by eapply list_elem_of_lookup_2.
Qed.

Lemma gather_gather sh1 sh2 src1 src2 a :
  (forall idx, valid_index sh2 idx -> valid_index sh1 (src2 idx)) ->
  Np.gather sh2 src2 (Np.gather sh1 src1 a)
  = Np.gather sh2 (fun idx => src1 (src2 idx)) a.
Proof.
  intros H. apply gather_ext. intros idx Hv.
  change (at_index (Np.gather sh1 src1 a) (src2 idx) = at_index a (src1 (src2 idx))).
  apply at_gather. by apply H.
Qed.

(** ** Flips and quarter turns *)

Lemma flip_valid axis sh idx :
  valid_index sh idx ->
  valid_index sh (alter (fun i => (sh !!! axis - 1 - i)%nat) axis idx).
Proof.
  intros Hv. apply Forall2_alter_l; [done|].
  intros x y _ Hy Hxy. rewrite (list_lookup_total_correct _ _ _ Hy). lia.
Qed.

Lemma mirror_mirror (c : nat) (idx : list nat) (axis : nat) :
  (forall x, idx !! axis = Some x -> (x < c)%nat) ->
  alter (fun i => (c - 1 - i)%nat) axis (alter (fun i => (c - 1 - i)%nat) axis idx)
  = idx.
Proof.
  revert axis; induction idx as [|i idx IH]; intros [|axis] H; simpl; try done.
  - f_equal. specialize (H i eq_refl). lia.
  - f_equal. by apply IH.
Qed.

Lemma flip_flip_index axis sh idx :
  valid_index sh idx ->
  alter (fun i => (sh !!! axis - 1 - i)%nat) axis
    (alter (fun i => (sh !!! axis - 1 - i)%nat) axis idx) = idx.
Proof.
  intros Hv. apply mirror_mirror. intros x Hx.
  destruct (Forall2_lookup_l _ _ _ _ _ Hv Hx) as (d & Hd & Hlt).
  by rewrite (list_lookup_total_correct _ _ _ Hd).
Qed.

(** Flipping a gathered array twice along one axis gives it back. *)
Lemma flip_flip_gather axis sh src a :
  Np.flip axis (Np.flip axis (Np.gather sh src a)) = Np.gather sh src a.
Proof.
  unfold Np.flip at 1. cbn [Np.shape Np.flip Np.gather].
  apply gather_ext. intros idx Hv.
  change (Np.flip axis (Np.gather sh src a))
    with (Np.gather sh (fun idx => alter (fun i => (sh !!! axis - 1 - i)%nat) axis idx)
            (Np.gather sh src a)).
  rewrite at_gather by (by apply flip_valid).
  rewrite flip_flip_index by done. by apply at_gather.
Qed.

Lemma length_swap01 n : length (Np.swap01 n) = n.
Proof.
  unfold Np.swap01. destruct n as [|[|n]]; simpl; [done..|].
  by rewrite length_seq.
Qed.

(** [np.rot90(a, 3)[:, ::-1]] is the exchange of the first two axes. *)
Lemma rot270_flip_is_swap a :
  (2 <= Np.ndim a)%nat ->
  rot270_flip a = Np.transpose (Np.swap01 (Np.ndim a)) a.
Proof.
  intros Hn. unfold rot270_flip, Np.rot90.
  rewrite (proj2 (Nat.ltb_ge _ _)) by lia.
  change (3 mod 4) with 3. cbv iota.
  unfold Np.transpose. destruct (Np.is_perm _ _); [|reflexivity].
  cbn [fmap result_fmap mbind result_bind]. unfold Np.rev_axis1.
  set (b := Np.gather _ _ a).
  assert (Hb : Np.ndim (Np.flip 1 b) = Np.ndim a).
  { unfold Np.ndim, Np.flip, b; simpl. by rewrite length_fmap, length_swap01. }
  rewrite Hb, (proj2 (Nat.ltb_ge _ _)) by lia.
  unfold b. by rewrite flip_flip_gather.
Qed.

(** ** The elements of an oriented slice *)

Lemma reshape_raises sh a e : Np.reshape sh a = Raise e -> e = ValueError.
Proof.
  unfold Np.reshape.
  destruct (filter _ sh) as [|[| |[]] []];
    repeat match goal with
    | |- (if ?c then _ else _) = _ -> _ => destruct c
    end; congruence.
Qed.

Lemma reshape_of_nat (sh : list nat) (data : list float) :
  length data = Np.size sh ->
  Np.reshape (Z.of_nat <$> sh) (Np.array1 data) = Ok (Np.mk sh data).
Proof.
  intros Hl. rewrite reshape_plain.
  - by rewrite to_nat_of_nat_list.
  - apply Forall_nonneg_of_nat.
  - simpl. rewrite Hl. clear Hl.
    induction sh as [|d sh IH]; [done|].
    rewrite fmap_cons. simpl. rewrite IH. unfold Np.size; simpl. lia.
Qed.

Lemma reshape_of_nat_inv (sh : list nat) a r :
  Np.reshape (Z.of_nat <$> sh) a = Ok r -> r = Np.mk sh (Np.flat a).
Proof.
  unfold Np.reshape. rewrite filter_neg_nil by apply Forall_nonneg_of_nat.
  destruct (_ =? _); [|done]. intros [= <-]. by rewrite to_nat_of_nat_list.
Qed.

Lemma filter_no_ones (sh : list nat) :
  1%nat ∉ sh -> filter (fun d => d <> 1%nat) sh = sh.
Proof.
  induction sh as [|d sh IH]; [done|]. intros H.
  apply not_elem_of_cons in H as [Hd H].
  rewrite filter_cons_True by done. by rewrite IH.
Qed.

Lemma filter_with_one (sh : list nat) :
  1%nat ∈ sh -> (length (filter (fun d => d <> 1%nat) sh) < length sh)%nat.
Proof.
  induction sh as [|d sh IH]; intros H; [by apply elem_of_nil in H|].
  destruct (decide (d = 1%nat)) as [->|Hd].
  - rewrite filter_cons_False by (by intros []). simpl.
    pose proof (length_filter (fun d => d <> 1%nat) sh). lia.
  - rewrite filter_cons_True by done. simpl.
    apply elem_of_cons in H as [?|H]; [congruence|]. apply IH in H. lia.
Qed.

Lemma rot270_flip_low a :
  (Np.ndim a < 2)%nat -> rot270_flip a = Raise ValueError.
Proof.
  intros H. unfold rot270_flip, Np.rot90.
  by rewrite (proj2 (Nat.ltb_lt _ _)).
Qed.

(** A matrix line of at most three entries, one of them 1: the squeezed
    array has too few axes for the steps that follow. *)
Lemma orient_singleton_axis (sh : list nat) (data : list float) :
  (length sh <= 3)%nat -> 1%nat ∈ sh ->
  orient (Z.of_nat <$> sh) data = Raise ValueError.
Proof.
  intros Hlen Hone. unfold orient, reshape_squeeze.
  rewrite <- fmap_reverse.
  destruct (Np.reshape _ _) as [r|e] eqn:Hr; simpl.
  2:{ by apply reshape_raises in Hr as ->. }
  apply reshape_of_nat_inv in Hr as ->.
  assert (Hn : (Np.ndim (Np.squeeze (Np.mk (reverse sh) data)) < length sh)%nat).
  { unfold Np.ndim, Np.squeeze; simpl.
    rewrite <- (length_reverse sh). apply filter_with_one.
    by apply elem_of_reverse. }
  rewrite length_fmap.
  destruct (decide (length sh = 2%nat)) as [H2|H2].
  - rewrite bool_decide_eq_false_2 by lia. simpl.
    apply rot270_flip_low. lia.
  - rewrite bool_decide_eq_true_2 by done.
    rewrite transpose_wrong_ndim; [done | simpl; lia].
Qed.

(** A matrix line of two entries, none of them 1, over a payload of
    that many floats: the slice has the declared shape and holds the
    payload in column-major order. *)
Lemma orient_two_axes (m n : nat) (data : list float) :
  m <> 1%nat -> n <> 1%nat -> length data = (m * n)%nat ->
  exists r,
    orient [Z.of_nat m; Z.of_nat n] data = Ok r
    /\ Np.shape r = [m; n]
    /\ forall i j : nat, (i < m)%nat -> (j < n)%nat ->
         at_index r [i; j] = data !!! (j * m + i)%nat.
Proof.
  intros Hm Hn Hl. unfold orient, reshape_squeeze.
  change (reverse [Z.of_nat m; Z.of_nat n]) with (Z.of_nat <$> [n; m]).
  rewrite reshape_of_nat by (unfold Np.size; simpl; lia).
  cbn [fmap result_fmap mbind result_bind]. unfold Np.squeeze.
  cbn [Np.shape Np.flat].
  rewrite filter_no_ones.
  2:{ intros H. repeat (apply elem_of_cons in H as [H|H]; [congruence|]).
      by apply elem_of_nil in H. }
  rewrite bool_decide_eq_false_2 by (simpl; lia).
  rewrite !bind_Ok. rewrite rot270_flip_is_swap by (unfold Np.ndim; simpl; lia).
  eexists. split; [reflexivity|]. split; [reflexivity|].
  intros i j Hi Hj.
  rewrite at_gather by (repeat constructor; done).
  reflexivity.
Qed.

(** A matrix line of three entries, none of them 1: the slice has the
    first two declared axes exchanged, and its element (i, j, k) is the
    float number (k * n + i) * m + j of the payload. *)
Lemma orient_three_axes (m n p : nat) (data : list float) :
  m <> 1%nat -> n <> 1%nat -> p <> 1%nat ->
  length data = (m * n * p)%nat ->
  exists r,
    orient [Z.of_nat m; Z.of_nat n; Z.of_nat p] data = Ok r
    /\ Np.shape r = [n; m; p]
    /\ forall i j k : nat, (i < n)%nat -> (j < m)%nat -> (k < p)%nat ->
         at_index r [i; j; k] = data !!! ((k * n + i) * m + j)%nat.
Proof.
  intros Hm Hn Hp Hl. unfold orient, reshape_squeeze.
  change (reverse [Z.of_nat m; Z.of_nat n; Z.of_nat p])
    with (Z.of_nat <$> [p; n; m]).
  rewrite reshape_of_nat by (unfold Np.size; simpl; lia).
  cbn [fmap result_fmap mbind result_bind]. unfold Np.squeeze.
  cbn [Np.shape Np.flat].
  rewrite filter_no_ones.
  2:{ intros H. repeat (apply elem_of_cons in H as [H|H]; [congruence|]).
      by apply elem_of_nil in H. }
  rewrite bool_decide_eq_true_2 by (simpl; lia).
  rewrite transpose_3d by reflexivity.
  rewrite !bind_Ok. rewrite rot270_flip_is_swap by (unfold Np.ndim; simpl; lia).
  eexists. split; [reflexivity|]. split; [reflexivity|].
  intros i j k Hi Hj Hk.
  rewrite at_gather by (repeat constructor; done).
  cbn [Np.ndim Np.shape Np.gather length Np.swap01 seq].
  rewrite at_gather by (repeat constructor; done).
  reflexivity.
Qed.

(** ** The axis permutation, the rotation and the reversal *)






















(** ** The elements of a stack of slices *)

Lemma lookup_concat_blocks {A} (k : nat) (ls : list (list A)) :
  Forall (fun l => length l = k) ls ->
  forall (i j : nat) l, ls !! i = Some l -> (j < k)%nat ->
  concat ls !! (i * k + j)%nat = l !! j.
Proof.
  induction 1 as [|x ls Hx _ IH]; intros i j l Hl Hj; [done|].
  simpl. destruct i as [|i]; simpl in Hl.
  - injection Hl as ->. by rewrite lookup_app_l by lia.
  - rewrite lookup_app_r by lia.
    replace (S i * k + j - length x)%nat with (i * k + j)%nat by lia.
    by apply IH.
Qed.

(** [np.transpose(np.array(slices), (1, 2, 0))]: the slices along the
    last axis. *)
Lemma stack_transposed a b (slices : list Np.ndarray) :
  slices <> [] -> Forall (is_slice a b) slices ->
  exists st,
    Np.stack slices ≫= Np.transpose [1; 2; 0]%nat = Ok st
    /\ Np.shape st = [a; b; length slices]
    /\ length (Np.flat st) = (a * b * length slices)%nat
    /\ forall i j k : nat, (i < a)%nat -> (j < b)%nat -> (k < length slices)%nat ->
         at_index st [i; j; k] = at_index (slices !!! k) [i; j].
Proof.
  intros Hne Hall.
  assert (Hsh : Forall (fun x => Np.shape x = [a; b]) slices).
  { eapply Forall_impl; [exact Hall|]. by intros x [? _]. }
  rewrite (stack_same slices [a; b] Hne Hsh), bind_Ok.
  rewrite transpose_3d by reflexivity.
  eexists. split; [reflexivity|]. split; [reflexivity|]. split.
  { rewrite length_gather. unfold Np.size; simpl. lia. }
  intros i j k Hi Hj Hk.
  rewrite at_gather by (repeat constructor; done).
  destruct (lookup_lt_is_Some_2 slices k Hk) as [x Hx].
  rewrite (list_lookup_total_correct _ _ _ Hx).
  rewrite Forall_forall in Hall.
  destruct (Hall x) as [Hxs Hxl]; [by eapply list_elem_of_lookup_2|].
  change (at_index (Np.mk [length slices; a; b] (concat (Np.flat <$> slices)))
            [k; i; j] = at_index x [i; j]).
  unfold at_index. rewrite Hxs. cbn [Np.shape Np.flat].
  replace (Np.offset [length slices; a; b] [k; i; j])
    with ((k * a + i) * b + j)%nat by reflexivity.
  replace (Np.offset [a; b] [i; j]) with (i * b + j)%nat by reflexivity.
  rewrite !list_lookup_total_alt. f_equal.
  replace ((k * a + i) * b + j)%nat with (k * (a * b) + (i * b + j))%nat by lia.
  apply lookup_concat_blocks.
  - apply Forall_fmap. apply Forall_forall. intros y Hy.
    by destruct (Hall y Hy) as [_ ?].
  - by rewrite list_lookup_fmap, Hx.
  - nia.
Qed.

(** ** The elements of an assembled volume *)

Lemma reshape_flat sh a r : Np.reshape sh a = Ok r -> Np.flat r = Np.flat a.
Proof.
  unfold Np.reshape.
  destruct (filter _ sh) as [|[| |[]] []];
    repeat match goal with
    | |- (if ?c then _ else _) = _ -> _ => destruct c
    end; try discriminate; by intros [= <-].
Qed.

Lemma reshape_size sh a r :
  Forall (fun d => 0 <= d) sh -> Np.reshape sh a = Ok r ->
  foldr Z.mul 1 sh = Z.of_nat (length (Np.flat a)).
Proof.
  intros Hsh. unfold Np.reshape. rewrite filter_neg_nil by done.
  destruct (Z.eqb_spec (foldr Z.mul 1 sh) (Z.of_nat (length (Np.flat a))));
    [done | discriminate].
Qed.

Section Volume.

Variable py_float : string -> option float.

(** X8: With a repetition count of at most one, a directory of 2D slices
    becomes the 3D stack of the slices along the last axis. *)
Theorem stack_without_time heap slices (h0 : header) a b vd rvd s time :
  heap !! 0%nat = Some h0 ->
  slices <> [] -> Forall (is_slice a b) slices ->
  h0 !! "voxel_dim" = Some (VNums vd) ->
  h0 !! "real_voxel_dim" = Some (VFloats rvd) ->
  h0 !! "array_dim" = Some (VStr s) ->
  int_float py_float s = Ok time -> time <= 1 ->
  exists v,
    assemble py_float heap slices = Ok v
    /\ Np.shape (vol_data v) = [a; b; length slices]
    /\ (forall i j k : nat,
          (i < a)%nat -> (j < b)%nat -> (k < length slices)%nat ->
          at_index (vol_data v) [i; j; k] = at_index (slices !!! k) [i; j])
    /\ item (vol_header v) "shape" (vol_heap v)
       = Some (VInts [Z.of_nat a; Z.of_nat b; Z.of_nat (length slices)])
    /\ item (vol_header v) "voxel_dim" (vol_heap v)
       = Some (VNums (if bool_decide (length vd = 3%nat) then vd
                      else vd ++ (NumF <$> drop 2 rvd))).
Proof.
  intros Hh Hne Hall Hvd Hrvd Had Htime Ht.
  destruct (stack_transposed a b slices Hne Hall) as (st & Hst & Hshape & _ & Hel).
  assert (Hsh : Forall (fun x => Np.shape x = [a; b]) slices).
  { eapply Forall_impl; [exact Hall|]. by intros x [? _]. }
  unfold assemble.
  rewrite (stack_same slices [a; b] Hne Hsh) in Hst. rewrite bind_Ok in Hst.
  rewrite (stack_same slices [a; b] Hne Hsh), !bind_Ok.
  cbn [Np.ndim Np.shape length]. change (3 <? 4)%nat with true. cbv iota.
  rewrite Hst, !bind_Ok, Hshape.
  change (Z.of_nat <$> [a; b; length slices])
    with [Z.of_nat a; Z.of_nat b; Z.of_nat (length slices)].
  cbn [length].
  set (heap1 := set_item 0 "shape" _ heap).
  assert (S0 : is_Some (heap !! 0%nat)) by (by eexists).
  assert (S1 : is_Some (heap1 !! 0%nat)) by (by apply is_Some_set_item).
  assert (I1 : forall k, k <> "shape"%string -> item 0 k heap1 = h0 !! k).
  { intros k Hk. unfold heap1. rewrite item_set_other by done.
    by apply item_at. }
  assert (J1 : item 0 "shape" heap1
               = Some (VInts [Z.of_nat a; Z.of_nat b; Z.of_nat (length slices)]))
    by (unfold heap1; by rewrite item_set_same).
  rewrite (get_item_via_item 0 "voxel_dim" heap1 S1),
    (I1 "voxel_dim"), Hvd by done.
  cbn [from_opt]. rewrite !bind_Ok.
  set (vd' := if bool_decide (length vd = 3%nat) then vd
              else vd ++ (NumF <$> drop 2 rvd)).
  set (heap2 := if bool_decide (length vd = 3%nat) then heap1
                else set_item 0 "voxel_dim" (VNums vd') heap1).
  assert (Hh2 : (if bool_decide (3%nat ≠ length vd)
                 then r ← get_item 0 "real_voxel_dim" heap1;
                      rvd0 ← match r with
                             | VFloats l => Ok l
                             | _ => Raise TypeError
                             end;
                      Ok (set_item 0 "voxel_dim"
                            (VNums (vd ++ (NumF <$> drop (3 - 1) rvd0))) heap1)
                 else Ok heap1) = Ok heap2).
  { unfold heap2, vd'. destruct (decide (length vd = 3%nat)) as [He|He].
    - rewrite bool_decide_eq_false_2, bool_decide_eq_true_2 by lia. done.
    - rewrite bool_decide_eq_true_2, bool_decide_eq_false_2 by lia.
      rewrite (get_item_via_item 0 "real_voxel_dim" heap1 S1),
        (I1 "real_voxel_dim"), Hrvd by done.
      reflexivity. }
  rewrite Hh2, bind_Ok.
  assert (S2 : is_Some (heap2 !! 0%nat)).
  { unfold heap2. destruct (bool_decide _); [done|]. by apply is_Some_set_item. }
  assert (I2 : item 0 "array_dim" heap2 = Some (VStr s)
               /\ item 0 "voxel_dim" heap2 = Some (VNums vd')
               /\ item 0 "shape" heap2
                  = Some (VInts [Z.of_nat a; Z.of_nat b;
                                 Z.of_nat (length slices)])).
  { unfold heap2, vd'. destruct (bool_decide _) eqn:Hb.
    - by rewrite (I1 "array_dim"), (I1 "voxel_dim"), J1.
    - rewrite (item_set_other 0 "voxel_dim" "array_dim") by done.
      rewrite (item_set_other 0 "voxel_dim" "shape") by done.
      rewrite item_set_same, (I1 "array_dim"), J1 by done. done. }
  destruct I2 as (I2a & I2v & I2s).
  rewrite (get_item_via_item 0 "array_dim" heap2 S2), I2a. cbn [from_opt].
  rewrite bind_Ok, Htime, bind_Ok.
  rewrite (proj2 (Z.ltb_ge 1 time)) by lia.
  eexists. split; [reflexivity|]. cbn [vol_data vol_header vol_heap].
  split_and!; auto.
Qed.

(** X9: Whenever a directory of 2D slices is assembled, the volume is the
    stack of the slices along the third axis, or, for a repetition count
    [t > 1], that axis split in two: element (i, j, k, l) is element
    (i, j) of slice number [k * t + l]. *)
Theorem volume_elements heap slices v a b :
  slices <> [] -> Forall (is_slice a b) slices ->
  assemble py_float heap slices = Ok v ->
  (Np.shape (vol_data v) = [a; b; length slices]
   /\ forall i j k : nat,
        (i < a)%nat -> (j < b)%nat -> (k < length slices)%nat ->
        at_index (vol_data v) [i; j; k] = at_index (slices !!! k) [i; j])
  \/ (exists t q : nat,
        (1 < t)%nat
        /\ Np.shape (vol_data v) = [a; b; q; t]
        /\ forall i j k l : nat,
             (i < a)%nat -> (j < b)%nat -> (k < q)%nat -> (l < t)%nat ->
             (k * t + l < length slices)%nat
             /\ at_index (vol_data v) [i; j; k; l]
                = at_index (slices !!! (k * t + l)%nat) [i; j]).
Proof.
  intros Hne Hall H.
  destruct (stack_transposed a b slices Hne Hall) as (st & Hst & Hshape & Hlen & Hel).
  assert (Hsh : Forall (fun x => Np.shape x = [a; b]) slices).
  { eapply Forall_impl; [exact Hall|]. by intros x [? _]. }
  unfold assemble in H.
  rewrite (stack_same slices [a; b] Hne Hsh) in Hst. rewrite bind_Ok in Hst.
  rewrite (stack_same slices [a; b] Hne Hsh), !bind_Ok in H.
  cbn [Np.ndim Np.shape length] in H. change (3 <? 4)%nat with true in H.
  cbv iota in H. rewrite Hst, !bind_Ok, Hshape in H.
  change (Z.of_nat <$> [a; b; length slices])
    with [Z.of_nat a; Z.of_nat b; Z.of_nat (length slices)] in H.
  apply bind_ok in H as (x & _ & H).
  apply bind_ok in H as (vd & _ & H).
  apply bind_ok in H as (heap2 & _ & H).
  apply bind_ok in H as (ad & _ & H).
  apply bind_ok in H as (time & _ & H).
  destruct (Z.ltb_spec 1 time) as [Ht|Ht].
  - right.
    apply bind_ok in H as (x' & _ & H).
    apply bind_ok in H as (vd' & _ & H).
    apply bind_ok in H as (r & Hr & H). injection H as <-.
    cbn [vol_data].
    change ([Z.of_nat a; Z.of_nat b; Z.of_nat (length slices)] !!! 0%nat)
      with (Z.of_nat a) in Hr.
    change ([Z.of_nat a; Z.of_nat b; Z.of_nat (length slices)] !!! 1%nat)
      with (Z.of_nat b) in Hr.
    change ([Z.of_nat a; Z.of_nat b; Z.of_nat (length slices)] !!! 2%nat)
      with (Z.of_nat (length slices)) in Hr.
    set (rd := round_div (Z.of_nat (length slices)) time) in *.
    assert (Hrd : 0 <= rd) by (apply round_div_nonneg; lia).
    assert (Hnn : Forall (fun d => 0 <= d) [Z.of_nat a; Z.of_nat b; rd; time])
      by (repeat constructor; lia).
    pose proof (reshape_shape _ _ _ Hnn Hr) as Hrs.
    pose proof (reshape_flat _ _ _ Hr) as Hrf.
    pose proof (reshape_size _ _ _ Hnn Hr) as Hsz.
    rewrite Hlen in Hsz. cbn [foldr] in Hsz.
    assert (Hrs' : Np.shape r = [a; b; Z.to_nat rd; Z.to_nat time]).
    { rewrite Hrs. by rewrite !fmap_cons, !Nat2Z.id. }
    exists (Z.to_nat time), (Z.to_nat rd). split; [lia|]. split; [done|].
    intros i j k l Hi Hj Hk Hl.
    assert (Hz : rd * time = Z.of_nat (length slices)).
    { apply (Z.mul_cancel_l _ _ (Z.of_nat a * Z.of_nat b)); [nia|].
      rewrite !Nat2Z.inj_mul in Hsz. lia. }
    assert (Hq : (Z.to_nat rd * Z.to_nat time = length slices)%nat).
    { rewrite <- Z2Nat.inj_mul, Hz by lia. apply Nat2Z.id. }
    assert (Hkl : (k * Z.to_nat time + l < length slices)%nat).
    { rewrite <- Hq. nia. }
    split; [done|].
    rewrite <- (Hel i j _ Hi Hj Hkl).
    unfold at_index. rewrite Hrs', Hrf, Hshape. f_equal.
    unfold Np.offset. simpl. rewrite <- Hq. nia.
  - left. injection H as <-. cbn [vol_data]. by split.
Qed.

End Volume.

(** ** Gradients *)

Lemma prefix_compatible p1 p2 s :
  String.prefix p1 s = true -> String.prefix p2 s = true ->
  String.prefix p1 p2 = true \/ String.prefix p2 p1 = true.
Proof.
  revert p1 p2; induction s as [|c s IH]; intros [|a1 p1] [|a2 p2]; simpl;
    try (intros; auto; discriminate).
  destruct (ascii_dec a1 c) as [->|]; [|discriminate].
  destruct (ascii_dec a2 c) as [->|]; [|discriminate].
  destruct (ascii_dec c c); [|done]. apply IH.
Qed.

(** A line starts with at most one of the four tags. *)
Lemma one_tag line t1 t2 f1 f2 :
  (t1, f1) ∈ gradient_fields -> (t2, f2) ∈ gradient_fields ->
  Py.startswith line t1 = true -> Py.startswith line t2 = true ->
  t1 = t2.
Proof.
  unfold Py.startswith, gradient_fields. intros H1 H2 P1 P2.
  destruct (prefix_compatible _ _ _ P1 P2) as [H|H];
    repeat (apply elem_of_cons in H1 as [[= -> _]|H1]);
    try (by apply elem_of_nil in H1);
    repeat (apply elem_of_cons in H2 as [[= -> _]|H2]);
    try (by apply elem_of_nil in H2);
    try reflexivity; discriminate H.
Qed.

Section Gradients.

Variable py_float : string -> option float.

(** One turn of the loop: nothing changes on a line without a tag; on a
    line with a tag the next line goes to the field of the tag. *)
Lemma procpar_step_spec line rest g g' rest' :
  procpar_step line rest g = Ok (g', rest') ->
  (rest' = rest /\ g' = g /\ is_tag_line line = false)
  \/ (exists l tag f,
        rest = l :: rest' /\ (tag, f) ∈ gradient_fields
        /\ Py.startswith line tag = true /\ f g' = Some l
        /\ forall tag' f', (tag', f') ∈ gradient_fields -> tag' <> tag ->
                           f' g' = f' g).
Proof.
  unfold procpar_step, is_tag_line, gradient_fields. simpl.
  destruct (Py.startswith line "bvalue") eqn:Hb;
  destruct (Py.startswith line "dpe ") eqn:Hx;
  destruct (Py.startswith line "dro ") eqn:Hy;
  destruct (Py.startswith line "dsl ") eqn:Hz;
  try (exfalso;
       match goal with
       | H1 : Py.startswith line ?t1 = true, H2 : Py.startswith line ?t2 = true |- _ =>
           assert (t1 = t2) by
             (eapply (one_tag line t1 t2 _ _); [| |exact H1|exact H2];
              unfold gradient_fields;
              repeat first [apply list_elem_of_here | apply list_elem_of_further]);
           discriminate
       end);
  destruct rest as [|l rest0]; simpl; intros H; try discriminate;
  injection H as <- <-; destruct g as [gb gx gy gz]; simpl.
  all: try (left; by split_and!).
  all: right.
  - exists l, "bvalue"%string, bval. split_and!; try done.
    + apply list_elem_of_here.
    + intros t f Hin Hne. simpl.
      repeat (apply elem_of_cons in Hin as [[= -> ->]|Hin]); try done.
      by apply elem_of_nil in Hin.
  - exists l, "dpe "%string, diff_x. split_and!; try done.
    + apply list_elem_of_further, list_elem_of_here.
    + intros t f Hin Hne. simpl.
      repeat (apply elem_of_cons in Hin as [[= -> ->]|Hin]); try done.
      by apply elem_of_nil in Hin.
  - exists l, "dro "%string, diff_y. split_and!; try done.
    + do 2 apply list_elem_of_further. apply list_elem_of_here.
    + intros t f Hin Hne. simpl.
      repeat (apply elem_of_cons in Hin as [[= -> ->]|Hin]); try done.
      by apply elem_of_nil in Hin.
  - exists l, "dsl "%string, diff_z. split_and!; try done.
    + do 3 apply list_elem_of_further. apply list_elem_of_here.
    + intros t f Hin Hne. simpl.
      repeat (apply elem_of_cons in Hin as [[= -> ->]|Hin]); try done.
      by apply elem_of_nil in Hin.
Qed.

Lemma follows_cons tag l line ls : follows tag l ls -> follows tag l (line :: ls).
Proof.
  intros (pre & ln & post & -> & H). by exists (line :: pre), ln, post.
Qed.

Lemma field_of_tag tag f f' :
  (tag, f) ∈ gradient_fields -> (tag, f') ∈ gradient_fields -> f = f'.
Proof.
  unfold gradient_fields. intros H1 H2.
  repeat (apply elem_of_cons in H1 as [[= -> ->]|H1]);
    try (by apply elem_of_nil in H1);
    repeat (apply elem_of_cons in H2 as [[=]|H2]);
    try (by apply elem_of_nil in H2); subst; reflexivity.
Qed.

(** After the loop every field is as before, or it holds the line that
    follows a line with the tag of the field. *)
Lemma procpar_loop_spec fuel : forall ls g g',
  procpar_loop fuel ls g = Ok g' ->
  forall tag f, (tag, f) ∈ gradient_fields ->
  f g' = f g \/ exists l, f g' = Some l /\ follows tag l ls.
Proof.
  induction fuel as [|fuel IH]; intros ls g g' H tag f Hin.
  { left. destruct ls; simpl in H; by injection H as <-. }
  destruct ls as [|line rest]; simpl in H; [left; by injection H as <-|].
  apply bind_ok in H as ([g1 rest1] & Hstep & H).
  specialize (IH _ _ _ H tag f Hin).
  apply procpar_step_spec in Hstep
    as [(-> & -> & _) | (l0 & t0 & f0 & -> & Hin0 & Ht0 & Hf0 & Hother)].
  - destruct IH as [IH | (l & Hl & Hfol)]; [by left|].
    right. exists l. split; [done|]. by apply follows_cons.
  - destruct IH as [IH | (l & Hl & Hfol)].
    + destruct (decide (tag = t0)) as [->|Hne].
      * right. exists l0. rewrite IH, (field_of_tag _ _ _ Hin Hin0).
        split; [done|]. by exists [], line, rest1.
      * left. rewrite IH. by apply (Hother tag).
    + right. exists l. split; [done|]. by do 2 apply follows_cons.
Qed.

Lemma truthy_Some o : truthy o = true -> exists l, o = Some l.
Proof. destruct o as [[]|]; simpl; try discriminate; eauto. Qed.

(** X16: [add_gradient_info] on a dictionary: it comes back untouched, or
    with the four gradient keys set from the lines that follow the four
    tags in the procpar file, the numbers after the first token of each
    line, those of the dpe line with their sign changed; no other key
    changes. *)
Theorem gradients_from_procpar procpar (h : header) r :
  add_gradient_info py_float procpar (ObjDict h) = Ok r ->
  r = ObjDict h
  \/ exists lb lx ly lz bv dx dy dz (h' : header),
       r = ObjDict h'
       /\ follows "bvalue" lb procpar /\ follows "dpe " lx procpar
       /\ follows "dro " ly procpar /\ follows "dsl " lz procpar
       /\ floats_after_key py_float lb = Ok bv
       /\ floats_after_key py_float lx = Ok dx
       /\ floats_after_key py_float ly = Ok dy
       /\ floats_after_key py_float lz = Ok dz
       /\ h' !! "bvalue" = Some (VFloats bv)
       /\ h' !! "diff_x" = Some (VFloats (PrimFloat.opp <$> dx))
       /\ h' !! "diff_y" = Some (VFloats dy)
       /\ h' !! "diff_z" = Some (VFloats dz)
       /\ forall k, k ∉ ["bvalue"; "diff_x"; "diff_y"; "diff_z"]%string ->
                    h' !! k = h !! k.
Proof.
  unfold add_gradient_info. intros H.
  apply bind_ok in H as (g & Hg & H).
  destruct (truthy (bval g) && truthy (diff_x g) && truthy (diff_y g)
            && truthy (diff_z g)) eqn:Ht; [|left; by injection H as <-].
  right.
  apply andb_prop in Ht as [Ht Hz]. apply andb_prop in Ht as [Ht Hy].
  apply andb_prop in Ht as [Hb Hx].
  apply truthy_Some in Hb as [lb Hb], Hx as [lx Hx], Hy as [ly Hy], Hz as [lz Hz].
  assert (F : forall tag f l, (tag, f) ∈ gradient_fields -> f g = Some l ->
                              follows tag l procpar).
  { intros tag f l Hin Hf.
    destruct (procpar_loop_spec _ _ _ _ Hg tag f Hin) as [Heq | (l' & Hl' & Hfol)].
    - rewrite Hf in Heq. unfold gradient_fields in Hin.
      repeat (apply elem_of_cons in Hin as [[= -> ->]|Hin]);
        try (by apply elem_of_nil in Hin); discriminate.
    - rewrite Hf in Hl'. by injection Hl' as ->. }
  rewrite Hb, Hx, Hy, Hz in H. simpl in H.
  apply bind_ok in H as (bv & Hbv & H).
  apply bind_ok in H as (dx & Hdx & H).
  apply bind_ok in H as (dy & Hdy & H).
  apply bind_ok in H as (dz & Hdz & H). injection H as <-.
  exists lb, lx, ly, lz, bv, dx, dy, dz. eexists. split; [reflexivity|].
  split_and!; try done.
  - apply (F _ bval); [apply list_elem_of_here | done].
  - apply (F _ diff_x); [apply list_elem_of_further, list_elem_of_here | done].
  - apply (F _ diff_y); [do 2 apply list_elem_of_further; apply list_elem_of_here | done].
  - apply (F _ diff_z); [do 3 apply list_elem_of_further; apply list_elem_of_here | done].
  - by rewrite !lookup_insert_ne, lookup_insert_eq by done.
  - by rewrite !lookup_insert_ne, lookup_insert_eq by done.
  - by rewrite !lookup_insert_ne, lookup_insert_eq by done.
  - by rewrite lookup_insert_eq.
  - intros k Hk. repeat (apply not_elem_of_cons in Hk as [? Hk]).
    by rewrite !lookup_insert_ne by done.
Qed.

(** X17: A procpar file that ends on a tag line, with no other tag line
    before it: [next] finds no line and [StopIteration] escapes, for a
    dictionary and for an array alike. *)
Theorem procpar_ends_on_tag pre line header :
  Forall (fun l => is_tag_line l = false) pre -> is_tag_line line = true ->
  add_gradient_info py_float (pre ++ [line]) header = Raise StopIteration.
Proof.
  intros Hpre Hline. unfold add_gradient_info.
  assert (H : forall fuel g, (length pre < fuel)%nat ->
            procpar_loop fuel (pre ++ [line]) g = Raise StopIteration).
  { induction Hpre as [|l pre Hl _ IH]; intros fuel g Hf.
    - destruct fuel as [|fuel]; [simpl in Hf; lia|]. simpl.
      unfold procpar_step, is_tag_line, gradient_fields in *. simpl in Hline.
      destruct (Py.startswith line "bvalue"); [done|].
      destruct (Py.startswith line "dpe "); [done|].
      destruct (Py.startswith line "dro "); [done|].
      destruct (Py.startswith line "dsl "); [done|]. discriminate.
    - destruct fuel as [|fuel]; [simpl in Hf; lia|]. simpl.
      unfold procpar_step at 1. unfold is_tag_line, gradient_fields in Hl.
      simpl in Hl.
      destruct (Py.startswith l "bvalue"); [discriminate|].
      destruct (Py.startswith l "dpe "); [discriminate|].
      destruct (Py.startswith l "dro "); [discriminate|].
      destruct (Py.startswith l "dsl "); [discriminate|]. simpl.
      apply IH. simpl in Hf. lia. }
  rewrite H; [done|]. rewrite length_app. simpl. lia.
Qed.

Lemma procpar_step_raises line rest g e :
  procpar_step line rest g = Raise e -> e = StopIteration.
Proof.
  unfold procpar_step.
  destruct (Py.startswith line "bvalue"), (Py.startswith line "dpe "),
    (Py.startswith line "dro "), (Py.startswith line "dsl ");
    destruct rest as [|l1 [|l2 [|l3 [|l4 rest]]]]; simpl; congruence.
Qed.

Lemma procpar_loop_raises fuel : forall ls g e,
  procpar_loop fuel ls g = Raise e -> e = StopIteration.
Proof.
  induction fuel as [|fuel IH]; intros [|line rest] g e H; simpl in H;
    try discriminate.
  destruct (procpar_step line rest g) as [[g1 rest1]|e1] eqn:Hs; simpl in H.
  - by eapply IH.
  - injection H as <-. by eapply procpar_step_raises.
Qed.

(** X18: Without a line that starts with one of the four tags the header
    stays as it is, whatever the other three tags give, unless the file
    ends on a tag line. *)
Theorem gradients_need_all_tags tag f procpar header :
  (tag, f) ∈ gradient_fields ->
  Forall (fun l => Py.startswith l tag = false) procpar ->
  add_gradient_info py_float procpar header = Ok header
  \/ add_gradient_info py_float procpar header = Raise StopIteration.
Proof.
  intros Hin Hall. unfold add_gradient_info.
  destruct (procpar_loop _ _ _) as [g|e] eqn:Hg; simpl.
  2:{ right. by apply procpar_loop_raises in Hg as ->. }
  left.
  assert (Hf : f g = None).
  { destruct (procpar_loop_spec _ _ _ _ Hg tag f Hin)
      as [Heq | (l & _ & pre & line & post & -> & Hl)].
    - rewrite Heq. unfold gradient_fields in Hin.
      repeat (apply elem_of_cons in Hin as [[= -> ->]|Hin]);
        try (by apply elem_of_nil in Hin); reflexivity.
    - apply Forall_app in Hall as [_ Hall].
      apply Forall_cons in Hall as [Hline _]. congruence. }
  assert (Ht : truthy (bval g) && truthy (diff_x g) && truthy (diff_y g)
               && truthy (diff_z g) = false).
  { unfold gradient_fields in Hin.
    repeat (apply elem_of_cons in Hin as [[= -> ->]|Hin]);
      try (by apply elem_of_nil in Hin); rewrite Hf; simpl;
      rewrite ?andb_false_r; reflexivity. }
  by rewrite Ht.
Qed.

End Gradients.

(** ** The shape of a file that was read *)

Lemma span_prefix cls hi : forall s k,
  (k <= Re.span cls hi s)%nat ->
  Forall (fun c => cls c = true) (list_ascii_of_string (String.substring 0 k s)).
Proof.
  intros s; revert hi; induction s as [|c s IH]; intros hi k Hk.
  - destruct k; simpl; constructor.
  - destruct k as [|k]; [constructor|].
    assert (Hc : cls c = true /\ (k <= Re.span cls (Nat.pred <$> hi) s)%nat).
    { destruct hi as [[|n]|]; simpl in Hk; try lia;
        destruct (cls c); simpl in *; split; auto; lia. }
    destruct Hc as [Hc Hk']. simpl. constructor; [done|]. by eapply IH.
Qed.

Lemma digits_regex_match s pos m :
  Re.match_at digits_regex s pos None None = Some m ->
  all_digits (Re.reported digits_regex s pos m).
Proof.
  unfold digits_regex, Re.plus.
  change (Re.match_at (Re.GroupStart :: ?r) s pos None None)
    with (Re.match_at r s pos (Some pos) None).
  intros H. apply match_at_rep in H as (k & Hk & H).
  injection H as <-.
  change (Re.reported _ s pos (pos + k, Some pos, Some (pos + k))%nat)
    with (Re.slice pos (pos + k) s).
  rewrite slice_drop. replace (pos + k - pos)%nat with k by lia.
  apply span_prefix with None. lia.
Qed.

Lemma findall_digits s : Forall all_digits (Re.findall digits_regex s).
Proof. apply findall_from_Forall, digits_regex_match. Qed.

Lemma int_of_digits_nonneg s : all_digits s -> 0 <= Py.int_of_digits s.
Proof.
  unfold all_digits, Py.int_of_digits.
  assert (H : forall l acc, 0 <= acc ->
    Forall (fun c => Py.isdigit c = true) l ->
    0 <= fold_left (fun acc c => 10 * acc + Py.digit_val c) l acc).
  { induction l as [|c l IH]; intros acc Hacc Hl; simpl; [done|].
    apply Forall_cons in Hl as [Hc Hl]. apply IH; [|done].
    unfold Py.isdigit in Hc. unfold Py.digit_val.
    apply andb_prop in Hc as [Hc _]. apply Nat.leb_le in Hc. lia. }
  apply H. lia.
Qed.

Lemma int64_array_ok l sh : int64_array l = Ok sh -> sh = l.
Proof. unfold int64_array. destruct (forallb _ l); congruence. Qed.

Section ReadShape.

Variable py_float : string -> option float.

(** The only branch that writes [shape] is the one of a matrix line; it
    stores the runs of digits of the line as integers. *)
Lemma process_line_matrix line (h h' : header) :
  process_line py_float line h = Ok h' ->
  if is_matrix_line line
  then h' !! "shape"
       = Some (VInts (Py.int_of_digits
                        <$> Re.findall digits_regex (Py.rstrip line)))
  else h' !! "shape" = h !! "shape".
Proof.
  intros H. unfold process_line in H.
  apply bind_ok in H as (h1 & H1 & H).
  apply bind_ok in H as (h2 & H2 & H).
  assert (Hk : h2 !! "shape" = h !! "shape").
  { unfold normalize_endian in H2. apply bind_ok in H2 as (e & _ & H2).
    transitivity (h1 !! "shape").
    - destruct e; injection H2 as <-; by rewrite ?lookup_insert_ne.
    - apply (scan_tags_other _ _ _ _ _ H1). simpl. solve_notin. }
  unfold special_tags in H. unfold is_matrix_line.
  destruct (0 <? Py.find line "abscissa"); simpl.
  { apply bind_ok in H as (? & _ & H). injection H as <-.
    by rewrite !lookup_insert_ne. }
  destruct (0 <? Py.find line "roi"); simpl.
  { apply bind_ok in H as (? & _ & H). injection H as <-.
    by rewrite !lookup_insert_ne. }
  destruct (0 <? Py.find line "orientation"); simpl.
  { apply bind_ok in H as (? & _ & H). injection H as <-.
    by rewrite !lookup_insert_ne. }
  destruct (0 <? Py.find line "origin"); simpl.
  { apply bind_ok in H as (? & _ & H). injection H as <-.
    by rewrite !lookup_insert_ne. }
  destruct (0 <? Py.find line "matrix"); simpl.
  - apply bind_ok in H as (sh & Hsh & H). injection H as <-.
    apply int64_array_ok in Hsh as ->. by rewrite lookup_insert_eq.
  - by injection H as <-.
Qed.

(** The loop ends on a line that opens with the form feed, and what it
    leaves under [shape] was there before or comes from a matrix line. *)
Lemma parse_lines_shape ls (h h' : header) :
  parse_lines py_float ls h = Ok h' ->
  (exists line, line ∈ ls /\ is_form_feed_line line)
  /\ (h' !! "shape" = h !! "shape"
      \/ exists line,
           line ∈ ls /\ is_matrix_line line = true
           /\ h' !! "shape"
              = Some (VInts (Py.int_of_digits
                               <$> Re.findall digits_regex (Py.rstrip line)))).
Proof.
  revert h; induction ls as [|raw ls IH]; intros h H; simpl in H.
  - discriminate.
  - apply bind_ok in H as (line & Hline & H).
    apply bytes_decode_ok in Hline as ->.
    apply bind_ok in H as (c & Hc & H).
    destruct (Ascii.eqb_spec c ff) as [->|Hne].
    + injection H as <-. split; [|by left].
      exists raw. split; [apply list_elem_of_here|].
      destruct raw as [|c rest]; [discriminate|]. injection Hc as ->.
      by exists rest.
    + apply bind_ok in H as (h1 & H1 & H).
      apply process_line_matrix in H1.
      destruct (IH _ H) as [(l & Hl & Hff) [Heq | (l' & Hin & Hm & Hv)]].
      * split; [exists l; split; [by apply list_elem_of_further | done]|].
        destruct (is_matrix_line raw) eqn:Hm.
        -- right. exists raw. rewrite Heq.
           split_and!; auto. apply list_elem_of_here.
        -- left. congruence.
      * split; [exists l; split; [by apply list_elem_of_further | done]|].
        right. exists l'. split_and!; auto. by apply list_elem_of_further.
Qed.

Lemma orient_default_shape data : orient [-1; -1; 1; 1] data = Raise ValueError.
Proof. reflexivity. Qed.

(** X1: A file that [read_file] reads has a line that opens with the form
    feed and a matrix line; the shape in its header is the sequence of
    numbers of that line, none of them negative. *)
Theorem read_file_needs_matrix file (h : header) a :
  read_file py_float file = Ok (h, a) ->
  (exists line, line ∈ Py.readlines file /\ is_form_feed_line line)
  /\ exists line sh,
       line ∈ Py.readlines file /\ is_matrix_line line = true
       /\ sh = Py.int_of_digits <$> Re.findall digits_regex (Py.rstrip line)
       /\ h !! "shape" = Some (VInts sh)
       /\ Forall (fun d => 0 <= d) sh.
Proof.
  intros H.
  apply read_file_ok in H as (h1 & h2 & sh & rvd & data & H1 & H2 & Hsh & Hrvd & -> & Ho).
  rewrite (decode_payload_other _ _ _ _ "shape" H2) in Hsh by done.
  apply parse_lines_shape in H1 as [Hff [Heq | (line & Hin & Hm & Hv)]].
  { rewrite Heq in Hsh. injection Hsh as <-.
    by rewrite orient_default_shape in Ho. }
  split; [done|].
  exists line, sh. rewrite Hv in Hsh. injection Hsh as <-.
  split_and!; auto.
  - rewrite lookup_insert_ne by done.
    by rewrite (decode_payload_other _ _ _ _ "shape" H2).
  - apply Forall_fmap. eapply Forall_impl; [apply findall_digits|].
    intros s. apply int_of_digits_nonneg.
Qed.

End ReadShape.

(** ** The elements of a file that was read *)

Lemma product_nonneg sh : Forall (fun d => 0 <= d) sh -> 0 <= product sh.
Proof.
  unfold product. induction 1 as [|d sh Hd _ IH]; simpl; [lia|].
  by apply Z.mul_nonneg_nonneg.
Qed.

Lemma foldr_mul_init sh a : foldr Z.mul a sh = a * foldr Z.mul 1 sh.
Proof. induction sh as [|d sh IH]; simpl; [lia|]. rewrite IH. lia. Qed.

Lemma product_reverse sh : foldr Z.mul 1 (reverse sh) = product sh.
Proof.
  unfold product. induction sh as [|d sh IH]; [done|].
  rewrite reverse_cons, foldr_app. simpl.
  rewrite foldr_mul_init, IH. lia.
Qed.

Lemma nonneg_of_nat (sh : list Z) :
  Forall (fun d => 0 <= d) sh -> sh = Z.of_nat <$> (Z.to_nat <$> sh).
Proof.
  induction 1 as [|d sh Hd _ IH]; [done|].
  rewrite !fmap_cons, <- IH. by rewrite Z2Nat.id.
Qed.

Lemma orient_length sh data a :
  Forall (fun d => 0 <= d) sh -> orient sh data = Ok a ->
  product sh = Z.of_nat (length data).
Proof.
  intros Hsh H. unfold orient in H. apply bind_ok in H as (a0 & H0 & _).
  unfold reshape_squeeze in H0. apply fmap_ok in H0 as (r & Hr & _).
  apply reshape_size in Hr; [|by apply Forall_reverse].
  by rewrite product_reverse in Hr.
Qed.

Lemma ndim_transpose axes a r :
  Np.transpose axes a = Ok r -> Np.ndim r = length axes.
Proof.
  unfold Np.transpose. destruct (Np.is_perm _ _); [|done].
  intros [= <-]. unfold Np.ndim, Np.gather; simpl. by rewrite length_fmap.
Qed.

Lemma ndim_rot270_flip a r : rot270_flip a = Ok r -> Np.ndim r = Np.ndim a.
Proof.
  intros H. destruct (decide (2 <= Np.ndim a)%nat) as [Hn|Hn].
  - rewrite rot270_flip_is_swap in H by done.
    apply ndim_transpose in H. by rewrite length_swap01 in H.
  - rewrite rot270_flip_low in H by lia. discriminate.
Qed.

Lemma length_non_unit (shn : list nat) :
  length (non_unit (Z.of_nat <$> shn))
  = length (filter (fun d => d <> 1%nat) shn).
Proof.
  unfold non_unit. induction shn as [|d shn IH]; [done|].
  rewrite fmap_cons. destruct (decide (d = 1%nat)) as [->|Hd].
  - rewrite !filter_cons_False by (by intros []). done.
  - rewrite !filter_cons_True by lia. simpl. by rewrite IH.
Qed.

Section ReadElements.

Variable py_float : string -> option float.

(** What [read_file] hands to the orientation steps. *)
Lemma read_file_oriented file (h : header) a sh :
  read_file py_float file = Ok (h, a) ->
  h !! "shape" = Some (VInts sh) ->
  Forall (fun d => 0 <= d) sh
  /\ exists data, orient sh data = Ok a
     /\ (4 * product sh < 2 ^ 63 ->
         exists e, h !! "endian" = Some (VStr e)
           /\ data = payload_floats (Py.contains "<" e) (product sh) file).
Proof.
  intros H Hh.
  apply read_file_ok in H as (h1 & h2 & sh' & rvd & data & H1 & H2 & Hsh & Hrvd & -> & Ho).
  rewrite lookup_insert_ne in Hh by done.
  rewrite Hh in Hsh. injection Hsh as <-.
  rewrite (decode_payload_other _ _ _ _ "shape" H2) in Hh by done.
  assert (Hnn : Forall (fun d => 0 <= d) sh).
  { apply parse_lines_shape in H1 as [_ [Heq | (line & _ & _ & Hv)]].
    - rewrite Heq in Hh. injection Hh as <-.
      by rewrite orient_default_shape in Ho.
    - rewrite Hv in Hh. injection Hh as <-.
      apply Forall_fmap. eapply Forall_impl; [apply findall_digits|].
      intros s. apply int_of_digits_nonneg. }
  split; [done|]. exists data. split; [done|]. intros Hb.
  destruct (parse_lines_endian py_float _ _ _ H1) as [e He];
    [by exists ">"%string|].
  exists e. split.
  { rewrite lookup_insert_ne by done.
    by rewrite (decode_payload_other _ _ _ _ "endian" H2). }
  assert (Hne : sh <> []).
  { intros ->. unfold decode_payload in H2.
    apply get_ints_ok in Hh. apply get_str_ok in He.
    rewrite Hh in H2; simpl in H2. rewrite He in H2; simpl in H2.
    discriminate. }
  rewrite (decode_payload_tail file h1 sh e Hh Hne He) in H2;
    [|by apply product_nonneg | done].
  destruct (_ <? _); [discriminate|]. by injection H2 as _ <-.
Qed.

(** X2: A file that was read has a matrix line of two numbers, neither
    of them 1, or a matrix line with exactly three numbers other than 1;
    the array has as many axes as the line has numbers other than 1. *)
Theorem read_file_axes file (h : header) a sh :
  read_file py_float file = Ok (h, a) ->
  h !! "shape" = Some (VInts sh) ->
  Np.ndim a = length (non_unit sh)
  /\ (if bool_decide (length sh = 2%nat)
      then non_unit sh = sh
      else length (non_unit sh) = 3%nat).
Proof.
  intros H Hh.
  destruct (read_file_oriented _ _ _ _ H Hh) as (Hnn & data & Ho & _).
  rewrite (nonneg_of_nat sh Hnn) in Ho |- *.
  set (shn := Z.to_nat <$> sh) in *. clearbody shn. clear Hnn Hh H.
  rewrite length_non_unit, length_fmap.
  unfold orient, reshape_squeeze in Ho. rewrite <- fmap_reverse in Ho.
  apply bind_ok in Ho as (a0 & H0 & Ho).
  apply fmap_ok in H0 as (r & Hr & ->).
  apply reshape_of_nat_inv in Hr as ->.
  assert (Hn0 : Np.ndim (Np.squeeze (Np.mk (reverse shn) data))
                = length (filter (fun d => d <> 1%nat) shn)).
  { unfold Np.ndim, Np.squeeze; simpl.
    by rewrite filter_reverse, length_reverse. }
  apply bind_ok in Ho as (a1 & H1 & Ho).
  apply ndim_rot270_flip in Ho as Hn. rewrite length_fmap in H1.
  destruct (decide (length shn = 2%nat)) as [H2|H2].
  - rewrite bool_decide_eq_false_2 in H1 by (by intros []).
    injection H1 as <-. rewrite bool_decide_eq_true_2 by done.
    rewrite Hn, Hn0. split; [done|].
    destruct (decide (2 <= length (filter (fun d => d <> 1%nat) shn))%nat)
      as [Hk|Hk].
    + unfold non_unit.
      assert (Hall : Forall (fun d => d <> 1%nat) shn).
      { destruct (decide (1%nat ∈ shn)) as [Hin|Hin].
        - apply filter_with_one in Hin. lia.
        - apply Forall_forall. intros x Hx ->. done. }
      clear -Hall. induction Hall as [|d l Hd _ IH]; [done|].
      rewrite fmap_cons, filter_cons_True by lia. by rewrite IH.
    + rewrite rot270_flip_low in Ho by lia. discriminate.
  - rewrite bool_decide_eq_true_2 in H1 by done.
    rewrite bool_decide_eq_false_2 by done.
    destruct (decide (3%nat = Np.ndim (Np.squeeze (Np.mk (reverse shn) data))))
      as [H3|H3].
    + apply ndim_transpose in H1. simpl in H1.
      rewrite Hn, H1. rewrite <- Hn0, <- H3. done.
    + rewrite transpose_wrong_ndim in H1 by done. discriminate.
Qed.

(** X3: A file with a matrix line of two numbers [m] and [n]: the array
    has the shape (m, n) and its element (i, j) is the number
    [j * m + i] of the last [m * n] binary32 numbers of the file: the
    payload is stored column by column. *)
Theorem read_file_plane file (h : header) a (m n : nat) :
  read_file py_float file = Ok (h, a) ->
  h !! "shape" = Some (VInts [Z.of_nat m; Z.of_nat n]) ->
  Z.of_nat (m * n) < 2 ^ 61 ->
  exists e,
    h !! "endian" = Some (VStr e)
    /\ Np.shape a = [m; n]
    /\ forall i j : nat, (i < m)%nat -> (j < n)%nat ->
         at_index a [i; j]
         = payload_floats (Py.contains "<" e) (Z.of_nat (m * n)) file
             !!! (j * m + i)%nat.
Proof.
  intros H Hh Hb.
  destruct (read_file_oriented _ _ _ _ H Hh) as (Hnn & data & Ho & Hd).
  assert (Hp : product [Z.of_nat m; Z.of_nat n] = Z.of_nat (m * n))
    by (unfold product; simpl; lia).
  rewrite Hp in Hd. destruct Hd as (e & He & Hd); [lia|].
  exists e. split; [done|].
  pose proof (orient_length _ _ _ Hnn Ho) as Hl. rewrite Hp in Hl.
  apply Nat2Z.inj in Hl.
  destruct (decide (m = 1 \/ n = 1)%nat) as [H1|H1].
  { assert (E : orient (Z.of_nat <$> [m; n]) data = Raise ValueError).
    { apply orient_singleton_axis; [simpl; lia|].
      destruct H1 as [->| ->]; [apply list_elem_of_here|].
      apply list_elem_of_further, list_elem_of_here. }
    change (Z.of_nat <$> [m; n]) with [Z.of_nat m; Z.of_nat n] in E.
    congruence. }
  destruct (orient_two_axes m n data) as (r & Hr & Hs & Hel); [lia..|].
  rewrite Ho in Hr. injection Hr as <-. split; [done|].
  intros i j Hi Hj. rewrite <- Hd. by apply Hel.
Qed.

(** X4: A file with a matrix line of three numbers [m], [n] and [p]: the
    array has the shape (n, m, p) and its element (i, j, k) is the
    number [(k * n + i) * m + j] of the last [m * n * p] binary32 numbers
    of the file. *)
Theorem read_file_cube file (h : header) a (m n p : nat) :
  read_file py_float file = Ok (h, a) ->
  h !! "shape" = Some (VInts [Z.of_nat m; Z.of_nat n; Z.of_nat p]) ->
  Z.of_nat (m * n * p) < 2 ^ 61 ->
  exists e,
    h !! "endian" = Some (VStr e)
    /\ Np.shape a = [n; m; p]
    /\ forall i j k : nat, (i < n)%nat -> (j < m)%nat -> (k < p)%nat ->
         at_index a [i; j; k]
         = payload_floats (Py.contains "<" e) (Z.of_nat (m * n * p)) file
             !!! ((k * n + i) * m + j)%nat.
Proof.
  intros H Hh Hb.
  destruct (read_file_oriented _ _ _ _ H Hh) as (Hnn & data & Ho & Hd).
  assert (Hp : product [Z.of_nat m; Z.of_nat n; Z.of_nat p]
               = Z.of_nat (m * n * p))
    by (unfold product; simpl; lia).
  rewrite Hp in Hd. destruct Hd as (e & He & Hd); [lia|].
  exists e. split; [done|].
  pose proof (orient_length _ _ _ Hnn Ho) as Hl. rewrite Hp in Hl.
  apply Nat2Z.inj in Hl.
  destruct (decide (1%nat ∈ [m; n; p])) as [H1|H1].
  { assert (E : orient (Z.of_nat <$> [m; n; p]) data = Raise ValueError)
      by (apply orient_singleton_axis; [simpl; lia | done]).
    change (Z.of_nat <$> [m; n; p])
      with [Z.of_nat m; Z.of_nat n; Z.of_nat p] in E.
    congruence. }
  destruct (orient_three_axes m n p data) as (r & Hr & Hs & Hel);
    try done; try (intros ->; apply H1; set_solver).
  rewrite Ho in Hr. injection Hr as <-. split; [done|].
  intros i j k Hi Hj Hk. rewrite <- Hd. by apply Hel.
Qed.

End ReadElements.

(** ** Directories as a whole *)

Lemma mapM_raise {A B} (f : A -> result B) (l : list A) x e :
  x ∈ l -> f x = Raise e -> exists e', mapM f l = Raise e'.
Proof.
  induction l as [|y l IH]; intros Hin Hx; [by apply elem_of_nil in Hin|].
  apply elem_of_cons in Hin as [<-|Hin]; simpl.
  - rewrite Hx. by exists e.
  - destruct (f y) as [b|e1]; simpl; [|by exists e1].
    destruct (IH Hin Hx) as [e' ->]. by exists e'.
Qed.

Lemma length_mapM {A B} (f : A -> result B) (l : list A) ys :
  mapM f l = Ok ys -> length ys = length l.
Proof.
  revert ys; induction l as [|x l IH]; intros ys H; simpl in H.
  - by injection H as <-.
  - apply bind_ok in H as (y & _ & H). apply bind_ok in H as (k & Hk & H).
    injection H as <-. simpl. f_equal. by apply IH.
Qed.

Lemma by_name_trans :
  Transitive (fun a b : string * string => String.le a.1 b.1).
Proof. intros a b c H1 H2. by etrans. Qed.

Lemma by_name_total :
  Total (fun a b : string * string => String.le a.1 b.1).
Proof. intros a b. apply (total String.le). Qed.

Lemma sorted_by_name_perm files : sorted_by_name files ≡ₚ files.
Proof. apply merge_sort_Permutation. Qed.

(** A list sorted by name is the only sorted arrangement of its
    entries when no two of them share a name. *)
Lemma sorted_by_name_unique (l1 l2 : list (string * string)) :
  StronglySorted (fun a b => String.le a.1 b.1) l1 ->
  StronglySorted (fun a b => String.le a.1 b.1) l2 ->
  l1 ≡ₚ l2 -> NoDup (fst <$> l1) -> l1 = l2.
Proof.
  intros S1; revert l2; induction S1 as [|x l1 S1 IH Hx]; intros l2 S2 Hp Hn.
  - by apply Permutation_nil_l in Hp.
  - destruct S2 as [|y l2 S2 Hy].
    + by apply Permutation_nil_r in Hp.
    + rewrite fmap_cons in Hn. apply NoDup_cons in Hn as [Hnx Hn].
      assert (x = y) as <-.
      { assert (Hxin : x ∈ y :: l2) by (rewrite <- Hp; apply list_elem_of_here).
        assert (Hyin : y ∈ x :: l1) by (rewrite Hp; apply list_elem_of_here).
        apply elem_of_cons in Hxin as [?|Hxin]; [done|].
        apply elem_of_cons in Hyin as [?|Hyin]; [done|].
        rewrite Forall_forall in Hx, Hy.
        pose proof (Hx _ Hyin) as Hxy. pose proof (Hy _ Hxin) as Hyx.
        assert (E : x.1 = y.1) by (by apply (anti_symm String.le)).
        exfalso. apply Hnx. rewrite E. by apply list_elem_of_fmap_2. }
      f_equal. apply IH; [done | by eapply Permutation_cons_inv | done].
Qed.

Section Directory.

Variable py_float : string -> option float.

(** What a result of [read_directory] is made of. *)
Lemma read_directory_ok files r :
  read_directory py_float files = Ok r ->
  exists slices v,
    mapM (fun fl => read_file py_float fl.2) (sorted_by_name files) = Ok slices
    /\ slices <> []
    /\ assemble py_float (fst <$> slices) (snd <$> slices) = Ok v
    /\ r = Some v.
Proof.
  unfold read_directory. intros H.
  apply bind_ok in H as (slices & Hs & H).
  apply bind_ok in H as ([hs ds] & Hu & H).
  destruct slices as [|s slices]; [discriminate|].
  injection Hu as <- <-. cbn [fmap list_fmap] in H.
  apply fmap_ok in H as (v & Ha & ->).
  exists (s :: slices), v. by split_and!.
Qed.

(** X12: [read_directory] never returns [None]: a result is a volume, the
    directory held a file, and the heap has one dictionary for each
    file, the first of them the header of the volume. *)
Theorem read_directory_returns_volume files r :
  read_directory py_float files = Ok r ->
  exists v,
    r = Some v /\ files <> []
    /\ vol_header v = 0%nat
    /\ length (vol_heap v) = length files.
Proof.
  intros H. apply read_directory_ok in H as (slices & v & Hs & Hne & Ha & ->).
  exists v. apply length_mapM in Hs as Hl.
  rewrite (Permutation_length (sorted_by_name_perm files)) in Hl.
  apply assemble_frame in Ha as (Hr & (Hlen & _) & _).
  split_and!; try done.
  - intros ->. by destruct slices.
  - by rewrite Hlen, length_fmap.
Qed.

(** X13: One file that [read_file] cannot read is enough for the whole
    directory to be refused. *)
Theorem read_directory_unreadable_file files name content e :
  (name, content) ∈ files ->
  read_file py_float content = Raise e ->
  exists e', read_directory py_float files = Raise e'.
Proof.
  intros Hin He. unfold read_directory.
  destruct (mapM_raise (fun fl => read_file py_float fl.2)
              (sorted_by_name files) (name, content) e) as [e' ->].
  - by rewrite sorted_by_name_perm.
  - done.
  - by exists e'.
Qed.

(** X14: The order in which the directory lists its files does not matter
    when their names differ: the files are taken in the order of their
    names. *)
Theorem read_directory_listing_order files files' :
  files ≡ₚ files' -> NoDup (fst <$> files) ->
  read_directory py_float files = read_directory py_float files'.
Proof.
  intros Hp Hn. unfold read_directory.
  replace (sorted_by_name files') with (sorted_by_name files); [done|].
  apply sorted_by_name_unique.
  - apply (@StronglySorted_merge_sort _ _ _ by_name_trans by_name_total).
  - apply (@StronglySorted_merge_sort _ _ _ by_name_trans by_name_total).
  - by rewrite !sorted_by_name_perm.
  - by rewrite sorted_by_name_perm.
Qed.

End Directory.

(** ** Directories of 3D files *)

Section Volumes.

Variable py_float : string -> option float.

(** X10: A directory of 3D arrays of one shape (a, b, c): the volume has the
    shape (b, c, a, number of files), its element (i, j, k, l) is the
    element (k, i, j) of array number [l], and the header gets that
    shape and one more voxel dimension, 1.0; the repetition count is
    not looked at. *)
Theorem stack_of_volumes heap slices (h0 : header) a b c vd :
  heap !! 0%nat = Some h0 ->
  slices <> [] -> Forall (is_array [a; b; c]) slices ->
  h0 !! "voxel_dim" = Some (VNums vd) ->
  exists v,
    assemble py_float heap slices = Ok v
    /\ Np.shape (vol_data v) = [b; c; a; length slices]
    /\ (forall i j k l : nat,
          (i < b)%nat -> (j < c)%nat -> (k < a)%nat -> (l < length slices)%nat ->
          at_index (vol_data v) [i; j; k; l] = at_index (slices !!! l) [k; i; j])
    /\ item (vol_header v) "shape" (vol_heap v)
       = Some (VInts [Z.of_nat b; Z.of_nat c; Z.of_nat a;
                      Z.of_nat (length slices)])
    /\ item (vol_header v) "voxel_dim" (vol_heap v)
       = Some (VNums (vd ++ [NumF 1%float])).
Proof.
  intros Hh Hne Hall Hvd.
  assert (Hsh : Forall (fun x => Np.shape x = [a; b; c]) slices).
  { eapply Forall_impl; [exact Hall|]. by intros x [? _]. }
  unfold assemble.
  rewrite (stack_same slices [a; b; c] Hne Hsh), !bind_Ok.
  cbn [Np.ndim Np.shape length]. change (4 <? 4)%nat with false. cbv iota.
  set (st := Np.mk _ _).
  assert (Ht1 : Np.transpose [3; 2; 1; 0]%nat st
                = Ok (Np.gather [c; b; a; length slices]
                        (fun idx => [idx !!! 3%nat; idx !!! 2%nat;
                                     idx !!! 1%nat; idx !!! 0%nat]) st))
    by reflexivity.
  rewrite Ht1, bind_Ok. set (t1 := Np.gather _ _ st).
  assert (Ht2 : Np.transpose [1; 0; 2; 3]%nat t1
                = Ok (Np.gather [b; c; a; length slices]
                        (fun idx => [idx !!! 1%nat; idx !!! 0%nat;
                                     idx !!! 2%nat; idx !!! 3%nat]) t1))
    by reflexivity.
  rewrite Ht2, bind_Ok. set (t2 := Np.gather _ _ t1).
  assert (S0 : is_Some (heap !! 0%nat)) by (by eexists).
  rewrite (get_item_via_item 0 "voxel_dim") by (by apply is_Some_set_item).
  rewrite (item_set_other 0 "shape" "voxel_dim") by done.
  rewrite (item_at _ _ _ _ Hh), Hvd. simpl.
  eexists. split; [reflexivity|]. cbn [vol_data vol_header vol_heap].
  split; [reflexivity|]. split_and!.
  - intros i j k l Hi Hj Hk Hl.
    unfold t2. rewrite at_gather by (repeat constructor; done).
    cbn [lookup_total list_lookup_total].
    unfold t1. rewrite at_gather by (repeat constructor; done).
    cbn [lookup_total list_lookup_total].
    destruct (lookup_lt_is_Some_2 slices l Hl) as [x Hx].
    rewrite (list_lookup_total_correct _ _ _ Hx).
    rewrite Forall_forall in Hall.
    destruct (Hall x) as [Hxs Hxl]; [by eapply list_elem_of_lookup_2|].
    unfold at_index, st. rewrite Hxs. cbn [Np.shape Np.flat].
    replace (Np.offset [length slices; a; b; c] [l; k; i; j])
      with (((l * a + k) * b + i) * c + j)%nat by reflexivity.
    replace (Np.offset [a; b; c] [k; i; j])
      with ((k * b + i) * c + j)%nat by reflexivity.
    rewrite !list_lookup_total_alt. f_equal.
    replace (((l * a + k) * b + i) * c + j)%nat
      with (l * (a * b * c) + ((k * b + i) * c + j))%nat by lia.
    apply lookup_concat_blocks.
    + apply Forall_fmap. apply Forall_forall. intros y Hy.
      destruct (Hall y Hy) as [_ Hy']. simpl. rewrite Hy'.
      unfold Np.size; simpl. lia.
    + by rewrite list_lookup_fmap, Hx.
    + assert (k * b + i + 1 <= a * b)%nat by nia.
      assert ((k * b + i + 1) * c <= a * b * c)%nat
        by (by apply Nat.mul_le_mono_r).
      lia.
  - rewrite item_set_other by done. by rewrite item_set_same.
  - rewrite item_set_same; [done|]. by apply is_Some_set_item.
Qed.

End Volumes.

(** ** Loading a directory *)

Section Load.

Variable py_float : string -> option float.

(** On a dictionary [add_gradient_info] gives a dictionary back, the
    same one under every key but the four gradient keys. *)
Lemma add_gradient_info_dict procpar (h : header) r :
  add_gradient_info py_float procpar (ObjDict h) = Ok r ->
  exists h' : header,
    r = ObjDict h'
    /\ forall k, k ∉ ["bvalue"; "diff_x"; "diff_y"; "diff_z"]%string ->
                 h' !! k = h !! k.
Proof.
  unfold add_gradient_info. intros H.
  apply bind_ok in H as (g & _ & H).
  destruct (truthy (bval g) && truthy (diff_x g) && truthy (diff_y g)
            && truthy (diff_z g)); [|injection H as <-; by exists h].
  apply bind_ok in H as (bv & _ & H).
  apply bind_ok in H as (dx & _ & H).
  apply bind_ok in H as (dy & _ & H).
  apply bind_ok in H as (dz & _ & H). injection H as <-.
  eexists. split; [reflexivity|].
  intros k Hk. repeat (apply not_elem_of_cons in Hk as [? Hk]).
  by rewrite !lookup_insert_ne by done.
Qed.

(** X15: For a directory [load_fdf] returns the assembled array first and
    the header of the volume second; the procpar file, present or not,
    changes nothing of the array and nothing of the header outside the
    four gradient keys. *)
Theorem load_fdf_directory files procpar x y :
  load_fdf py_float (mkworld (Directory files) procpar) = Ok (x, y) ->
  exists v (h0 h' : header),
    read_directory py_float files = Ok (Some v)
    /\ vol_heap v !! vol_header v = Some h0
    /\ x = ObjArray (vol_data v) /\ y = ObjDict h'
    /\ (forall k, k ∉ ["bvalue"; "diff_x"; "diff_y"; "diff_z"]%string ->
                  h' !! k = h0 !! k)
    /\ (procpar = None -> h' = h0).
Proof.
  unfold load_fdf; simpl. intros H.
  apply bind_ok in H as ([d hd] & Hr & H).
  apply bind_ok in Hr as (r & Hr & Hv).
  destruct r as [v|]; [|discriminate].
  apply bind_ok in Hv as (h0 & Hh0 & Hv). injection Hv as <- <-.
  apply from_opt_ok in Hh0.
  exists v, h0.
  destruct procpar as [p|].
  - apply bind_ok in H as (r & Hg & H). injection H as <- <-.
    apply add_gradient_info_dict in Hg as (h' & -> & Hk).
    exists h'. by split_and!.
  - injection H as <- <-. exists h0. by split_and!.
Qed.

End Load.

(** ** The entries of a header *)

Lemma text_entry_ok k s : k ∈ text_keys -> header_entry_ok k (VStr s).
Proof. intros H. left. split; [done | by exists s]. Qed.

Lemma float_entry_ok k fs : k ∈ float_keys -> header_entry_ok k (VFloats fs).
Proof. intros H. right; left. split; [done | by exists fs]. Qed.

Lemma shape_entry_ok sh : header_entry_ok "shape" (VInts sh).
Proof. right; right; left. split; [done | by exists sh]. Qed.

Ltac solve_key :=
  unfold text_keys, float_keys;
  repeat (first [apply list_elem_of_here | apply list_elem_of_further]).

Section HeaderEntries.

Variable py_float : string -> option float.

Lemma scan_tags_entries tbl line (h h' : header) :
  Forall (fun p : string * string => p.2 ∈ text_keys) tbl ->
  map_Forall header_entry_ok h ->
  scan_tags tbl line h = Ok h' -> map_Forall header_entry_ok h'.
Proof.
  induction 1 as [|[fk hk] tbl Hk _ IH]; intros Hh H; simpl in H.
  - by injection H as <-.
  - destruct (0 <? Py.find line fk); [|by apply IH].
    apply bind_ok in H as (v & _ & H). injection H as <-.
    apply map_Forall_insert_2; [by apply text_entry_ok | done].
Qed.

Lemma find_values_text : Forall (fun p : string * string => p.2 ∈ text_keys) find_values.
Proof. unfold find_values. repeat constructor; simpl; solve_key. Qed.

Lemma normalize_endian_entries (h h' : header) :
  map_Forall header_entry_ok h ->
  normalize_endian h = Ok h' -> map_Forall header_entry_ok h'.
Proof.
  intros Hh H. unfold normalize_endian in H.
  apply bind_ok in H as (e & _ & H).
  destruct e; injection H as <-; try done.
  apply map_Forall_insert_2; [apply text_entry_ok; solve_key | done].
Qed.

Lemma special_tags_entries line (h h' : header) :
  map_Forall header_entry_ok h ->
  special_tags py_float line h = Ok h' -> map_Forall header_entry_ok h'.
Proof.
  intros Hh H. unfold special_tags in H.
  repeat match type of H with
  | (if ?c then _ else _) = _ => destruct c
  end.
  - apply bind_ok in H as (tok & _ & H). injection H as <-.
    apply map_Forall_insert_2; [apply text_entry_ok; solve_key|].
    apply map_Forall_insert_2; [apply text_entry_ok; solve_key | done].
  - apply bind_ok in H as (xs & _ & H). injection H as <-.
    apply map_Forall_insert_2; [apply float_entry_ok; solve_key | done].
  - apply bind_ok in H as (xs & _ & H). injection H as <-.
    apply map_Forall_insert_2; [apply float_entry_ok; solve_key | done].
  - apply bind_ok in H as (xs & _ & H). injection H as <-.
    apply map_Forall_insert_2; [apply float_entry_ok; solve_key | done].
  - apply bind_ok in H as (sh & _ & H). injection H as <-.
    apply map_Forall_insert_2; [apply shape_entry_ok | done].
  - by injection H as <-.
Qed.

Lemma parse_lines_entries ls (h h' : header) :
  map_Forall header_entry_ok h ->
  parse_lines py_float ls h = Ok h' -> map_Forall header_entry_ok h'.
Proof.
  revert h; induction ls as [|raw ls IH]; intros h Hh H; simpl in H.
  - discriminate.
  - apply bind_ok in H as (line & _ & H).
    apply bind_ok in H as (c & _ & H).
    destruct (Ascii.eqb c ff); [by injection H as <-|].
    apply bind_ok in H as (h1 & H1 & H).
    apply (IH h1); [|done].
    unfold process_line in H1.
    apply bind_ok in H1 as (ha & Ha & H1).
    apply bind_ok in H1 as (hb & Hb & H1).
    eapply special_tags_entries; [|exact H1].
    eapply normalize_endian_entries; [|exact Hb].
    eapply scan_tags_entries; [apply find_values_text | exact Hh | exact Ha].
Qed.

Lemma decode_payload_header file (h h2 : header) data :
  decode_payload file h = Ok (h2, data) ->
  exists fmt, h2 = <["fmt" := VStr fmt]> h.
Proof.
  intros H. unfold decode_payload in H.
  apply bind_ok in H as (sh & _ & H).
  apply bind_ok in H as (e & _ & H).
  apply bind_ok in H as (u & _ & H).
  apply bind_ok in H as (pos & _ & H).
  apply bind_ok in H as (d & _ & H).
  injection H as <- <-. by eexists.
Qed.

Lemma read_file_entries file (h : header) a :
  read_file py_float file = Ok (h, a) -> map_Forall header_entry_ok h.
Proof.
  intros H.
  apply read_file_ok in H as (h1 & h2 & sh & rvd & data & H1 & H2 & _ & _ & -> & _).
  destruct (decode_payload_header _ _ _ _ H2) as [fmt ->].
  apply map_Forall_insert_2.
  { right; right; right. split; [done | by eexists]. }
  apply map_Forall_insert_2; [apply text_entry_ok; solve_key|].
  eapply parse_lines_entries; [|exact H1].
  unfold initial_header.
  apply map_Forall_insert_2; [apply text_entry_ok; solve_key|].
  apply map_Forall_insert_2; [apply shape_entry_ok|].
  apply map_Forall_empty.
Qed.

(** No entry of a header that [read_file] returns is gradient
    information. *)
Lemma read_file_no_gradients file (h : header) a k :
  read_file py_float file = Ok (h, a) -> k ∈ gradient_keys -> h !! k = None.
Proof.
  intros H Hk. apply read_file_entries in H.
  destruct (h !! k) as [v|] eqn:Hv; [|done]. exfalso.
  apply H in Hv.
  assert (Hnot : forall l : list string, k ∈ l -> k ∈ gradient_keys ->
            Forall (fun x => bool_decide (x ∈ gradient_keys) = false) l -> False).
  { intros l Hl Hg Hall. rewrite Forall_forall in Hall.
    apply Hall in Hl. by rewrite bool_decide_eq_true_2 in Hl. }
  destruct Hv as [[Hin _]|[[Hin _]|[[-> _]|[-> _]]]].
  - apply (Hnot _ Hin Hk). by repeat constructor.
  - apply (Hnot _ Hin Hk). by repeat constructor.
  - apply (Hnot ["shape"%string]); [apply list_elem_of_here | done |].
    by repeat constructor.
  - apply (Hnot ["voxel_dim"%string]); [apply list_elem_of_here | done |].
    by repeat constructor.
Qed.

(** X5: The header [read_file] returns holds the shape, the byte order, the
    unpack descriptor and the two voxel dimension entries, and nothing
    but entries of the fixed list of keys, each with the type of its
    key: the values of the tags are kept as text. *)
Theorem read_file_header_entries file (h : header) a :
  read_file py_float file = Ok (h, a) ->
  map_Forall header_entry_ok h
  /\ Forall (fun k => is_Some (h !! k)) required_keys.
Proof.
  intros H. split; [by eapply read_file_entries|].
  apply read_file_ok in H as (h1 & h2 & sh & rvd & data & H1 & H2 & Hsh & Hrvd & -> & _).
  destruct (parse_lines_endian py_float _ _ _ H1) as [e He];
    [by exists ">"%string|].
  rewrite <- (decode_payload_other _ _ _ _ "endian" H2) in He by done.
  destruct (decode_payload_header _ _ _ _ H2) as [fmt ->].
  unfold required_keys. repeat constructor.
  - rewrite lookup_insert_ne by done. by eexists.
  - rewrite lookup_insert_ne by done. by eexists.
  - rewrite lookup_insert_ne by done. rewrite lookup_insert_eq. by eexists.
  - rewrite lookup_insert_ne by done. by eexists.
  - rewrite lookup_insert_eq. by eexists.
Qed.

End HeaderEntries.

(** ** The gradient files *)

Lemma mapM_head {A B} (f : A -> result B) (l : list A) y ys :
  mapM f l = Ok (y :: ys) -> exists x l', l = x :: l' /\ f x = Ok y.
Proof.
  destruct l as [|x l]; simpl; intros H; [discriminate|].
  apply bind_ok in H as (y' & Hy & H). apply bind_ok in H as (k & _ & H).
  injection H as <- <-. by exists x, l.
Qed.

Section GradientFiles.

Variable py_float : string -> option float.
Variable py_str : float -> string.

Lemma write_without_bvalue (h : header) bval_path bvec_path fs :
  h !! "bvalue" = None ->
  write_gradient_information py_str h bval_path bvec_path fs = (fs, Ok ()).
Proof.
  intros H. unfold write_gradient_information. rewrite H.
  rewrite bool_decide_eq_false_2; [done|]. by intros [? ?].
Qed.

(** X19: With the four lists of numbers in the header and two paths, the
    file of the b-vectors holds three lines, one for each of diff_x,
    diff_y and diff_z, the file of the b-values one line, and no other
    file changes; if the two paths are the same the b-values are lost. *)
Theorem gradient_files_written (h : header) bv gx gy gz p q fs fs' r :
  h !! "bvalue" = Some (VFloats bv) ->
  h !! "diff_x" = Some (VFloats gx) ->
  h !! "diff_y" = Some (VFloats gy) ->
  h !! "diff_z" = Some (VFloats gz) ->
  p <> EmptyString -> q <> EmptyString ->
  write_gradient_information py_str h (Some p) (Some q) fs = (fs', r) ->
  r = Ok ()
  /\ fs' !! q = Some (number_line py_str gx ++ nl ++ number_line py_str gy
                      ++ nl ++ number_line py_str gz)%string
  /\ (p <> q -> fs' !! p = Some (number_line py_str bv))
  /\ forall k, k <> p -> k <> q -> fs' !! k = fs !! k.
Proof.
  intros Hb Hx Hy Hz Hp Hq H. unfold write_gradient_information in H.
  rewrite Hb, Hx, Hy, Hz in H.
  rewrite !bool_decide_eq_true_2 in H by (by eexists).
  assert (T : forall s, s <> EmptyString -> truthy (Some s) = true)
    by (by intros [|? ?]).
  rewrite !T in H by done. unfold joined, get in H.
  rewrite Hb, Hx, Hy, Hz in H. simpl in H. injection H as <- <-.
  fold (number_line py_str bv) (number_line py_str gx)
       (number_line py_str gy) (number_line py_str gz).
  split_and!; [done | | |].
  - by rewrite lookup_insert_eq.
  - intros Hpq. by rewrite !lookup_insert_ne, lookup_insert_eq by done.
  - intros k Hkp Hkq. by rewrite !lookup_insert_ne by done.
Qed.

(** X20: A directory loaded without a procpar file has no gradient
    information: [write_gradient_information] on its header writes no
    file and raises nothing. *)
Theorem no_procpar_no_gradient_files files x (h : header) bval_path bvec_path fs :
  load_fdf py_float (mkworld (Directory files) None) = Ok (x, ObjDict h) ->
  write_gradient_information py_str h bval_path bvec_path fs = (fs, Ok ()).
Proof.
  unfold load_fdf; simpl. intros H.
  apply bind_ok in H as ([d hd] & Hr & H). injection H as -> ->.
  apply bind_ok in Hr as (r & Hr & Hv).
  apply read_directory_ok in Hr as (slices & v & Hs & Hne & Ha & ->).
  apply bind_ok in Hv as (h0 & Hh0 & Hv). injection Hv as _ ->.
  apply from_opt_ok in Hh0.
  apply assemble_frame in Ha as (Hr & (_ & _ & Hk) & _).
  rewrite Hr in Hh0.
  destruct slices as [|[h1 a1] slices]; [done|].
  apply mapM_head in Hs as ([name content] & l' & _ & Hf). simpl in Hf.
  apply write_without_bvalue.
  specialize (Hk "bvalue"%string).
  unfold item in Hk. rewrite Hh0 in Hk. simpl in Hk.
  rewrite Hk by done.
  eapply read_file_no_gradients; [exact Hf|].
  apply list_elem_of_here.
Qed.

(** X21: Loading a single file never yields gradient information, with or
    without a procpar file: [write_gradient_information] on the
    dictionary that comes back writes no file. *)
Theorem single_file_no_gradient_files content procpar (h : header) y
    bval_path bvec_path fs :
  load_fdf py_float (mkworld (RegularFile content) procpar) = Ok (ObjDict h, y) ->
  write_gradient_information py_str h bval_path bvec_path fs = (fs, Ok ()).
Proof.
  unfold load_fdf; simpl. intros H.
  apply bind_ok in H as ([d hd] & Hr & H).
  apply bind_ok in Hr as ([h1 a1] & Hr & Hp). injection Hp as <- <-.
  assert (h = h1) as ->.
  { destruct procpar as [p|].
    - apply bind_ok in H as (r & _ & H). by injection H as E _.
    - by injection H as E _. }
  apply write_without_bvalue.
  eapply read_file_no_gradients; [exact Hr|].
  apply list_elem_of_here.
Qed.

End GradientFiles.

(** ** The values of the tags *)

Lemma span_bound cls n s : (Re.span cls (Some n) s <= n)%nat.
Proof.
  revert s; induction n as [|n IH]; intros s; [by rewrite span_zero|].
  destruct s as [|c s]; [by rewrite span_none; lia|].
  rewrite span_cons. destruct (cls c); [|lia]. specialize (IH s). lia.
Qed.

Lemma span_first cls hi t :
  (1 <= Re.span cls hi t)%nat -> exists c rest, t = String c rest /\ cls c = true.
Proof.
  destruct t as [|c rest]; [destruct hi as [[]|]; simpl; lia|].
  destruct hi as [[|n]|]; simpl; try lia;
    destruct (cls c) eqn:Hc; try lia; eauto.
Qed.

Lemma substring_snoc k : forall t c rest,
  Re.drop k t = String c rest ->
  String.substring 0 (S k) t
  = (String.substring 0 k t ++ String c EmptyString)%string.
Proof.
  induction k as [|k IH]; intros t c rest H.
  - rewrite drop_0 in H. subst t. simpl. by destruct rest.
  - destruct t as [|a t]; [by rewrite drop_empty in H|].
    rewrite drop_S in H. apply IH in H.
    change (String.substring 0 (S (S k)) (String a t))
      with (String a (String.substring 0 (S k) t)).
    by rewrite H.
Qed.

Lemma dot_not_newline c : Re.dot c = true -> c <> Py.chr 10.
Proof.
  unfold Re.dot, Re.none_of, Re.any_of. simpl. intros H ->.
  by rewrite Ascii.eqb_refl in H.
Qed.

Lemma match_at_group_start r s pos gs ge :
  Re.match_at (Re.GroupStart :: r) s pos gs ge
  = Re.match_at r s pos (Some pos) ge.
Proof. reflexivity. Qed.

Lemma match_at_group_end r s pos gs ge :
  Re.match_at (Re.GroupEnd :: r) s pos gs ge
  = Re.match_at r s pos gs (Some pos).
Proof. reflexivity. Qed.

(** What the value pattern captures. *)
Lemma named_value_match s pos m :
  Re.match_at named_value_regex s pos None None = Some m ->
  is_tag_value (Re.reported named_value_regex s pos m).
Proof.
  unfold named_value_regex, Re.one, Re.star. intros H.
  apply match_at_rep in H as (k1 & _ & H).
  apply match_at_rep in H as (k2 & _ & H).
  apply match_at_rep in H as (k3 & _ & H).
  rewrite match_at_group_start in H.
  set (p := (pos + k1 + k2 + k3)%nat) in *.
  apply match_at_rep in H as (k4 & Hk4 & H).
  apply match_at_rep in H as (k5 & Hk5 & H).
  rewrite match_at_group_end in H.
  apply match_at_rep in H as (k6 & _ & H).
  apply match_at_rep in H as (k7 & _ & H).
  apply match_at_rep in H as (k8 & _ & H).
  injection H as <-.
  pose proof (span_bound (fun c => negb (Re.lit dq c)) 1 (Re.drop (p + k4) s)).
  assert (k5 = 1%nat) as -> by lia.
  destruct (span_first _ _ _ (proj2 Hk5)) as (c & rest & Hd & Hc).
  unfold Re.reported.
  change (Re.has_group _) with true. cbv iota.
  rewrite slice_drop.
  replace (p + k4 + 1 - p)%nat with (S k4) by lia.
  rewrite drop_add in Hd.
  rewrite (substring_snoc _ _ _ _ Hd).
  exists (String.substring 0 k4 (Re.drop p s)), c. split_and!; [done | |].
  - intros ->. unfold Re.lit in Hc. by rewrite Ascii.eqb_refl in Hc.
  - eapply Forall_impl; [apply (span_prefix Re.dot None); lia|].
    intros x. apply dot_not_newline.
Qed.

Lemma findall_named_value s :
  Forall is_tag_value (Re.findall named_value_regex s).
Proof. apply findall_from_Forall, named_value_match. Qed.

Lemma tag_value_initial : is_tag_value ">".
Proof. exists EmptyString, ">"%char. by split_and!. Qed.

Section TagValues.

Variable py_float : string -> option float.

Lemma tags_ok_insert_value (h : header) k s :
  tags_ok h -> is_tag_value s -> tags_ok (<[k := VStr s]> h).
Proof.
  intros Hh Hs k' v Hk Hv. destruct (decide (k' = k)) as [->|Hne].
  - rewrite lookup_insert_eq in Hv. injection Hv as <-. by exists s.
  - rewrite lookup_insert_ne in Hv by done. by apply (Hh k').
Qed.

Lemma tags_ok_insert_other (h : header) k v :
  tags_ok h -> k ∉ tag_keys -> tags_ok (<[k := v]> h).
Proof.
  intros Hh Hk k' v' Hk' Hv. destruct (decide (k' = k)) as [->|Hne]; [done|].
  rewrite lookup_insert_ne in Hv by done. by apply (Hh k').
Qed.

Lemma scan_tags_values tbl line (h h' : header) :
  tags_ok h -> scan_tags tbl line h = Ok h' -> tags_ok h'.
Proof.
  induction tbl as [|[fk hk] tbl IH]; intros Hh H; simpl in H.
  - by injection H as <-.
  - destruct (0 <? Py.find line fk); [|by apply IH].
    apply bind_ok in H as (v & Hv & H). injection H as <-.
    apply tags_ok_insert_value; [done|].
    apply from_opt_ok in Hv.
    pose proof (findall_named_value line) as Hall.
    destruct (Re.findall named_value_regex line) as [|v0 l]; [discriminate|].
    injection Hv as ->. by apply Forall_cons in Hall as [? _].
Qed.

Lemma process_line_values line (h h' : header) :
  tags_ok h -> process_line py_float line h = Ok h' -> tags_ok h'.
Proof.
  intros Hh H. unfold process_line in H.
  apply bind_ok in H as (h1 & H1 & H).
  apply bind_ok in H as (h2 & H2 & H).
  apply scan_tags_values in H1; [|done].
  assert (Hh2 : tags_ok h2).
  { unfold normalize_endian in H2. apply bind_ok in H2 as (e & _ & H2).
    destruct e; injection H2 as <-; try done.
    apply tags_ok_insert_value; [done|].
    destruct (negb _); [apply tag_value_initial|].
    exists EmptyString, "<"%char. by split_and!. }
  unfold special_tags in H.
  repeat match type of H with
  | (if ?c then _ else _) = _ => destruct c
  end.
  - apply bind_ok in H as (tok & _ & H). injection H as <-.
    apply tags_ok_insert_other; [|unfold tag_keys; simpl; solve_notin].
    apply tags_ok_insert_other; [done|unfold tag_keys; simpl; solve_notin].
  - apply bind_ok in H as (xs & _ & H). injection H as <-.
    apply tags_ok_insert_other; [done|unfold tag_keys; simpl; solve_notin].
  - apply bind_ok in H as (xs & _ & H). injection H as <-.
    apply tags_ok_insert_other; [done|unfold tag_keys; simpl; solve_notin].
  - apply bind_ok in H as (xs & _ & H). injection H as <-.
    apply tags_ok_insert_other; [done|unfold tag_keys; simpl; solve_notin].
  - apply bind_ok in H as (sh & _ & H). injection H as <-.
    apply tags_ok_insert_other; [done|unfold tag_keys; simpl; solve_notin].
  - by injection H as <-.
Qed.

Lemma parse_lines_values ls (h h' : header) :
  tags_ok h -> parse_lines py_float ls h = Ok h' -> tags_ok h'.
Proof.
  revert h; induction ls as [|raw ls IH]; intros h Hh H; simpl in H.
  - discriminate.
  - apply bind_ok in H as (line & _ & H).
    apply bind_ok in H as (c & _ & H).
    destruct (Ascii.eqb c ff); [by injection H as <-|].
    apply bind_ok in H as (h1 & H1 & H).
    apply (IH h1); [|done]. by eapply process_line_values.
Qed.

(** X6: Whatever [read_file] keeps under the key of a tag is the text the
    value pattern captured on a line, or the initial byte order mark:
    never a number, never empty, never ending in a double quote, and
    without a newline before its last character. *)
Theorem read_file_tag_values file (h : header) a k v :
  read_file py_float file = Ok (h, a) ->
  k ∈ tag_keys -> h !! k = Some v ->
  exists s, v = VStr s /\ is_tag_value s.
Proof.
  intros H Hk Hv.
  apply read_file_ok in H as (h1 & h2 & sh & rvd & data & H1 & H2 & _ & _ & -> & _).
  assert (Hne : forall k', k' ∉ tag_keys -> k ≠ k') by (intros k' ? ->; done).
  rewrite lookup_insert_ne in Hv
    by (symmetry; apply Hne; unfold tag_keys; simpl; solve_notin).
  rewrite (decode_payload_other _ _ _ _ k H2) in Hv
    by (apply Hne; unfold tag_keys; simpl; solve_notin).
  assert (H0 : tags_ok initial_header).
  { unfold initial_header.
    apply tags_ok_insert_value; [|apply tag_value_initial].
    apply tags_ok_insert_other; [|unfold tag_keys; simpl; solve_notin].
    intros k' v' _ Hv'. by rewrite lookup_empty in Hv'. }
  by apply (parse_lines_values _ _ _ H0 H1 k v).
Qed.

End TagValues.

(** ** Orientation and origin *)

Section Affine.

Variable py_float : string -> option float.

(** The only branch that writes [orientation], and the only one that
    writes [origin], stores the numbers of its line. *)
Lemma process_line_affine line (h h' : header) (k : string)
    (p : string -> bool) :
  process_line py_float line h = Ok h' ->
  (k, p) ∈ affine_fields ->
  if p line
  then exists fs,
         mapM (float_of py_float) (Re.findall float_regex (Py.rstrip line)) = Ok fs
         /\ h' !! k = Some (VFloats fs)
  else h' !! k = h !! k.
Proof.
  intros H Hin. unfold process_line in H.
  apply bind_ok in H as (h1 & H1 & H).
  apply bind_ok in H as (h2 & H2 & H).
  assert (Hk : h2 !! k = h !! k).
  { unfold normalize_endian in H2. apply bind_ok in H2 as (e & _ & H2).
    unfold affine_fields in Hin.
    repeat (apply elem_of_cons in Hin as [[= -> ->]|Hin]);
      try (by apply elem_of_nil in Hin).
    - transitivity (h1 !! "orientation").
      + destruct e; injection H2 as <-; by rewrite ?lookup_insert_ne.
      + apply (scan_tags_other _ _ _ _ _ H1). simpl. solve_notin.
    - transitivity (h1 !! "origin").
      + destruct e; injection H2 as <-; by rewrite ?lookup_insert_ne.
      + apply (scan_tags_other _ _ _ _ _ H1). simpl. solve_notin. }
  rewrite <- Hk. clear Hk H1 H2.
  unfold special_tags in H.
  unfold affine_fields in Hin.
  repeat (apply elem_of_cons in Hin as [[= -> ->]|Hin]);
    try (by apply elem_of_nil in Hin);
    unfold is_orientation_line, is_origin_line;
    destruct (0 <? Py.find line "abscissa"); simpl;
    try (apply bind_ok in H as (? & _ & H); injection H as <-;
         by rewrite !lookup_insert_ne);
    destruct (0 <? Py.find line "roi"); simpl;
    try (apply bind_ok in H as (? & _ & H); injection H as <-;
         by rewrite !lookup_insert_ne);
    destruct (0 <? Py.find line "orientation"); simpl;
    try (apply bind_ok in H as (xs & Hxs & H); injection H as <-;
         first [ exists xs; by rewrite lookup_insert_eq
               | by rewrite !lookup_insert_ne ]);
    destruct (0 <? Py.find line "origin"); simpl;
    try (apply bind_ok in H as (xs & Hxs & H); injection H as <-;
         first [ exists xs; by rewrite lookup_insert_eq
               | by rewrite !lookup_insert_ne ]);
    destruct (0 <? Py.find line "matrix");
    try (apply bind_ok in H as (? & _ & H)); injection H as <-;
    by rewrite ?lookup_insert_ne.
Qed.

Lemma parse_lines_affine ls (h h' : header) (k : string)
    (p : string -> bool) :
  parse_lines py_float ls h = Ok h' ->
  (k, p) ∈ affine_fields ->
  h' !! k = h !! k
  \/ exists line fs,
       line ∈ ls /\ p line = true
       /\ mapM (float_of py_float) (Re.findall float_regex (Py.rstrip line))
          = Ok fs
       /\ h' !! k = Some (VFloats fs).
Proof.
  intros H Hin. revert h H; induction ls as [|raw ls IH]; intros h H; simpl in H.
  - discriminate.
  - apply bind_ok in H as (line & Hline & H).
    apply bytes_decode_ok in Hline as ->.
    apply bind_ok in H as (c & _ & H).
    destruct (Ascii.eqb c ff).
    + left. by injection H as <-.
    + apply bind_ok in H as (h1 & H1 & H).
      apply (process_line_affine _ _ _ k p) in H1; [|done].
      destruct (IH _ H) as [Heq | (line & fs & Hl & Hp & Hfs & Hv)].
      * destruct (p raw) eqn:Hp.
        -- destruct H1 as (fs & Hfs & Hv). right. exists raw, fs.
           rewrite Heq. split_and!; auto. apply list_elem_of_here.
        -- left. congruence.
      * right. exists line, fs. split_and!; auto. by apply list_elem_of_further.
Qed.

(** X7: An orientation or an origin in the header of a file that was read
    is the sequence of the numbers of a line of the file that the
    branch of that key handles: a line with roi past its first column
    never gives either, and a line with orientation never an origin. *)
Theorem affine_entries_from_lines file (h : header) a (k : string)
    (p : string -> bool) v :
  read_file py_float file = Ok (h, a) ->
  (k, p) ∈ affine_fields -> h !! k = Some v ->
  exists line fs,
    line ∈ Py.readlines file /\ p line = true
    /\ mapM (float_of py_float) (Re.findall float_regex (Py.rstrip line)) = Ok fs
    /\ v = VFloats fs.
Proof.
  intros H Hin Hv.
  apply read_file_ok in H as (h1 & h2 & sh & rvd & data & H1 & H2 & _ & _ & -> & _).
  assert (Hk : k = "orientation"%string \/ k = "origin"%string).
  { unfold affine_fields in Hin.
    repeat (apply elem_of_cons in Hin as [[= -> _]|Hin]); auto.
    by apply elem_of_nil in Hin. }
  rewrite lookup_insert_ne in Hv by (destruct Hk as [-> | ->]; done).
  rewrite (decode_payload_other _ _ _ _ k H2) in Hv
    by (destruct Hk as [-> | ->]; done).
  destruct (parse_lines_affine _ _ _ k p H1 Hin)
    as [Heq | (line & fs & Hl & Hp & Hfs & Hv')].
  - rewrite Heq in Hv. destruct Hk as [-> | ->]; discriminate.
  - exists line, fs. split_and!; auto. congruence.
Qed.

End Affine.

(** ** The repetition count of a series of slices *)

Section ArrayDim.

Variable py_float : string -> option float.

(** X11: Slices are assembled only if the header of the first one has an
    [array_dim] entry whose text is a number that is neither infinite
    nor a NaN; the entry is kept. *)
Theorem slices_need_array_dim heap slices v a b :
  slices <> [] -> Forall (is_slice a b) slices ->
  assemble py_float heap slices = Ok v ->
  exists s t,
    item 0 "array_dim" heap = Some (VStr s)
    /\ int_float py_float s = Ok t
    /\ item (vol_header v) "array_dim" (vol_heap v) = Some (VStr s).
Proof.
  intros Hne Hall H.
  assert (Hsh : Forall (fun x => Np.shape x = [a; b]) slices).
  { eapply Forall_impl; [exact Hall|]. by intros x [? _]. }
  pose proof (assemble_frame _ _ _ _ H) as (Hr & (_ & _ & Hk) & _).
  rewrite Hr, (Hk "array_dim"%string) by done.
  unfold assemble in H.
  rewrite (stack_same slices [a; b] Hne Hsh), bind_Ok in H.
  cbn [Np.ndim Np.shape length] in H. change (3 <? 4)%nat with true in H.
  cbv iota in H.
  apply bind_ok in H as (tr & _ & H).
  apply bind_ok in H as (x & _ & H).
  apply bind_ok in H as (vd & _ & H).
  apply bind_ok in H as (heap2 & H2 & H).
  apply bind_ok in H as (ad & Had & H).
  apply bind_ok in H as (t & Ht & _).
  destruct ad as [s| | | |]; try discriminate.
  exists s, t. split_and!; try done.
  - apply get_item_item in Had.
    destruct (bool_decide _) in H2.
    + apply bind_ok in H2 as (r & _ & H2).
      apply bind_ok in H2 as (rvd & _ & H2). injection H2 as <-.
      by rewrite !item_set_other in Had by done.
    + injection H2 as <-. by rewrite item_set_other in Had by done.
  - apply get_item_item in Had.
    destruct (bool_decide _) in H2.
    + apply bind_ok in H2 as (r & _ & H2).
      apply bind_ok in H2 as (rvd & _ & H2). injection H2 as <-.
      by rewrite !item_set_other in Had by done.
    + injection H2 as <-. by rewrite item_set_other in Had by done.
Qed.

End ArrayDim.

(** ** The theorems above on the example files *)

Lemma the_ok_pair_dict {A} `{Inhabited A} (r : result (A * pyobj)) :
  is_ok r = true -> is_dict (the r).2 = true ->
  r = Ok ((the r).1, ObjDict (dict_of (the r).2)).
Proof. by destruct r as [[a [h|x]]|e]. Qed.

Lemma the_ok_dict_pair {B} `{Inhabited B} (r : result (pyobj * B)) :
  is_ok r = true -> is_dict (the r).1 = true ->
  r = Ok (ObjDict (dict_of (the r).1), (the r).2).
Proof. by destruct r as [[[h|x] b]|e]. Qed.

Lemma Forall_array_check sh (l : list Np.ndarray) :
  forallb (fun x => bool_decide (Np.shape x = sh)
                    && (length (Np.flat x) =? Np.size sh)%nat) l = true ->
  Forall (is_array sh) l.
Proof.
  intros H. rewrite forallb_forall in H. apply Forall_forall. intros x Hx.
  apply list_elem_of_In in Hx. apply H in Hx.
  apply andb_prop in Hx as [H1 H2].
  split; [by apply bool_decide_eq_true in H1 | by apply Nat.eqb_eq in H2].
Qed.

Lemma Forall_slice_check a b (l : list Np.ndarray) :
  forallb (fun x => bool_decide (Np.shape x = [a; b])
                    && (length (Np.flat x) =? a * b)%nat) l = true ->
  Forall (is_slice a b) l.
Proof.
  intros H. rewrite forallb_forall in H. apply Forall_forall. intros x Hx.
  apply list_elem_of_In in Hx. apply H in Hx.
  apply andb_prop in Hx as [H1 H2].
  split; [by apply bool_decide_eq_true in H1 | by apply Nat.eqb_eq in H2].
Qed.

Lemma read_file_needs_matrix_witness :
  exists (h : header) a,
    read_file Fl.of_decimal example_file = Ok (h, a)
    /\ (exists line, line ∈ Py.readlines example_file /\ is_form_feed_line line)
    /\ exists line sh,
         line ∈ Py.readlines example_file /\ is_matrix_line line = true
         /\ sh = Py.int_of_digits <$> Re.findall digits_regex (Py.rstrip line)
         /\ h !! "shape" = Some (VInts sh)
         /\ Forall (fun d => 0 <= d) sh.
Proof.
  set (r := read_file Fl.of_decimal example_file).
  assert (E : r = Ok ((the r).1, (the r).2))
    by (apply the_ok_pair; vm_compute; reflexivity).
  exists (the r).1, (the r).2. split; [exact E|].
  apply (read_file_needs_matrix Fl.of_decimal example_file _ _ E).
Defined.

Lemma read_file_axes_witness :
  exists (h : header) a,
    read_file Fl.of_decimal example_file = Ok (h, a)
    /\ h !! "shape" = Some (VInts [4; 4])
    /\ Np.ndim a = length (non_unit [4; 4])
    /\ (if bool_decide (length [4; 4] = 2%nat)
        then non_unit [4; 4] = [4; 4]
        else length (non_unit [4; 4]) = 3%nat).
Proof.
  set (r := read_file Fl.of_decimal example_file).
  assert (E : r = Ok ((the r).1, (the r).2))
    by (apply the_ok_pair; vm_compute; reflexivity).
  assert (S : (the r).1 !! "shape" = Some (VInts [4; 4]))
    by (vm_compute; reflexivity).
  exists (the r).1, (the r).2. split; [exact E|]. split; [exact S|].
  apply (read_file_axes Fl.of_decimal example_file _ _ [4; 4] E S).
Defined.

Lemma read_file_plane_witness :
  exists (h : header) a,
    read_file Fl.of_decimal example_file = Ok (h, a)
    /\ h !! "shape" = Some (VInts [Z.of_nat 4; Z.of_nat 4])
    /\ exists e,
         h !! "endian" = Some (VStr e)
         /\ Np.shape a = [4; 4]%nat
         /\ forall i j : nat, (i < 4)%nat -> (j < 4)%nat ->
              at_index a [i; j]
              = payload_floats (Py.contains "<" e) (Z.of_nat (4 * 4)) example_file
                  !!! (j * 4 + i)%nat.
Proof.
  set (r := read_file Fl.of_decimal example_file).
  assert (E : r = Ok ((the r).1, (the r).2))
    by (apply the_ok_pair; vm_compute; reflexivity).
  assert (S : (the r).1 !! "shape" = Some (VInts [Z.of_nat 4; Z.of_nat 4]))
    by (vm_compute; reflexivity).
  exists (the r).1, (the r).2. split; [exact E|]. split; [exact S|].
  apply (read_file_plane Fl.of_decimal example_file _ _ 4 4 E S).
  vm_compute. reflexivity.
Defined.

Lemma read_file_cube_witness :
  exists (h : header) a,
    read_file Fl.of_decimal cube_file = Ok (h, a)
    /\ h !! "shape" = Some (VInts [Z.of_nat 2; Z.of_nat 3; Z.of_nat 2])
    /\ exists e,
         h !! "endian" = Some (VStr e)
         /\ Np.shape a = [3; 2; 2]%nat
         /\ forall i j k : nat, (i < 3)%nat -> (j < 2)%nat -> (k < 2)%nat ->
              at_index a [i; j; k]
              = payload_floats (Py.contains "<" e) (Z.of_nat (2 * 3 * 2)) cube_file
                  !!! ((k * 3 + i) * 2 + j)%nat.
Proof.
  set (r := read_file Fl.of_decimal cube_file).
  assert (E : r = Ok ((the r).1, (the r).2))
    by (apply the_ok_pair; vm_compute; reflexivity).
  assert (S : (the r).1 !! "shape"
              = Some (VInts [Z.of_nat 2; Z.of_nat 3; Z.of_nat 2]))
    by (vm_compute; reflexivity).
  exists (the r).1, (the r).2. split; [exact E|]. split; [exact S|].
  apply (read_file_cube Fl.of_decimal cube_file _ _ 2 3 2 E S).
  vm_compute. reflexivity.
Defined.

Lemma read_file_header_entries_witness :
  exists (h : header) a,
    read_file Fl.of_decimal example_file = Ok (h, a)
    /\ map_Forall header_entry_ok h
    /\ Forall (fun k => is_Some (h !! k)) required_keys.
Proof.
  set (r := read_file Fl.of_decimal example_file).
  assert (E : r = Ok ((the r).1, (the r).2))
    by (apply the_ok_pair; vm_compute; reflexivity).
  exists (the r).1, (the r).2. split; [exact E|].
  apply (read_file_header_entries Fl.of_decimal example_file _ _ E).
Defined.

Lemma read_file_tag_values_witness :
  exists (h : header) a,
    read_file Fl.of_decimal example_file = Ok (h, a)
    /\ "endian"%string ∈ tag_keys
    /\ h !! "endian" = Some (VStr "0")
    /\ exists s, VStr "0" = VStr s /\ is_tag_value s.
Proof.
  set (r := read_file Fl.of_decimal example_file).
  assert (E : r = Ok ((the r).1, (the r).2))
    by (apply the_ok_pair; vm_compute; reflexivity).
  assert (K : "endian"%string ∈ tag_keys)
    by (do 4 apply list_elem_of_further; apply list_elem_of_here).
  assert (V : (the r).1 !! "endian" = Some (VStr "0"))
    by (vm_compute; reflexivity).
  exists (the r).1, (the r).2. split; [exact E|]. split; [exact K|].
  split; [exact V|].
  apply (read_file_tag_values Fl.of_decimal example_file _ _ _ _ E K V).
Defined.

(** Two slices of a series without repetition. *)
Lemma stack_without_time_witness :
  exists slices_read : list (header * Np.ndarray),
    mapM (fun fl => read_file Fl.of_decimal fl.2) (sorted_by_name two_plain_slices)
    = Ok slices_read
    /\ length slices_read = 2%nat
    /\ exists v,
         assemble Fl.of_decimal (fst <$> slices_read) (snd <$> slices_read) = Ok v
         /\ Np.shape (vol_data v) = [2; 2; length (snd <$> slices_read)]%nat
         /\ (forall i j k : nat,
               (i < 2)%nat -> (j < 2)%nat ->
               (k < length (snd <$> slices_read))%nat ->
               at_index (vol_data v) [i; j; k]
               = at_index ((snd <$> slices_read) !!! k) [i; j])
         /\ item (vol_header v) "shape" (vol_heap v)
            = Some (VInts [Z.of_nat 2; Z.of_nat 2;
                           Z.of_nat (length (snd <$> slices_read))])
         /\ item (vol_header v) "voxel_dim" (vol_heap v)
            = Some (VNums (if bool_decide (length [NumF 5; NumF 5] = 3%nat)
                           then [NumF 5; NumF 5]
                           else [NumF 5; NumF 5]
                                ++ (NumF <$> drop 2 [10; 10; 1]%float))).
Proof.
  set (r := mapM (fun fl => read_file Fl.of_decimal fl.2)
              (sorted_by_name two_plain_slices)).
  assert (E : r = Ok (the r)) by (apply the_ok; vm_compute; reflexivity).
  assert (L : length (the r) = 2%nat) by (vm_compute; reflexivity).
  exists (the r). split; [exact E|]. split; [exact L|].
  apply (stack_without_time Fl.of_decimal (fst <$> the r) (snd <$> the r)
           ((fst <$> the r) !!! 0%nat) 2 2 [NumF 5; NumF 5]
           [10; 10; 1]%float "1" 1).
  - apply list_lookup_lookup_total_lt. rewrite length_fmap, L. lia.
  - intros H. apply (f_equal length) in H. rewrite length_fmap, L in H.
    discriminate.
  - apply Forall_slice_check. vm_compute. reflexivity.
  - vm_compute. reflexivity.
  - vm_compute. reflexivity.
  - vm_compute. reflexivity.
  - vm_compute. reflexivity.
  - lia.
Defined.

(** Four slices of a series of two repetitions. *)
Lemma volume_elements_witness :
  exists (slices_read : list (header * Np.ndarray)) v,
    mapM (fun fl => read_file Fl.of_decimal fl.2) (sorted_by_name four_slices)
    = Ok slices_read
    /\ assemble Fl.of_decimal (fst <$> slices_read) (snd <$> slices_read) = Ok v
    /\ ((Np.shape (vol_data v) = [2; 2; length (snd <$> slices_read)]%nat
         /\ forall i j k : nat,
              (i < 2)%nat -> (j < 2)%nat ->
              (k < length (snd <$> slices_read))%nat ->
              at_index (vol_data v) [i; j; k]
              = at_index ((snd <$> slices_read) !!! k) [i; j])
        \/ (exists t q : nat,
              (1 < t)%nat
              /\ Np.shape (vol_data v) = [2; 2; q; t]%nat
              /\ forall i j k l : nat,
                   (i < 2)%nat -> (j < 2)%nat -> (k < q)%nat -> (l < t)%nat ->
                   (k * t + l < length (snd <$> slices_read))%nat
                   /\ at_index (vol_data v) [i; j; k; l]
                      = at_index ((snd <$> slices_read) !!! (k * t + l)%nat)
                          [i; j])).
Proof.
  set (r := mapM (fun fl => read_file Fl.of_decimal fl.2)
              (sorted_by_name four_slices)).
  assert (E : r = Ok (the r)) by (apply the_ok; vm_compute; reflexivity).
  assert (L : length (the r) = 4%nat) by (vm_compute; reflexivity).
  set (w := assemble Fl.of_decimal (fst <$> the r) (snd <$> the r)).
  assert (E2 : w = Ok (the w)) by (apply the_ok; vm_compute; reflexivity).
  exists (the r), (the w). split; [exact E|]. split; [exact E2|].
  apply (volume_elements Fl.of_decimal (fst <$> the r) (snd <$> the r)
           (the w) 2 2).
  - intros H. apply (f_equal length) in H. rewrite length_fmap, L in H.
    discriminate.
  - apply Forall_slice_check. vm_compute. reflexivity.
  - exact E2.
Defined.

(** Two files of 2x3x2 numbers each. *)
Lemma stack_of_volumes_witness :
  exists slices_read : list (header * Np.ndarray),
    mapM (fun fl => read_file Fl.of_decimal fl.2) (sorted_by_name two_cubes)
    = Ok slices_read
    /\ length slices_read = 2%nat
    /\ exists v,
         assemble Fl.of_decimal (fst <$> slices_read) (snd <$> slices_read) = Ok v
         /\ Np.shape (vol_data v) = [2; 2; 3; length (snd <$> slices_read)]%nat
         /\ (forall i j k l : nat,
               (i < 2)%nat -> (j < 2)%nat -> (k < 3)%nat ->
               (l < length (snd <$> slices_read))%nat ->
               at_index (vol_data v) [i; j; k; l]
               = at_index ((snd <$> slices_read) !!! l) [k; i; j])
         /\ item (vol_header v) "shape" (vol_heap v)
            = Some (VInts [Z.of_nat 2; Z.of_nat 2; Z.of_nat 3;
                           Z.of_nat (length (snd <$> slices_read))])
         /\ item (vol_header v) "voxel_dim" (vol_heap v)
            = Some (VNums (voxel_dims [2; 3; 2] [10; 10; 10]%float
                           ++ [NumF 1%float])).
Proof.
  set (r := mapM (fun fl => read_file Fl.of_decimal fl.2)
              (sorted_by_name two_cubes)).
  assert (E : r = Ok (the r)) by (apply the_ok; vm_compute; reflexivity).
  assert (L : length (the r) = 2%nat) by (vm_compute; reflexivity).
  exists (the r). split; [exact E|]. split; [exact L|].
  apply (stack_of_volumes Fl.of_decimal (fst <$> the r) (snd <$> the r)
           ((fst <$> the r) !!! 0%nat) 3 2 2
           (voxel_dims [2; 3; 2] [10; 10; 10]%float)).
  - apply list_lookup_lookup_total_lt. rewrite length_fmap, L. lia.
  - intros H. apply (f_equal length) in H. rewrite length_fmap, L in H.
    discriminate.
  - apply Forall_array_check. vm_compute. reflexivity.
  - vm_compute. reflexivity.
Defined.

Lemma read_directory_returns_volume_witness :
  exists r,
    read_directory Fl.of_decimal four_slices = Ok r
    /\ exists v,
         r = Some v /\ four_slices <> []
         /\ vol_header v = 0%nat
         /\ length (vol_heap v) = length four_slices.
Proof.
  set (r := read_directory Fl.of_decimal four_slices).
  assert (E : r = Ok (the r)) by (apply the_ok; vm_compute; reflexivity).
  exists (the r). split; [exact E|].
  apply (read_directory_returns_volume Fl.of_decimal four_slices _ E).
Defined.

Lemma read_directory_unreadable_file_witness :
  read_file Fl.of_decimal EmptyString = Raise IndexError
  /\ exists e', read_directory Fl.of_decimal broken_directory = Raise e'.
Proof.
  assert (E : read_file Fl.of_decimal EmptyString = Raise IndexError)
    by (vm_compute; reflexivity).
  split; [exact E|].
  apply (read_directory_unreadable_file Fl.of_decimal broken_directory
           "b.fdf" EmptyString IndexError).
  - apply list_elem_of_further, list_elem_of_here.
  - exact E.
Defined.

Lemma read_directory_listing_order_witness :
  NoDup (fst <$> four_slices)
  /\ read_directory Fl.of_decimal four_slices
     = read_directory Fl.of_decimal (reverse four_slices).
Proof.
  assert (N : NoDup (fst <$> four_slices)).
  { apply (proj1 (bool_decide_spec _)). vm_compute. exact I. }
  split; [exact N|].
  apply (read_directory_listing_order Fl.of_decimal four_slices
           (reverse four_slices)).
  - symmetry. apply reverse_Permutation.
  - exact N.
Defined.

Lemma load_fdf_directory_witness :
  exists x y,
    load_fdf Fl.of_decimal (mkworld (Directory four_slices) (Some procpar_lines))
    = Ok (x, y)
    /\ exists v (h0 h' : header),
         read_directory Fl.of_decimal four_slices = Ok (Some v)
         /\ vol_heap v !! vol_header v = Some h0
         /\ x = ObjArray (vol_data v) /\ y = ObjDict h'
         /\ (forall k, k ∉ ["bvalue"; "diff_x"; "diff_y"; "diff_z"]%string ->
                       h' !! k = h0 !! k)
         /\ (Some procpar_lines = None -> h' = h0).
Proof.
  set (r := load_fdf Fl.of_decimal
              (mkworld (Directory four_slices) (Some procpar_lines))).
  assert (E : r = Ok ((the r).1, (the r).2))
    by (apply the_ok_pair; vm_compute; reflexivity).
  exists (the r).1, (the r).2. split; [exact E|].
  apply (load_fdf_directory Fl.of_decimal four_slices (Some procpar_lines) _ _ E).
Defined.

Lemma gradients_from_procpar_witness :
  exists r,
    add_gradient_info Fl.of_decimal procpar_lines (ObjDict ∅) = Ok r
    /\ (r = ObjDict ∅
        \/ exists lb lx ly lz bv dx dy dz (h' : header),
             r = ObjDict h'
             /\ follows "bvalue" lb procpar_lines
             /\ follows "dpe " lx procpar_lines
             /\ follows "dro " ly procpar_lines
             /\ follows "dsl " lz procpar_lines
             /\ floats_after_key Fl.of_decimal lb = Ok bv
             /\ floats_after_key Fl.of_decimal lx = Ok dx
             /\ floats_after_key Fl.of_decimal ly = Ok dy
             /\ floats_after_key Fl.of_decimal lz = Ok dz
             /\ h' !! "bvalue" = Some (VFloats bv)
             /\ h' !! "diff_x" = Some (VFloats (PrimFloat.opp <$> dx))
             /\ h' !! "diff_y" = Some (VFloats dy)
             /\ h' !! "diff_z" = Some (VFloats dz)
             /\ forall k, k ∉ ["bvalue"; "diff_x"; "diff_y"; "diff_z"]%string ->
                          h' !! k = (∅ : header) !! k).
Proof.
  set (r := add_gradient_info Fl.of_decimal procpar_lines (ObjDict ∅)).
  assert (E : r = Ok (the r)) by (apply the_ok; vm_compute; reflexivity).
  exists (the r). split; [exact E|].
  apply (gradients_from_procpar Fl.of_decimal procpar_lines ∅ _ E).
Defined.

Lemma procpar_ends_on_tag_witness :
  Forall (fun l => is_tag_line l = false) ["seqfil 1"%string]
  /\ is_tag_line "bvalue 1" = true
  /\ add_gradient_info Fl.of_decimal
       (["seqfil 1"%string] ++ ["bvalue 1"%string]) (ObjDict ∅)
     = Raise StopIteration.
Proof.
  assert (P : Forall (fun l => is_tag_line l = false) ["seqfil 1"%string])
    by (repeat constructor).
  assert (T : is_tag_line "bvalue 1" = true) by reflexivity.
  split; [exact P|]. split; [exact T|].
  apply (procpar_ends_on_tag Fl.of_decimal ["seqfil 1"%string] "bvalue 1"
           (ObjDict ∅) P T).
Defined.

Lemma gradients_need_all_tags_witness :
  Forall (fun l => Py.startswith l "dsl " = false) bvalue_only
  /\ (add_gradient_info Fl.of_decimal bvalue_only (ObjDict ∅) = Ok (ObjDict ∅)
      \/ add_gradient_info Fl.of_decimal bvalue_only (ObjDict ∅)
         = Raise StopIteration).
Proof.
  assert (P : Forall (fun l => Py.startswith l "dsl " = false) bvalue_only)
    by (repeat constructor).
  split; [exact P|].
  apply (gradients_need_all_tags Fl.of_decimal "dsl " diff_z bvalue_only
           (ObjDict ∅)).
  - do 3 apply list_elem_of_further. apply list_elem_of_here.
  - exact P.
Defined.

Lemma gradient_files_written_witness :
  exists fs' r,
    write_gradient_information show_float gradient_header
      (Some "dwi.bval"%string) (Some "dwi.bvec"%string) ∅ = (fs', r)
    /\ r = Ok ()
    /\ fs' !! "dwi.bvec"
       = Some (number_line show_float [1; 0]%float ++ nl
               ++ number_line show_float [0; 1]%float ++ nl
               ++ number_line show_float [0; 0]%float)%string
    /\ ("dwi.bval"%string <> "dwi.bvec"%string ->
        fs' !! "dwi.bval" = Some (number_line show_float [0; 1000]%float))
    /\ forall k, k <> "dwi.bval"%string -> k <> "dwi.bvec"%string ->
                 fs' !! k = (∅ : gmap string string) !! k.
Proof.
  set (w := write_gradient_information show_float gradient_header
              (Some "dwi.bval"%string) (Some "dwi.bvec"%string) ∅).
  exists w.1, w.2. split; [apply surjective_pairing|].
  apply (gradient_files_written show_float gradient_header
           [0; 1000]%float [1; 0]%float [0; 1]%float [0; 0]%float
           "dwi.bval" "dwi.bvec" ∅ w.1 w.2).
  - vm_compute. reflexivity.
  - vm_compute. reflexivity.
  - vm_compute. reflexivity.
  - vm_compute. reflexivity.
  - discriminate.
  - discriminate.
  - apply surjective_pairing.
Defined.

Lemma no_procpar_no_gradient_files_witness :
  exists x (h : header),
    load_fdf Fl.of_decimal (mkworld (Directory four_slices) None)
    = Ok (x, ObjDict h)
    /\ write_gradient_information show_float h
         (Some "dwi.bval"%string) (Some "dwi.bvec"%string) ∅
       = (∅, Ok ()).
Proof.
  set (r := load_fdf Fl.of_decimal (mkworld (Directory four_slices) None)).
  assert (E : r = Ok ((the r).1, ObjDict (dict_of (the r).2)))
    by (apply the_ok_pair_dict; vm_compute; reflexivity).
  exists (the r).1, (dict_of (the r).2). split; [exact E|].
  apply (no_procpar_no_gradient_files Fl.of_decimal show_float four_slices
           (the r).1 (dict_of (the r).2)
           (Some "dwi.bval"%string) (Some "dwi.bvec"%string) ∅ E).
Defined.

Lemma single_file_no_gradient_files_witness :
  exists (h : header) y,
    load_fdf Fl.of_decimal (mkworld (RegularFile example_file) (Some bvalue_only))
    = Ok (ObjDict h, y)
    /\ write_gradient_information show_float h
         (Some "dwi.bval"%string) (Some "dwi.bvec"%string) ∅
       = (∅, Ok ()).
Proof.
  set (r := load_fdf Fl.of_decimal
              (mkworld (RegularFile example_file) (Some bvalue_only))).
  assert (E : r = Ok (ObjDict (dict_of (the r).1), (the r).2))
    by (apply the_ok_dict_pair; vm_compute; reflexivity).
  exists (dict_of (the r).1), (the r).2. split; [exact E|].
  apply (single_file_no_gradient_files Fl.of_decimal show_float example_file
           (Some bvalue_only) (dict_of (the r).1) (the r).2
           (Some "dwi.bval"%string) (Some "dwi.bvec"%string) ∅ E).
Defined.

Lemma affine_entries_from_lines_witness :
  exists (h : header) a,
    read_file Fl.of_decimal oriented_file = Ok (h, a)
    /\ h !! "origin" = Some (VFloats [0.5; 0.5]%float)
    /\ exists line fs,
         line ∈ Py.readlines oriented_file /\ is_origin_line line = true
         /\ mapM (float_of Fl.of_decimal)
              (Re.findall float_regex (Py.rstrip line)) = Ok fs
         /\ VFloats [0.5; 0.5]%float = VFloats fs.
Proof.
  set (r := read_file Fl.of_decimal oriented_file).
  assert (E : r = Ok ((the r).1, (the r).2))
    by (apply the_ok_pair; vm_compute; reflexivity).
  assert (V : (the r).1 !! "origin" = Some (VFloats [0.5; 0.5]%float))
    by (vm_compute; reflexivity).
  exists (the r).1, (the r).2. split; [exact E|]. split; [exact V|].
  apply (affine_entries_from_lines Fl.of_decimal oriented_file _ _
           "origin" is_origin_line _ E).
  - apply list_elem_of_further, list_elem_of_here.
  - exact V.
Defined.

Lemma slices_need_array_dim_witness :
  exists (slices_read : list (header * Np.ndarray)) v,
    mapM (fun fl => read_file Fl.of_decimal fl.2) (sorted_by_name four_slices)
    = Ok slices_read
    /\ assemble Fl.of_decimal (fst <$> slices_read) (snd <$> slices_read) = Ok v
    /\ exists s t,
         item 0 "array_dim" (fst <$> slices_read) = Some (VStr s)
         /\ int_float Fl.of_decimal s = Ok t
         /\ item (vol_header v) "array_dim" (vol_heap v) = Some (VStr s).
Proof.
  set (r := mapM (fun fl => read_file Fl.of_decimal fl.2)
              (sorted_by_name four_slices)).
  assert (E : r = Ok (the r)) by (apply the_ok; vm_compute; reflexivity).
  assert (L : length (the r) = 4%nat) by (vm_compute; reflexivity).
  set (w := assemble Fl.of_decimal (fst <$> the r) (snd <$> the r)).
  assert (E2 : w = Ok (the w)) by (apply the_ok; vm_compute; reflexivity).
  exists (the r), (the w). split; [exact E|]. split; [exact E2|].
  apply (slices_need_array_dim Fl.of_decimal (fst <$> the r) (snd <$> the r)
           (the w) 2 2).
  - intros H. apply (f_equal length) in H. rewrite length_fmap, L in H.
    discriminate.
  - apply Forall_slice_check. vm_compute. reflexivity.
  - exact E2.
Defined.
